(** * Lexmount Browser client (tools/lexmount_browser.py)

    A shallow embedding of the three classes of the module, [Session],
    [Sessions] and [Browser], together with the parts of the libraries they
    call: [str.rstrip], [urllib.parse.urljoin] and [urlparse], and the
    [requests] calls.  The network is an oracle; every method is a
    computation over a world made of the object heap, the log of the
    requests issued and the standard output. *)

From Stdlib Require Import String Ascii List ZArith Lia Bool.
From Stdlib Require Import DecimalString.
From Stdlib Require Import PrimFloat.
Import ListNotations.
Open Scope list_scope.
Open Scope string_scope.
Set Warnings "-register-all".

(** ** Python values

    The values that [json] decoding produces and that the client passes
    around: [None], booleans, integers, floats, strings, lists and
    dictionaries (in insertion order). *)

Inductive value : Type :=
| PyNone
| PyBool (b : bool)
| PyInt (n : Z)
| PyFloat (f : float)
| PyStr (s : string)
| PyList (items : list value)
| PyDict (items : list (string * value)).

Definition is_empty (s : string) : bool :=
  match s with
  | "" => true
  | String _ _ => false
  end.

(** [bool(v)]: the truth value tested by [if v:] and [if not v:]. *)
Definition truthy (v : value) : bool :=
  match v with
  | PyNone => false
  | PyBool b => b
  | PyInt n => negb (n =? 0)%Z
  | PyFloat f => negb (PrimFloat.eqb f PrimFloat.zero)
  | PyStr s => negb (is_empty s)
  | PyList items => match items with [] => false | _ :: _ => true end
  | PyDict items => match items with [] => false | _ :: _ => true end
  end.

(** Lookup in a dictionary.  A decoded dictionary has one entry per key. *)
Fixpoint assoc (key : string) (items : list (string * value)) : option value :=
  match items with
  | [] => None
  | (k, v) :: rest => if String.eqb k key then Some v else assoc key rest
  end.

(** ** Strings *)

Definition is_char (c : ascii) : ascii -> bool := Ascii.eqb c.

Arguments is_char : simpl never.

(** [s.rstrip(chars)], the characters given as a predicate: every trailing
    character of the class is removed. *)
Fixpoint rstrip (p : ascii -> bool) (s : string) : string :=
  match s with
  | "" => ""
  | String a s' =>
      let r := rstrip p s' in
      if is_empty r && p a then "" else String a r
  end.

(** [s.lstrip(chars)], the characters given as a predicate. *)
Fixpoint lstrip (p : ascii -> bool) (s : string) : string :=
  match s with
  | "" => ""
  | String a s' => if p a then lstrip p s' else s
  end.

(** [s.replace(c, "")] for every character [c] of a class. *)
Fixpoint remove_chars (p : ascii -> bool) (s : string) : string :=
  match s with
  | "" => ""
  | String a s' => if p a then remove_chars p s' else String a (remove_chars p s')
  end.

Fixpoint forallb_string (p : ascii -> bool) (s : string) : bool :=
  match s with
  | "" => true
  | String a s' => p a && forallb_string p s'
  end.

Definition existsb_string (p : ascii -> bool) (s : string) : bool :=
  negb (forallb_string (fun a => negb (p a)) s).

(** [break p s = (s[:i], s[i:])] where [i] is the index of the first
    character of [s] in the class [p], or [len(s)] when there is none. *)
Fixpoint break (p : ascii -> bool) (s : string) : string * string :=
  match s with
  | "" => ("", "")
  | String a s' =>
      if p a then ("", s)
      else let (pre, post) := break p s' in (String a pre, post)
  end.

Definition tail (s : string) : string :=
  match s with
  | "" => ""
  | String _ s' => s'
  end.

(** [s.strip(chars)]. *)
Definition strip (p : ascii -> bool) (s : string) : string := lstrip p (rstrip p s).

(** [s.split(c)]: never empty, one more item than there are [c] in [s]. *)
Fixpoint split_on (c : ascii) (s : string) : list string :=
  match s with
  | "" => [""]
  | String a s' =>
      match split_on c s' with
      | [] => [""]
      | seg :: segs => if Ascii.eqb a c then "" :: seg :: segs else String a seg :: segs
      end
  end.

(** [sep.join(items)]. *)
Fixpoint join (sep : string) (items : list string) : string :=
  match items with
  | [] => ""
  | [x] => x
  | x :: rest => x ++ sep ++ join sep rest
  end.

Definition code (a : ascii) : nat := nat_of_ascii a.

Definition between (lo hi : nat) (a : ascii) : bool :=
  Nat.leb lo (code a) && Nat.leb (code a) hi.

Definition is_upper (a : ascii) : bool := between 65 90 a.
Definition is_lower (a : ascii) : bool := between 97 122 a.
Definition is_digit (a : ascii) : bool := between 48 57 a.

(** [c.isascii() and c.isalpha()]. *)
Definition is_ascii_alpha (a : ascii) : bool := is_upper a || is_lower a.

Definition lower_char (a : ascii) : ascii :=
  if is_upper a then ascii_of_nat (code a + 32) else a.

Fixpoint lower (s : string) : string :=
  match s with
  | "" => ""
  | String a s' => String (lower_char a) (lower s')
  end.

Definition str_of_Z (n : Z) : string := NilZero.string_of_int (Z.to_int n).

(** ** Exceptions

    [RequestException] stands for [requests.RequestException] and the
    subclasses the library raises ([ConnectionError], [Timeout], [HTTPError],
    [MissingSchema], ...).  [RequestsJSONDecodeError] is
    [requests.exceptions.JSONDecodeError] (requests 2.27 and later), a
    subclass of both [RequestException] and [ValueError].  [ValueError]
    also stands for its subclass [json.JSONDecodeError]. *)

Inductive exn : Type :=
| RequestException (msg : string)
| RequestsJSONDecodeError (msg : string)
| ValueError (msg : string)
| AttributeError (msg : string).

(** [str(e)]. *)
Definition str (e : exn) : string :=
  match e with
  | RequestException msg | RequestsJSONDecodeError msg
  | ValueError msg | AttributeError msg => msg
  end.

(** [isinstance(e, requests.exceptions.RequestException)]. *)
Definition is_RequestException (e : exn) : bool :=
  match e with
  | RequestException _ | RequestsJSONDecodeError _ => true
  | ValueError _ | AttributeError _ => false
  end.

(** [isinstance(e, (KeyError, ValueError))]. *)
Definition is_KeyError_or_ValueError (e : exn) : bool :=
  match e with
  | ValueError _ | RequestsJSONDecodeError _ => true
  | RequestException _ | AttributeError _ => false
  end.

Inductive Result (A : Type) : Type :=
| Raise (e : exn)
| Return (a : A).

Arguments Raise {A} e.
Arguments Return {A} a.

(** ** HTTP calls and responses *)

Inductive Method : Type := GET | POST | DELETE.

(** The arguments of one [requests.get], [requests.post] or
    [requests.delete] call. *)
Record Call : Type := {
  call_method : Method;
  call_url : string;
  call_params : list (string * value);
  call_json : option value;
  call_headers : list (string * string)
}.

(** What the client reads of a [requests.Response]: the status line, the
    final URL and the outcome of [response.json()], either the decoded value
    or the decoder's message when the body is not valid JSON. *)
Record Response : Type := {
  status_code : Z;
  reason : string;
  url : string;
  body : string + value
}.

(** A call either raises a [RequestException] (connection refused, timeout,
    invalid URL, ...) with the given message, or gives a response. *)
Inductive Outcome : Type :=
| Fails (msg : string)
| Responds (r : Response).

(** ** Objects *)

Definition ref : Type := nat.

Module Session.
Record attrs : Type := {
  id : value;
  _browser : ref;
  webSocketDebuggerUrl : option string
}.
End Session.

Module Sessions.
Record attrs : Type := { _browser : ref }.
End Sessions.

Module Browser.
Record attrs : Type := {
  api_key : string;
  base_url : string;
  sessions : option ref
}.
End Browser.

Inductive obj : Type :=
| OSession (a : Session.attrs)
| OSessions (a : Sessions.attrs)
| OBrowser (a : Browser.attrs).

(** ** The world and the environment

    The world is what a method can change: the heap of objects, the log of
    the calls made through [requests] (oldest first) and the lines printed.
    The environment is what it cannot: the server, which answers a call
    knowing the calls made before it; whether the installed [requests]
    raises its own [JSONDecodeError] (2.27 and later) or lets the decoder's
    [ValueError] through; and the check [urlsplit] applies to a network
    location with a bracketed host, which gives the message of the
    [ValueError] it raises, if any. *)

Record World : Type := {
  heap : list obj;
  calls : list Call;
  stdout : list string
}.

Record Env : Type := {
  server : list Call -> Call -> Outcome;
  json_error_is_request_exception : bool;
  check_bracketed_netloc : string -> option string
}.

Definition with_heap (h : list obj) (w : World) : World :=
  {| heap := h; calls := calls w; stdout := stdout w |}.

Definition with_calls (cs : list Call) (w : World) : World :=
  {| heap := heap w; calls := cs; stdout := stdout w |}.

Definition with_stdout (out : list string) (w : World) : World :=
  {| heap := heap w; calls := calls w; stdout := out |}.

(** ** Computations *)

Definition M (A : Type) : Type := Env -> World -> Result A * World.

Definition ret {A : Type} (a : A) : M A := fun _ w => (Return a, w).

Definition raise {A : Type} (e : exn) : M A := fun _ w => (Raise e, w).

Definition bind {A B : Type} (m : M A) (k : A -> M B) : M B :=
  fun env w =>
    match m env w with
    | (Raise e, w') => (Raise e, w')
    | (Return a, w') => k a env w'
    end.

Notation "x <- m ;; k" := (bind m (fun x => k))
  (at level 61, m at next level, right associativity).
Notation "m ;; k" := (bind m (fun _ => k))
  (at level 61, right associativity).

(** A fallible pure function used as a statement. *)
Definition lift {A : Type} (r : Result A) : M A := fun _ w => (r, w).

(** [try: m  except C1 as e: h1  except C2 as e: h2 ...]: the first clause
    whose class matches handles the exception; with none, it propagates. *)
Fixpoint find_handler {A : Type} (e : exn)
    (handlers : list ((exn -> bool) * (exn -> M A))) : option (M A) :=
  match handlers with
  | [] => None
  | (matches, h) :: rest => if matches e then Some (h e) else find_handler e rest
  end.

Definition try_except {A : Type} (m : M A)
    (handlers : list ((exn -> bool) * (exn -> M A))) : M A :=
  fun env w =>
    match m env w with
    | (Raise e, w') =>
        match find_handler e handlers with
        | Some h => h env w'
        | None => (Raise e, w')
        end
    | (Return a, w') => (Return a, w')
    end.

Definition ask : M Env := fun env w => (Return env, w).

(** [print(line)]. *)
Definition print (line : string) : M unit :=
  fun _ w => (Return tt, with_stdout (stdout w ++ [line])%list w).

(** A new object; its reference is the next free index of the heap. *)
Definition alloc (o : obj) : M ref :=
  fun _ w => (Return (length (heap w)), with_heap (heap w ++ [o])%list w).

Fixpoint update {A : Type} (i : nat) (x : A) (l : list A) {struct l} : list A :=
  match l, i with
  | [], _ => []
  | _ :: l', O => x :: l'
  | y :: l', S i' => y :: update i' x l'
  end.

Definition load_Session (self : ref) : M Session.attrs :=
  fun _ w =>
    match nth_error (heap w) self with
    | Some (OSession a) => (Return a, w)
    | _ => (Raise (AttributeError "object is not a Session"), w)
    end.

Definition load_Sessions (self : ref) : M Sessions.attrs :=
  fun _ w =>
    match nth_error (heap w) self with
    | Some (OSessions a) => (Return a, w)
    | _ => (Raise (AttributeError "object is not a Sessions"), w)
    end.

Definition load_Browser (self : ref) : M Browser.attrs :=
  fun _ w =>
    match nth_error (heap w) self with
    | Some (OBrowser a) => (Return a, w)
    | _ => (Raise (AttributeError "object is not a Browser"), w)
    end.

(** [self.webSocketDebuggerUrl = v] on a [Session]. *)
Definition set_webSocketDebuggerUrl (self : ref) (v : option string) : M unit :=
  a <- load_Session self ;;
  fun _ w =>
    (Return tt,
     with_heap
       (update self
          (OSession {| Session.id := Session.id a;
                       Session._browser := Session._browser a;
                       Session.webSocketDebuggerUrl := v |})
          (heap w)) w).

(** [self.sessions = s] on a [Browser]. *)
Definition set_sessions (self : ref) (s : ref) : M unit :=
  a <- load_Browser self ;;
  fun _ w =>
    (Return tt,
     with_heap
       (update self
          (OBrowser {| Browser.api_key := Browser.api_key a;
                       Browser.base_url := Browser.base_url a;
                       Browser.sessions := Some s |})
          (heap w)) w).

(** ** urllib.parse

    [urlsplit], [urlparse], [urlunsplit], [urlunparse] and [urljoin] on
    [str] arguments, with [allow_fragments] at its default.  [_checknetloc],
    which only rejects characters beyond Latin-1, has no counterpart. *)

Definition uses_relative : list string :=
  [""; "ftp"; "http"; "gopher"; "nntp"; "imap"; "wais"; "file"; "https";
   "shttp"; "mms"; "prospero"; "rtsp"; "rtspu"; "sftp"; "svn"; "svn+ssh";
   "ws"; "wss"].

Definition uses_netloc : list string :=
  [""; "ftp"; "http"; "gopher"; "nntp"; "telnet"; "imap"; "wais"; "file";
   "mms"; "https"; "shttp"; "snews"; "prospero"; "rtsp"; "rtspu"; "rsync";
   "svn"; "svn+ssh"; "sftp"; "nfs"; "git"; "git+ssh"; "ws"; "wss"].

Definition uses_params : list string :=
  [""; "ftp"; "hdl"; "prospero"; "http"; "imap"; "https"; "shttp"; "rtsp";
   "rtspu"; "sip"; "sips"; "mms"; "sftp"; "tel"].

Definition mem (s : string) (l : list string) : bool := existsb (String.eqb s) l.

Arguments mem : simpl never.

(** [_WHATWG_C0_CONTROL_OR_SPACE]: the characters 0 to 32. *)
Definition c0_control_or_space (a : ascii) : bool := Nat.leb (code a) 32.

(** [_UNSAFE_URL_BYTES_TO_REMOVE]: tab, carriage return, line feed. *)
Definition unsafe_url_byte (a : ascii) : bool :=
  Nat.eqb (code a) 9 || Nat.eqb (code a) 13 || Nat.eqb (code a) 10.

(** [scheme_chars]: letters, digits and [+-.]. *)
Definition scheme_char (a : ascii) : bool :=
  is_lower a || is_upper a || is_digit a
  || is_char "+" a || is_char "-" a || is_char "." a.

Definition netloc_delim (a : ascii) : bool :=
  is_char "/" a || is_char "?" a || is_char "#" a.

Definition starts_with_alpha (s : string) : bool :=
  match s with
  | "" => false
  | String a _ => is_ascii_alpha a
  end.

Definition contains (c : ascii) (s : string) : bool := existsb_string (is_char c) s.

Record SplitResult : Type := {
  split_scheme : string;
  split_netloc : string;
  split_path : string;
  split_query : string;
  split_fragment : string
}.

Record ParseResult : Type := {
  scheme : string;
  netloc : string;
  path : string;
  params : string;
  query : string;
  fragment : string
}.

(** [url.split(c, 1)] when [c in url]: the parts before and after the first [c]. *)
Definition split_once (c : ascii) (s : string) : option (string * string) :=
  let (pre, post) := break (is_char c) s in
  match post with
  | "" => None
  | String _ rest => Some (pre, rest)
  end.

Definition urlsplit (check : string -> option string) (url scheme : string)
  : Result SplitResult :=
  let url := lstrip c0_control_or_space url in
  let scheme := strip c0_control_or_space scheme in
  let url := remove_chars unsafe_url_byte url in
  let scheme := remove_chars unsafe_url_byte scheme in
  let (scheme, url) :=
    match split_once ":" url with
    | Some (pre, rest) =>
        if negb (is_empty pre) && starts_with_alpha url
           && forallb_string scheme_char pre
        then (lower pre, rest)
        else (scheme, url)
    | None => (scheme, url)
    end in
  let after_netloc (netloc url : string) : Result SplitResult :=
    let (url, fragment) :=
      match split_once "#" url with
      | Some (u, f) => (u, f)
      | None => (url, "")
      end in
    let (url, query) :=
      match split_once "?" url with
      | Some (u, q) => (u, q)
      | None => (url, "")
      end in
    Return {| split_scheme := scheme; split_netloc := netloc; split_path := url;
              split_query := query; split_fragment := fragment |} in
  match url with
  | String "/" (String "/" rest) =>
      let (netloc, url) := break netloc_delim rest in
      if xorb (contains "[" netloc) (contains "]" netloc)
      then Raise (ValueError "Invalid IPv6 URL")
      else if contains "[" netloc && contains "]" netloc
      then match check netloc with
           | Some msg => Raise (ValueError msg)
           | None => after_netloc netloc url
           end
      else after_netloc netloc url
  | _ => after_netloc "" url
  end.

(** [(s[:j], s[j:])] for [j = s.rfind(c)], and [("", s)] when [c] is not in [s]. *)
Fixpoint rbreak (c : ascii) (s : string) : string * string :=
  match s with
  | "" => ("", "")
  | String a s' =>
      if contains c s'
      then let (pre, post) := rbreak c s' in (String a pre, post)
      else ("", s)
  end.

(** [_splitparams(url)], which [urlparse] calls only when [';' in url]. *)
Definition _splitparams (url : string) : string * string :=
  let (head, last) := rbreak "/" url in
  match split_once ";" last with
  | Some (pre, post) => (head ++ pre, post)
  | None => (url, "")
  end.

Definition urlparse (check : string -> option string) (url scheme : string)
  : Result ParseResult :=
  match urlsplit check url scheme with
  | Raise e => Raise e
  | Return r =>
      let (url, params) :=
        if mem (split_scheme r) uses_params && contains ";" (split_path r)
        then _splitparams (split_path r)
        else (split_path r, "") in
      Return {| scheme := split_scheme r; netloc := split_netloc r; path := url;
                params := params; query := split_query r;
                fragment := split_fragment r |}
  end.

Definition starts_with (c : ascii) (s : string) : bool :=
  match s with
  | "" => false
  | String a _ => Ascii.eqb a c
  end.

Definition starts_with_2 (c : ascii) (s : string) : bool :=
  match s with
  | String a (String b _) => Ascii.eqb a c && Ascii.eqb b c
  | _ => false
  end.

Definition urlunsplit (scheme netloc url query fragment : string) : string :=
  let url :=
    if negb (is_empty netloc)
       || (negb (is_empty scheme) && mem scheme uses_netloc
           && negb (starts_with_2 "/" url))
    then
      let url := if negb (is_empty url) && negb (starts_with "/" url)
                 then "/" ++ url else url in
      "//" ++ netloc ++ url
    else url in
  let url := if negb (is_empty scheme) then scheme ++ ":" ++ url else url in
  let url := if negb (is_empty query) then url ++ "?" ++ query else url in
  let url := if negb (is_empty fragment) then url ++ "#" ++ fragment else url in
  url.

Definition urlunparse (scheme netloc url params query fragment : string) : string :=
  let url := if negb (is_empty params) then url ++ ";" ++ params else url in
  urlunsplit scheme netloc url query fragment.

(** [segments[1:-1] = filter(None, segments[1:-1])]. *)
Definition filter_middle (segments : list string) : list string :=
  match segments with
  | [] => []
  | first :: rest =>
      match rev rest with
      | [] => [first]
      | last :: middle_rev =>
          (first :: filter (fun s => negb (is_empty s)) (rev middle_rev) ++ [last])%list
      end
  end.

(** The loop over [segments] that drops ["."] and resolves [".."]. *)
Definition resolve_segments (segments : list string) : list string :=
  fold_left
    (fun resolved seg =>
       if String.eqb seg ".." then removelast resolved
       else if String.eqb seg "." then resolved
       else (resolved ++ [seg])%list)
    segments [].

Definition urljoin (check : string -> option string) (base url : string)
  : Result string :=
  if is_empty base then Return url
  else if is_empty url then Return base
  else
    match urlparse check base "" with
    | Raise e => Raise e
    | Return b =>
        match urlparse check url (scheme b) with
        | Raise e => Raise e
        | Return u =>
            if negb (String.eqb (scheme u) (scheme b))
               || negb (mem (scheme u) uses_relative)
            then Return url
            else if mem (scheme u) uses_netloc && negb (is_empty (netloc u))
            then Return (urlunparse (scheme u) (netloc u) (path u) (params u)
                           (query u) (fragment u))
            else
              let netloc' := if mem (scheme u) uses_netloc then netloc b
                             else netloc u in
              if is_empty (path u) && is_empty (params u)
              then Return (urlunparse (scheme u) netloc' (path b) (params b)
                             (if is_empty (query u) then query b else query u)
                             (fragment u))
              else
                let base_parts := split_on "/" (path b) in
                let base_parts :=
                  if negb (is_empty (last base_parts "")) then removelast base_parts
                  else base_parts in
                let segments :=
                  if starts_with "/" (path u) then split_on "/" (path u)
                  else filter_middle (base_parts ++ split_on "/" (path u))%list in
                let resolved_path := resolve_segments segments in
                let resolved_path :=
                  if String.eqb (last segments "") "."
                     || String.eqb (last segments "") ".."
                  then (resolved_path ++ [""])%list else resolved_path in
                let joined := join "/" resolved_path in
                Return (urlunparse (scheme u) netloc'
                          (if is_empty joined then "/" else joined)
                          (params u) (query u) (fragment u))
        end
    end.

(** ** requests *)

(** One call through [requests]: it is logged, and the server answers. *)
Definition request (c : Call) : M Response :=
  fun env w =>
    let w' := with_calls (calls w ++ [c])%list w in
    match server env (calls w) c with
    | Fails msg => (Raise (RequestException msg), w')
    | Responds r => (Return r, w')
    end.

(** [requests.get(url, params=params)]. *)
Definition requests_get (url : string) (params : list (string * value)) : M Response :=
  request {| call_method := GET; call_url := url; call_params := params;
             call_json := None; call_headers := [] |}.

(** [requests.post(url, json=json, headers=headers)]. *)
Definition requests_post (url : string) (json : value)
    (headers : list (string * string)) : M Response :=
  request {| call_method := POST; call_url := url; call_params := [];
             call_json := Some json; call_headers := headers |}.

(** [requests.delete(url, params=params)]. *)
Definition requests_delete (url : string) (params : list (string * value)) : M Response :=
  request {| call_method := DELETE; call_url := url; call_params := params;
             call_json := None; call_headers := [] |}.

(** The message [raise_for_status] builds: one for a status from 400 to
    499, one for a status from 500 to 599, none for any other status. *)
Definition http_error_msg (r : Response) : option string :=
  if ((400 <=? status_code r) && (status_code r <? 500))%Z
  then Some (str_of_Z (status_code r) ++ " Client Error: " ++ reason r
             ++ " for url: " ++ url r)
  else if ((500 <=? status_code r) && (status_code r <? 600))%Z
  then Some (str_of_Z (status_code r) ++ " Server Error: " ++ reason r
             ++ " for url: " ++ url r)
  else None.

(** [response.raise_for_status()]: an [HTTPError] when there is a message. *)
Definition raise_for_status (r : Response) : M unit :=
  match http_error_msg r with
  | Some msg => raise (RequestException msg)
  | None => ret tt
  end.

(** [response.json()]. *)
Definition json (r : Response) : M value :=
  env <- ask ;;
  match body r with
  | inl msg =>
      raise (if json_error_is_request_exception env
             then RequestsJSONDecodeError msg
             else ValueError msg)
  | inr v => ret v
  end.

(** [type(v).__name__]. *)
Definition type_name (v : value) : string :=
  match v with
  | PyNone => "NoneType"
  | PyBool _ => "bool"
  | PyInt _ => "int"
  | PyFloat _ => "float"
  | PyStr _ => "str"
  | PyList _ => "list"
  | PyDict _ => "dict"
  end.

Definition no_attribute (v : value) (name : string) : exn :=
  AttributeError ("'" ++ type_name v ++ "' object has no attribute '" ++ name ++ "'").

(** [data.get(key)]: only a dictionary has the method. *)
Definition get (data : value) (key : string) : M value :=
  match data with
  | PyDict items =>
      ret (match assoc key items with
           | Some v => v
           | None => PyNone
           end)
  | _ => raise (no_attribute data "get")
  end.

(** [urljoin(base, url)] on strings, as a statement. *)
Definition py_urljoin (base url : string) : M string :=
  env <- ask ;;
  lift (urljoin (check_bracketed_netloc env) base url).

(** [urlparse(v)] on a truthy value: a string is parsed, anything else is
    taken for bytes and has no [decode]. *)
Definition py_urlparse (v : value) : M ParseResult :=
  env <- ask ;;
  match v with
  | PyStr s => lift (urlparse (check_bracketed_netloc env) s "")
  | _ => raise (no_attribute v "decode")
  end.

(** ** class Session *)

Definition _get_web_socket_debugger_url (self : ref) : M unit :=
  try_except
    (this <- load_Session self ;;
     browser <- load_Browser (Session._browser this) ;;
     url <- py_urljoin (Browser.base_url browser) "/json/version" ;;
     let params := [("session_id", Session.id this)] in
     response <- requests_get url params ;;
     raise_for_status response ;;
     data <- json response ;;
     full_ws_url <- get data "webSocketDebuggerUrl" ;;
     if truthy full_ws_url
     then
       parsed <- py_urlparse full_ws_url ;;
       set_webSocketDebuggerUrl self (Some (path parsed))
     else set_webSocketDebuggerUrl self None)
    [(is_RequestException,
      fun e =>
        print ("Warning: Failed to get WebSocket debugger URL: " ++ str e) ;;
        set_webSocketDebuggerUrl self None)].

(** [Session(session_id, browser)]: the new object with its three
    attributes assigned, then the lookup of the debugger URL. *)
Definition Session__init__ (session_id : value) (browser : ref) : M ref :=
  self <- alloc (OSession {| Session.id := session_id;
                             Session._browser := browser;
                             Session.webSocketDebuggerUrl := None |}) ;;
  _get_web_socket_debugger_url self ;;
  ret self.

(** ** class Sessions *)

(** [Sessions(browser)]. *)
Definition Sessions__init__ (browser : ref) : M ref :=
  alloc (OSessions {| Sessions._browser := browser |}).

Definition create (self : ref) (project_id : string) : M ref :=
  this <- load_Sessions self ;;
  browser <- load_Browser (Sessions._browser this) ;;
  url <- py_urljoin (Browser.base_url browser) "/instance" ;;
  let payload := PyDict [("project_id", PyStr project_id);
                         ("api_key", PyStr (Browser.api_key browser))] in
  let headers := [("Content-Type", "application/json")] in
  try_except
    (response <- requests_post url payload headers ;;
     raise_for_status response ;;
     data <- json response ;;
     session_id <- get data "session_id" ;;
     if negb (truthy session_id)
     then raise (ValueError "No session_id returned from API")
     else Session__init__ session_id (Sessions._browser this))
    [(is_RequestException,
      fun e => raise (RequestException ("Failed to create session: " ++ str e)));
     (is_KeyError_or_ValueError,
      fun e => raise (ValueError ("Invalid response from API: " ++ str e)))].

(** ** class Browser *)

Definition default_base_url : string := "https://freelw.cc".

(** [Browser(api_key, base_url)]. *)
Definition Browser__init__ (api_key base_url : string) : M ref :=
  self <- alloc (OBrowser {| Browser.api_key := api_key;
                             Browser.base_url := rstrip (is_char "/") base_url;
                             Browser.sessions := None |}) ;;
  sessions <- Sessions__init__ self ;;
  set_sessions self sessions ;;
  ret self.

Definition health_check (self : ref) : M value :=
  this <- load_Browser self ;;
  url <- py_urljoin (Browser.base_url this) "/health" ;;
  try_except
    (response <- requests_get url [] ;;
     raise_for_status response ;;
     json response)
    [(is_RequestException,
      fun e => raise (RequestException ("Health check failed: " ++ str e)))].

Definition get_session_logs (self : ref) (session_id : string) : M value :=
  this <- load_Browser self ;;
  url <- py_urljoin (Browser.base_url this) ("/logs/" ++ session_id) ;;
  try_except
    (response <- requests_get url [] ;;
     raise_for_status response ;;
     json response)
    [(is_RequestException,
      fun e => raise (RequestException ("Failed to get session logs: " ++ str e)))].

Definition delete_session (self : ref) (session_id : string) : M bool :=
  this <- load_Browser self ;;
  url <- py_urljoin (Browser.base_url this) "/instance" ;;
  let params := [("session_id", PyStr session_id)] in
  try_except
    (response <- requests_delete url params ;;
     raise_for_status response ;;
     ret true)
    [(is_RequestException,
      fun e => raise (RequestException ("Failed to delete session: " ++ str e)))].

(** [s[:n]]. *)
Fixpoint take (n : nat) (s : string) : string :=
  match n, s with
  | O, _ => ""
  | S _, "" => ""
  | S n', String a s' => String a (take n' s')
  end.

Definition Browser__str__ (self : ref) : M string :=
  this <- load_Browser self ;;
  ret ("Browser(api_key='" ++ take 8 (Browser.api_key this)
       ++ "...', base_url='" ++ Browser.base_url this ++ "')").

Definition Browser__repr__ (self : ref) : M string := Browser__str__ self.

(** [LexmountBrowser = Browser]. *)
Definition LexmountBrowser__init__ : string -> string -> M ref := Browser__init__.

(** ** The calls the client makes *)

Definition health_call (url : string) : Call :=
  {| call_method := GET; call_url := url; call_params := [];
     call_json := None; call_headers := [] |}.

Definition logs_call (url : string) : Call := health_call url.

Definition version_call (url : string) (session_id : value) : Call :=
  {| call_method := GET; call_url := url;
     call_params := [("session_id", session_id)];
     call_json := None; call_headers := [] |}.

Definition create_call (url project_id api_key : string) : Call :=
  {| call_method := POST; call_url := url; call_params := [];
     call_json := Some (PyDict [("project_id", PyStr project_id);
                                ("api_key", PyStr api_key)]);
     call_headers := [("Content-Type", "application/json")] |}.

Definition delete_call (url session_id : string) : Call :=
  {| call_method := DELETE; call_url := url;
     call_params := [("session_id", PyStr session_id)];
     call_json := None; call_headers := [] |}.

(** The world once one more call is logged. *)
Definition logged (c : Call) (w : World) : World :=
  with_calls (calls w ++ [c])%list w.

(** A status from 200 to 299. *)
Definition is_2xx (r : Response) : Prop := (200 <= status_code r < 300)%Z.

(** A status from 400 to 599, the ones [raise_for_status] raises for. *)
Definition is_error_status (r : Response) : bool :=
  ((400 <=? status_code r) && (status_code r <? 600))%Z.

(** What a call that gets a response without an error status, and decodes
    its body, comes to. *)
Definition decoded (prefix : string) (r : Response) (env : Env) (w : World)
  : Result value * World :=
  match body r with
  | inl msg =>
      (Raise (if json_error_is_request_exception env
              then RequestException (prefix ++ msg)
              else ValueError msg), w)
  | inr v => (Return v, w)
  end.

(** The line the lookup of the debugger URL prints when it fails. *)
Definition warning (msg : string) : string :=
  "Warning: Failed to get WebSocket debugger URL: " ++ msg.

Definition session (session_id : value) (browser : ref) (ws : option string) : obj :=
  OSession {| Session.id := session_id;
              Session._browser := browser;
              Session.webSocketDebuggerUrl := ws |}.

(** The world after one call in which the object [self] was replaced and
    some lines were printed. *)
Definition stored (self : ref) (o : obj) (c : Call) (out : list string) (w : World) : World :=
  {| heap := update self o (heap w);
     calls := (calls w ++ [c])%list;
     stdout := (stdout w ++ out)%list |}.

(** The world after one call in which an object was created and some
    lines were printed. *)
Definition constructed (o : obj) (c : Call) (out : list string) (w : World) : World :=
  {| heap := (heap w ++ [o])%list;
     calls := (calls w ++ [c])%list;
     stdout := (stdout w ++ out)%list |}.

(** ** Notions used in the statements *)

(** The characters that end the path of a URL. *)
Definition query_or_fragment_delim (a : ascii) : bool :=
  is_char "?" a || is_char "#" a.

(** What [urlsplit] keeps of [s] when it cuts a fragment or a query off:
    the part before the first [c], or [s] when there is none. *)
Definition cut (c : ascii) (s : string) : string :=
  match split_once c s with
  | Some (pre, _) => pre
  | None => s
  end.

(** A WebSocket URL: the scheme [ws] or [wss], an authority
    ([host], [host:port], ...), a path that is empty or starts with a
    slash, and a suffix that is empty or a query or a fragment. *)
Definition ws_url (secure : bool) (authority p suffix : string) : string :=
  (if secure then "wss" else "ws") ++ "://" ++ authority ++ p ++ suffix.

(** The characters of an authority: no [/], [?] or [#], and no tab,
    carriage return or line feed. *)
Definition authority_char (a : ascii) : bool :=
  negb (netloc_delim a) && negb (unsafe_url_byte a).

(** The characters of a path: no [?] or [#], and no tab, carriage return
    or line feed. *)
Definition path_char (a : ascii) : bool :=
  negb (query_or_fragment_delim a) && negb (unsafe_url_byte a).

(** An authority has no bracket, or has both and passes the check that
    [urlsplit] applies to a bracketed host. *)
Definition brackets_accepted (check : string -> option string) (authority : string) : bool :=
  if contains "[" authority
  then contains "]" authority
       && match check authority with None => true | Some _ => false end
  else negb (contains "]" authority).

(** A path is empty or starts with a slash. *)
Definition path_abempty (p : string) : bool :=
  (is_empty p || starts_with "/" p) && forallb_string path_char p.

(** What follows the path is nothing, or starts with [?] or [#]. *)
Definition query_or_fragment (suffix : string) : bool :=
  is_empty suffix || starts_with "?" suffix || starts_with "#" suffix.

(** Whether the lookup of the debugger URL copes with what the server does:
    it does with a failure of the transport, an error status, an undecodable
    body when the decoder's error is a [RequestException], and a dictionary
    whose [webSocketDebuggerUrl] is absent, falsy or a string that
    [urlparse] accepts. *)
Definition lookup_settles (env : Env) (o : Outcome) : bool :=
  match o with
  | Fails _ => true
  | Responds r =>
      match http_error_msg r with
      | Some _ => true
      | None =>
          match body r with
          | inl _ => json_error_is_request_exception env
          | inr (PyDict items) =>
              match assoc "webSocketDebuggerUrl" items with
              | None => true
              | Some v =>
                  negb (truthy v)
                  || match v with
                     | PyStr s =>
                         match urlparse (check_bracketed_netloc env) s "" with
                         | Return _ => true
                         | Raise _ => false
                         end
                     | _ => false
                     end
              end
          | inr _ => false
          end
      end
  end.

(** The lookup of the debugger URL fails in the transport, or is answered
    with a status from 400 to 599, or is answered with another status by a
    JSON object that has no [webSocketDebuggerUrl]. *)
Definition lookup_fails (o : Outcome) : Prop :=
  match o with
  | Fails _ => True
  | Responds r =>
      is_error_status r = true
      \/ (is_error_status r = false
          /\ exists items, body r = inr (PyDict items)
                           /\ assoc "webSocketDebuggerUrl" items = None)
  end.


(** The last character of a string, if it has one. *)
Definition last_char (s : string) : option ascii :=
  match rev (list_ascii_of_string s) with
  | [] => None
  | a :: _ => Some a
  end.

(** What a caller can do with the module. *)
Inductive operation : Type :=
| NewBrowser (api_key base_url : string)
| NewSessions (browser : ref)
| NewSession (session_id : value) (browser : ref)
| Lookup (self : ref)
| Create (self : ref) (project_id : string)
| HealthCheck (self : ref)
| GetSessionLogs (self : ref) (session_id : string)
| DeleteSession (self : ref) (session_id : string).

(** The world an operation leaves, whether it returns or raises. *)
Definition after (env : Env) (op : operation) (w : World) : World :=
  match op with
  | NewBrowser api_key base_url => snd (Browser__init__ api_key base_url env w)
  | NewSessions browser => snd (Sessions__init__ browser env w)
  | NewSession session_id browser => snd (Session__init__ session_id browser env w)
  | Lookup self => snd (_get_web_socket_debugger_url self env w)
  | Create self project_id => snd (create self project_id env w)
  | HealthCheck self => snd (health_check self env w)
  | GetSessionLogs self session_id => snd (get_session_logs self session_id env w)
  | DeleteSession self session_id => snd (delete_session self session_id env w)
  end.

(** The world a sequence of operations leaves. *)
Definition after_all (env : Env) (ops : list operation) (w : World) : World :=
  fold_left (fun w op => after env op w) ops w.

(** A computation that leaves every [Browser] of the heap as it is. *)
Definition keeps_browsers {A : Type} (m : M A) : Prop :=
  forall env w i B,
    nth_error (heap w) i = Some (OBrowser B) ->
    nth_error (heap (snd (m env w))) i = Some (OBrowser B).

(** ** Notions used in the further properties *)

(** The calls the client can make: the GET of [/health] or of the logs of
    a session, the GET of the lookup, the DELETE of a session and the POST
    that creates one. *)
Definition client_call (c : Call) : Prop :=
  (exists u, c = health_call u)
  \/ (exists u v, c = version_call u v)
  \/ (exists u s, c = delete_call u s)
  \/ (exists u p k, c = create_call u p k).

Definition is_warning (line : string) : Prop := exists msg, line = warning msg.

(** A relation between the world before and the world after holds of a
    computation, however it ends. *)
Definition maintains (R : World -> World -> Prop) {A : Type} (m : M A) : Prop :=
  forall env w, R w (snd (m env w)).

(** The log of calls and the output only grow, by calls of the client and
    by warnings. *)
Definition log_grows (w w' : World) : Prop :=
  exists cs out,
    calls w' = (calls w ++ cs)%list /\ Forall client_call cs
    /\ stdout w' = (stdout w ++ out)%list /\ Forall is_warning out.

(** Two states of one object: a [Session] keeps its [id] and its browser, a
    [Sessions] its browser, a [Browser] its API key and its base URL. *)
Definition same_identity (o o' : obj) : Prop :=
  match o, o' with
  | OSession a, OSession a' =>
      Session.id a = Session.id a' /\ Session._browser a = Session._browser a'
  | OSessions a, OSessions a' => a = a'
  | OBrowser a, OBrowser a' =>
      Browser.api_key a = Browser.api_key a' /\ Browser.base_url a = Browser.base_url a'
  | _, _ => False
  end.

(** Every object of the heap is still there, with its identity. *)
Definition objects_persist (w w' : World) : Prop :=
  forall i o, nth_error (heap w) i = Some o ->
              exists o', nth_error (heap w') i = Some o' /\ same_identity o o'.

(** Every object of the heap is still there, unchanged, but possibly the
    object [self]. *)
Definition others_kept (self : ref) (w w' : World) : Prop :=
  forall i o, i <> self -> nth_error (heap w) i = Some o -> nth_error (heap w') i = Some o.

(** Every object of the heap is still there, unchanged. *)
Definition existing_kept (w w' : World) : Prop :=
  forall i o, nth_error (heap w) i = Some o -> nth_error (heap w') i = Some o.

(** An operation of the public interface: anything but the private lookup. *)
Definition is_public (op : operation) : bool :=
  match op with
  | Lookup _ => false
  | _ => true
  end.

(** Two objects that are the same but, for two browsers, possibly their
    API key. *)
Definition same_but_key (o o' : obj) : Prop :=
  match o, o' with
  | OSession a, OSession a' => a = a'
  | OSessions a, OSessions a' => a = a'
  | OBrowser a, OBrowser a' =>
      Browser.base_url a = Browser.base_url a'
      /\ Browser.sessions a = Browser.sessions a'
  | _, _ => False
  end.

(** Two worlds that are the same but possibly for the API keys of their
    browsers: the same calls made, the same lines printed, and object by
    object the same heap. *)
Definition same_but_keys (w w' : World) : Prop :=
  Forall2 same_but_key (heap w) (heap w')
  /\ calls w = calls w' /\ stdout w = stdout w'.

(** Two computations agree when, from two worlds that are the same but for
    the API keys, they end in two such worlds and both raise the same
    exception or both return, with related results. *)
Definition agree {A : Type} (RA : A -> A -> Prop) (m m' : M A) : Prop :=
  forall env w w',
    same_but_keys w w' ->
    same_but_keys (snd (m env w)) (snd (m' env w'))
    /\ match fst (m env w), fst (m' env w') with
       | Return a, Return a' => RA a a'
       | Raise e, Raise e' => e = e'
       | _, _ => False
       end.

(** Two browsers with the same base URL and the same [sessions]. *)
Definition same_but_api_key (a a' : Browser.attrs) : Prop :=
  Browser.base_url a = Browser.base_url a' /\ Browser.sessions a = Browser.sessions a'.

(** The operations other than [create]. *)
Definition sends_no_key (op : operation) : bool :=
  match op with
  | Create _ _ => false
  | _ => true
  end.

(** ** Example servers and worlds *)

Definition response (status : Z) (why : string) (content : string + value) : Response :=
  {| status_code := status; reason := why; url := ""; body := content |}.

(** A server that answers by the method of the call alone. *)
Definition by_method (on_get on_post on_delete : Outcome) : list Call -> Call -> Outcome :=
  fun _ c =>
    match call_method c with
    | GET => on_get
    | POST => on_post
    | DELETE => on_delete
    end.

Definition accept_any_host (_ : string) : option string := None.

Definition example_env (on_get on_post on_delete : Outcome) (new_requests : bool) : Env :=
  {| server := by_method on_get on_post on_delete;
     json_error_is_request_exception := new_requests;
     check_bracketed_netloc := accept_any_host |}.

Definition empty_world : World := {| heap := []; calls := []; stdout := [] |}.

(** The world after [Browser("secret-key", "https://freelw.cc/")]: the
    browser is object 0 and its [Sessions] is object 1. *)
Definition example_browser : Browser.attrs :=
  {| Browser.api_key := "secret-key";
     Browser.base_url := "https://freelw.cc";
     Browser.sessions := Some 1 |}.

Definition example_world : World :=
  {| heap := [OBrowser example_browser; OSessions {| Sessions._browser := 0 |}];
     calls := []; stdout := [] |}.

(** The same with a base URL whose host opens a bracket and never closes it. *)
Definition unbalanced_browser : Browser.attrs :=
  {| Browser.api_key := "secret-key";
     Browser.base_url := "http://[::1";
     Browser.sessions := Some 1 |}.

Definition unbalanced_world : World :=
  {| heap := [OBrowser unbalanced_browser; OSessions {| Sessions._browser := 0 |}];
     calls := []; stdout := [] |}.

Definition unreachable : Outcome := Fails "Connection refused".

Definition ok (v : value) : Outcome := Responds (response 200 "OK" (inr v)).

Definition session_created : value := PyDict [("session_id", PyStr "abc")].

Definition version_found : value :=
  PyDict [("Browser", PyStr "Chrome");
          ("webSocketDebuggerUrl", PyStr "ws://host:1234/devtools/page/ABC")].

Definition not_json : string + value :=
  inl "Expecting value: line 1 column 1 (char 0)".

(** A server in working order. *)
Definition env_working : Env :=
  example_env (ok version_found) (ok session_created)
    (Responds (response 204 "No Content" not_json)) true.

(** A server that cannot be reached. *)
Definition env_down : Env := example_env unreachable unreachable unreachable true.

(** A server whose [/health] answers [{"status": "ok"}]. *)
Definition env_healthy : Env :=
  example_env (ok (PyDict [("status", PyStr "ok")])) unreachable unreachable true.

(** A server that creates sessions and has no [/json/version]. *)
Definition env_no_lookup : Env :=
  example_env unreachable (ok session_created) unreachable true.

(** A server that answers the creation with an empty JSON object. *)
Definition env_no_session_id : Env :=
  example_env unreachable (ok (PyDict [])) unreachable true.

(** A server that answers the creation with a JSON list. *)
Definition env_post_list : Env :=
  example_env unreachable (ok (PyList [])) unreachable true.

(** A server whose [/json/version] answers with a JSON list. *)
Definition env_list : Env :=
  example_env (ok (PyList [])) (ok session_created) unreachable true.

(** A server whose [/json/version] answers 300 with the debugger URL. *)
Definition multiple_choices : Response :=
  response 300 "Multiple Choices" (inr version_found).

Definition env_300 : Env :=
  example_env (Responds multiple_choices) (ok session_created) unreachable true.

(** A server that answers a DELETE with 304. *)
Definition not_modified : Response := response 304 "Not Modified" not_json.

Definition env_304 : Env :=
  example_env unreachable unreachable (Responds not_modified) true.

(** A server that answers everything with 200 and a page of HTML, seen
    through a [requests] from 2.27 on and through an older one. *)
Definition html_page : Response := response 200 "OK" not_json.

Definition env_html : Env :=
  example_env (Responds html_page) (Responds html_page) (Responds html_page) true.

Definition env_html_old : Env :=
  example_env (Responds html_page) (Responds html_page) (Responds html_page) false.

(** A server whose [/json/version] gives an empty debugger URL. *)
Definition env_empty_url : Env :=
  example_env (ok (PyDict [("webSocketDebuggerUrl", PyStr "")])) unreachable
    unreachable true.

Definition instance_url : string := "https://freelw.cc/instance".
Definition version_url : string := "https://freelw.cc/json/version".
Definition health_url : string := "https://freelw.cc/health".
Definition logs_url : string := "https://freelw.cc/logs/abc".

(** The scheme [http] or [https] and an authority. *)
Definition origin (secure : bool) (authority : string) : string :=
  (if secure then "https" else "http") ++ "://" ++ authority.

(** An HTTP URL: an origin, a path that is empty or starts with a slash,
    and a suffix that is empty or a query or a fragment. *)
Definition http_url (secure : bool) (authority p suffix : string) : string :=
  (if secure then "https" else "http") ++ "://" ++ authority ++ p ++ suffix.

(** The characters of a plain identifier: letters, digits, [-] and [_]. *)
Definition plain_char (a : ascii) : bool :=
  is_lower a || is_upper a || is_digit a || is_char "-" a || is_char "_" a.

(** A world with a browser, its [Sessions] and a session that has a
    debugger URL. *)
Definition world_with_session : World :=
  {| heap := [OBrowser example_browser; OSessions {| Sessions._browser := 0 |};
              session (PyStr "abc") 0 (Some "/devtools/page/ABC")];
     calls := []; stdout := [] |}.

(** The example world with another API key for its browser. *)
Definition other_key_world : World :=
  {| heap := [OBrowser {| Browser.api_key := "another-key";
                          Browser.base_url := "https://freelw.cc";
                          Browser.sessions := Some 1 |};
              OSessions {| Sessions._browser := 0 |}];
     calls := []; stdout := [] |}.

(** The characters of a host name followed by a path: letters, digits,
    [.], [-] and [/]. *)
Definition host_path_char (a : ascii) : bool :=
  is_lower a || is_upper a || is_digit a
  || is_char "." a || is_char "-" a || is_char "/" a.

(** * Properties *)

(** ** The monad and the library calls *)

Lemma http_error_msg_none (r : Response) :
  is_error_status r = false -> http_error_msg r = None.
Proof.
  unfold is_error_status, http_error_msg. intros H.
  destruct (400 <=? status_code r)%Z eqn:E4; simpl in *.
  - destruct (status_code r <? 500)%Z eqn:E5; simpl.
    + apply Z.ltb_lt in E5. apply Z.ltb_ge in H. lia.
    + apply Z.ltb_ge in E5. apply Z.ltb_ge in H.
      destruct (500 <=? status_code r)%Z eqn:E6; simpl; [| reflexivity].
      destruct (status_code r <? 600)%Z eqn:E7; [| reflexivity].
      apply Z.ltb_lt in E7. lia.
  - apply Z.leb_gt in E4.
    destruct (500 <=? status_code r)%Z eqn:E6; simpl; [| reflexivity].
    apply Z.leb_le in E6. lia.
Qed.

Lemma http_error_msg_some (r : Response) :
  is_error_status r = true -> exists msg, http_error_msg r = Some msg.
Proof.
  unfold is_error_status, http_error_msg. intros H.
  apply andb_true_iff in H as [H4 H6]. rewrite H4. simpl.
  destruct (status_code r <? 500)%Z eqn:E5; [eauto |].
  apply Z.ltb_ge in E5. apply Z.leb_le in E5. rewrite E5, H6. simpl. eauto.
Qed.

Lemma is_2xx_not_error (r : Response) : is_2xx r -> is_error_status r = false.
Proof.
  unfold is_2xx, is_error_status. intros H.
  destruct (400 <=? status_code r)%Z eqn:E; [| reflexivity].
  apply Z.leb_le in E. lia.
Qed.

Lemma raise_for_status_passes (r : Response) (env : Env) (w : World) :
  is_error_status r = false -> raise_for_status r env w = (Return tt, w).
Proof.
  intros H. unfold raise_for_status. rewrite (http_error_msg_none r H). reflexivity.
Qed.

Lemma raise_for_status_raises (r : Response) (msg : string) (env : Env) (w : World) :
  http_error_msg r = Some msg ->
  raise_for_status r env w = (Raise (RequestException msg), w).
Proof. intros H. unfold raise_for_status. rewrite H. reflexivity. Qed.

Lemma request_run (c : Call) (env : Env) (w : World) :
  request c env w =
  match server env (calls w) c with
  | Fails msg => (Raise (RequestException msg), logged c w)
  | Responds r => (Return r, logged c w)
  end.
Proof. reflexivity. Qed.

Lemma load_Browser_run (self : ref) (B : Browser.attrs) (env : Env) (w : World) :
  nth_error (heap w) self = Some (OBrowser B) ->
  load_Browser self env w = (Return B, w).
Proof. intros H. unfold load_Browser. rewrite H. reflexivity. Qed.

Lemma load_Sessions_run (self : ref) (S : Sessions.attrs) (env : Env) (w : World) :
  nth_error (heap w) self = Some (OSessions S) ->
  load_Sessions self env w = (Return S, w).
Proof. intros H. unfold load_Sessions. rewrite H. reflexivity. Qed.

Lemma load_Session_run (self : ref) (S : Session.attrs) (env : Env) (w : World) :
  nth_error (heap w) self = Some (OSession S) ->
  load_Session self env w = (Return S, w).
Proof. intros H. unfold load_Session. rewrite H. reflexivity. Qed.

Lemma py_urljoin_run (base rel : string) (env : Env) (w : World) :
  py_urljoin base rel env w = (urljoin (check_bracketed_netloc env) base rel, w).
Proof. reflexivity. Qed.

Lemma bind_run {A B : Type} (m : M A) (k : A -> M B) (env : Env) (w : World) :
  bind m k env w =
  match m env w with
  | (Raise e, w') => (Raise e, w')
  | (Return a, w') => k a env w'
  end.
Proof. reflexivity. Qed.

Lemma try_except_run {A : Type} (m : M A) handlers (env : Env) (w : World) :
  try_except m handlers env w =
  match m env w with
  | (Raise e, w') =>
      match find_handler e handlers with
      | Some h => h env w'
      | None => (Raise e, w')
      end
  | (Return a, w') => (Return a, w')
  end.
Proof. reflexivity. Qed.

(** The three methods of [Browser] share their shape: one call, the check
    of its status and a continuation, inside a [try] whose only clause
    re-raises a [RequestException] with the method's prefix. *)
Lemma guarded_call_run {A : Type} (c : Call) (k : Response -> M A)
    (prefix : string) (env : Env) (w : World) :
  try_except
    (response <- request c ;; raise_for_status response ;; k response)
    [(is_RequestException, fun e => raise (RequestException (prefix ++ str e)))]
    env w =
  match server env (calls w) c with
  | Fails msg => (Raise (RequestException (prefix ++ msg)), logged c w)
  | Responds r =>
      match http_error_msg r with
      | Some msg => (Raise (RequestException (prefix ++ msg)), logged c w)
      | None =>
          try_except (k r)
            [(is_RequestException,
              fun e => raise (RequestException (prefix ++ str e)))]
            env (logged c w)
      end
  end.
Proof.
  rewrite try_except_run, bind_run, request_run.
  destruct (server env (calls w) c) as [msg | r]; [reflexivity |].
  rewrite bind_run. unfold raise_for_status.
  destruct (http_error_msg r) as [msg |]; [reflexivity |].
  unfold ret at 1. rewrite try_except_run. reflexivity.
Qed.

Lemma json_guarded_run (r : Response) (prefix : string) (env : Env) (w : World) :
  try_except (json r)
    [(is_RequestException, fun e => raise (RequestException (prefix ++ str e)))]
    env w =
  match body r with
  | inl msg =>
      (Raise (if json_error_is_request_exception env
              then RequestException (prefix ++ msg)
              else ValueError msg), w)
  | inr v => (Return v, w)
  end.
Proof.
  rewrite try_except_run. unfold json. rewrite bind_run. unfold ask.
  destruct (body r) as [msg | v]; [| reflexivity].
  destruct (json_error_is_request_exception env); reflexivity.
Qed.

Ltac run_prefix Hheap Hjoin :=
  rewrite bind_run, (load_Browser_run _ _ _ _ Hheap);
  rewrite bind_run, py_urljoin_run, Hjoin.

Lemma health_check_run (env : Env) (w : World) (self : ref)
    (B : Browser.attrs) (u : string) :
  nth_error (heap w) self = Some (OBrowser B) ->
  urljoin (check_bracketed_netloc env) (Browser.base_url B) "/health" = Return u ->
  health_check self env w =
  match server env (calls w) (health_call u) with
  | Fails msg =>
      (Raise (RequestException ("Health check failed: " ++ msg)),
       logged (health_call u) w)
  | Responds r =>
      match http_error_msg r with
      | Some msg =>
          (Raise (RequestException ("Health check failed: " ++ msg)),
           logged (health_call u) w)
      | None => decoded "Health check failed: " r env (logged (health_call u) w)
      end
  end.
Proof.
  intros Hheap Hjoin. unfold health_check. run_prefix Hheap Hjoin.
  unfold requests_get. fold (health_call u).
  rewrite (guarded_call_run (health_call u) json).
  destruct (server env (calls w) (health_call u)) as [msg | r]; [reflexivity |].
  destruct (http_error_msg r); [reflexivity |].
  apply json_guarded_run.
Qed.

Lemma get_session_logs_run (env : Env) (w : World) (self : ref)
    (B : Browser.attrs) (session_id u : string) :
  nth_error (heap w) self = Some (OBrowser B) ->
  urljoin (check_bracketed_netloc env) (Browser.base_url B)
    ("/logs/" ++ session_id) = Return u ->
  get_session_logs self session_id env w =
  match server env (calls w) (logs_call u) with
  | Fails msg =>
      (Raise (RequestException ("Failed to get session logs: " ++ msg)),
       logged (logs_call u) w)
  | Responds r =>
      match http_error_msg r with
      | Some msg =>
          (Raise (RequestException ("Failed to get session logs: " ++ msg)),
           logged (logs_call u) w)
      | None => decoded "Failed to get session logs: " r env (logged (logs_call u) w)
      end
  end.
Proof.
  intros Hheap Hjoin. unfold get_session_logs. run_prefix Hheap Hjoin.
  unfold requests_get. fold (health_call u). fold (logs_call u).
  rewrite (guarded_call_run (logs_call u) json).
  destruct (server env (calls w) (logs_call u)) as [msg | r]; [reflexivity |].
  destruct (http_error_msg r); [reflexivity |].
  apply json_guarded_run.
Qed.

Lemma delete_session_run (env : Env) (w : World) (self : ref)
    (B : Browser.attrs) (session_id u : string) :
  nth_error (heap w) self = Some (OBrowser B) ->
  urljoin (check_bracketed_netloc env) (Browser.base_url B) "/instance" = Return u ->
  delete_session self session_id env w =
  match server env (calls w) (delete_call u session_id) with
  | Fails msg =>
      (Raise (RequestException ("Failed to delete session: " ++ msg)),
       logged (delete_call u session_id) w)
  | Responds r =>
      match http_error_msg r with
      | Some msg =>
          (Raise (RequestException ("Failed to delete session: " ++ msg)),
           logged (delete_call u session_id) w)
      | None => (Return true, logged (delete_call u session_id) w)
      end
  end.
Proof.
  intros Hheap Hjoin. unfold delete_session. run_prefix Hheap Hjoin.
  unfold requests_delete. fold (delete_call u session_id).
  rewrite (guarded_call_run (delete_call u session_id) (fun _ => ret true)).
  destruct (server env (calls w) (delete_call u session_id)) as [msg | r];
    [reflexivity |].
  destruct (http_error_msg r); reflexivity.
Qed.

(** ** The lookup of the debugger URL *)

Lemma urlsplit_raises (check : string -> option string) (u sch : string) (e : exn) :
  urlsplit check u sch = Raise e -> exists msg, e = ValueError msg.
Proof.
  unfold urlsplit.
  repeat match goal with
         | |- context [match ?x with _ => _ end] => destruct x eqn:?
         end; intros H; try discriminate; inversion H; eauto.
Qed.

Lemma urlparse_raises (check : string -> option string) (u sch : string) (e : exn) :
  urlparse check u sch = Raise e -> exists msg, e = ValueError msg.
Proof.
  unfold urlparse. destruct (urlsplit check u sch) eqn:E.
  - intros H. inversion H. subst. eapply urlsplit_raises, E.
  - repeat match goal with
           | |- context [match ?x with _ => _ end] => destruct x
           end; discriminate.
Qed.

Lemma urljoin_raises (check : string -> option string) (base rel : string) (e : exn) :
  urljoin check base rel = Raise e -> exists msg, e = ValueError msg.
Proof.
  unfold urljoin.
  destruct (is_empty base); [discriminate |].
  destruct (is_empty rel); [discriminate |].
  destruct (urlparse check base "") as [e1 | b] eqn:E1.
  - intros H. inversion H. subst. eapply urlparse_raises, E1.
  - destruct (urlparse check rel (scheme b)) as [e2 | u] eqn:E2.
    + intros H. inversion H. subst. eapply urlparse_raises, E2.
    + repeat match goal with
             | |- context [if ?x then _ else _] => destruct x
             end; discriminate.
Qed.

Lemma set_webSocketDebuggerUrl_run (self : ref) (S : Session.attrs)
    (v : option string) (env : Env) (w : World) :
  nth_error (heap w) self = Some (OSession S) ->
  set_webSocketDebuggerUrl self v env w =
  (Return tt,
   with_heap (update self (session (Session.id S) (Session._browser S) v) (heap w)) w).
Proof.
  intros H. unfold set_webSocketDebuggerUrl.
  rewrite bind_run, (load_Session_run _ _ _ _ H). reflexivity.
Qed.

Lemma stored_silent (self : ref) (o : obj) (c : Call) (w : World) :
  with_heap (update self o (heap (logged c w))) (logged c w) = stored self o c [] w.
Proof. unfold stored, with_heap, logged, with_calls. simpl. rewrite app_nil_r. reflexivity. Qed.

Lemma failure_handled (self : ref) (S : Session.attrs) (c : Call) (msg : string)
    (env : Env) (w : World) :
  nth_error (heap w) self = Some (OSession S) ->
  (print (warning msg) ;; set_webSocketDebuggerUrl self None) env (logged c w) =
  (Return tt,
   stored self (session (Session.id S) (Session._browser S) None) c [warning msg] w).
Proof.
  intros H. rewrite bind_run. unfold print.
  rewrite (set_webSocketDebuggerUrl_run self S); [reflexivity | exact H].
Qed.

(** Everything the lookup can come to, once the URL is joined. *)
Lemma _get_web_socket_debugger_url_run (env : Env) (w : World) (self : ref)
    (S : Session.attrs) (B : Browser.attrs) (u : string) :
  nth_error (heap w) self = Some (OSession S) ->
  nth_error (heap w) (Session._browser S) = Some (OBrowser B) ->
  urljoin (check_bracketed_netloc env) (Browser.base_url B) "/json/version" = Return u ->
  let c := version_call u (Session.id S) in
  let keep (ws : option string) (out : list string) : Result unit * World :=
    (Return tt,
     stored self (session (Session.id S) (Session._browser S) ws) c out w) in
  _get_web_socket_debugger_url self env w =
  match server env (calls w) c with
  | Fails msg => keep None [warning msg]
  | Responds r =>
      match http_error_msg r with
      | Some msg => keep None [warning msg]
      | None =>
          match body r with
          | inl msg =>
              if json_error_is_request_exception env
              then keep None [warning msg]
              else (Raise (ValueError msg), logged c w)
          | inr (PyDict items) =>
              match assoc "webSocketDebuggerUrl" items with
              | None => keep None []
              | Some v =>
                  if truthy v
                  then match v with
                       | PyStr s =>
                           match urlparse (check_bracketed_netloc env) s "" with
                           | Return p => keep (Some (path p)) []
                           | Raise e => (Raise e, logged c w)
                           end
                       | _ => (Raise (no_attribute v "decode"), logged c w)
                       end
                  else keep None []
              end
          | inr v => (Raise (no_attribute v "get"), logged c w)
          end
      end
  end.
Proof.
  intros Hself Hbrowser Hjoin c keep. subst keep.
  unfold _get_web_socket_debugger_url.
  rewrite try_except_run.
  rewrite bind_run, (load_Session_run _ _ _ _ Hself).
  rewrite bind_run, (load_Browser_run _ _ _ _ Hbrowser).
  rewrite bind_run, py_urljoin_run, Hjoin.
  unfold requests_get. fold (version_call u (Session.id S)). fold c.
  rewrite bind_run, request_run.
  destruct (server env (calls w) c) as [msg | r].
  { simpl find_handler. apply (failure_handled self S c msg env w Hself). }
  rewrite bind_run. unfold raise_for_status.
  destruct (http_error_msg r) as [msg |].
  { unfold raise. simpl find_handler. apply (failure_handled self S c msg env w Hself). }
  unfold ret at 1. rewrite bind_run. unfold json at 1. rewrite bind_run. unfold ask.
  destruct (body r) as [msg | data].
  { destruct (json_error_is_request_exception env); unfold raise.
    - simpl find_handler. apply (failure_handled self S c msg env w Hself).
    - reflexivity. }
  unfold ret at 1. rewrite bind_run.
  assert (Hset : forall ws,
    set_webSocketDebuggerUrl self ws env (logged c w) =
    (Return tt, stored self (session (Session.id S) (Session._browser S) ws) c [] w)).
  { intros ws. rewrite (set_webSocketDebuggerUrl_run self S); [| exact Hself].
    rewrite stored_silent. reflexivity. }
  destruct data as [| b | n | f | s | l | items]; try reflexivity.
  unfold get, ret at 1.
  destruct (assoc "webSocketDebuggerUrl" items) as [v |].
  2: { change (truthy PyNone) with false. cbv iota. rewrite Hset. reflexivity. }
  destruct (truthy v) eqn:Hv.
  2: { rewrite Hset. reflexivity. }
  rewrite bind_run. unfold py_urlparse. rewrite bind_run. unfold ask.
  destruct v as [| b | n | f | s | l | d]; try reflexivity.
  unfold lift.
  destruct (urlparse (check_bracketed_netloc env) s "") as [e | p] eqn:Hparse.
  - destruct (urlparse_raises _ _ _ _ Hparse) as [msg ->]. reflexivity.
  - rewrite Hset. reflexivity.
Qed.

(** ** Construction of a session *)

Lemma nth_error_fresh {A : Type} (l : list A) (x : A) :
  nth_error (l ++ [x]) (length l) = Some x.
Proof. induction l as [| y l IH]; simpl; [reflexivity | exact IH]. Qed.

Lemma nth_error_old {A : Type} (l : list A) (x y : A) (i : nat) :
  nth_error l i = Some y -> nth_error (l ++ [x]) i = Some y.
Proof.
  revert i. induction l as [| z l IH]; intros [| i] H; simpl in *;
    try discriminate; [exact H | apply IH, H].
Qed.

Lemma update_fresh {A : Type} (l : list A) (x y : A) :
  update (length l) y (l ++ [x]) = (l ++ [y])%list.
Proof. induction l as [| z l IH]; simpl; [reflexivity | rewrite IH; reflexivity]. Qed.

Lemma stored_fresh (o0 o : obj) (c : Call) (out : list string) (w : World) :
  stored (length (heap w)) o c out (with_heap (heap w ++ [o0]) w) =
  constructed o c out w.
Proof. unfold stored, constructed, with_heap. simpl. rewrite update_fresh. reflexivity. Qed.

Lemma logged_fresh (o : obj) (c : Call) (w : World) :
  logged c (with_heap (heap w ++ [o]) w) = constructed o c [] w.
Proof. unfold logged, constructed, with_calls, with_heap. simpl. rewrite app_nil_r. reflexivity. Qed.

(** Everything [Session(session_id, browser)] can come to, once the URL of
    the lookup is joined. *)
Lemma Session__init___run (env : Env) (w : World) (session_id : value)
    (browser : ref) (B : Browser.attrs) (u : string) :
  nth_error (heap w) browser = Some (OBrowser B) ->
  urljoin (check_bracketed_netloc env) (Browser.base_url B) "/json/version" = Return u ->
  let c := version_call u session_id in
  let built (ws : option string) (out : list string) : Result ref * World :=
    (Return (length (heap w)), constructed (session session_id browser ws) c out w) in
  let failed (e : exn) : Result ref * World :=
    (Raise e, constructed (session session_id browser None) c [] w) in
  Session__init__ session_id browser env w =
  match server env (calls w) c with
  | Fails msg => built None [warning msg]
  | Responds r =>
      match http_error_msg r with
      | Some msg => built None [warning msg]
      | None =>
          match body r with
          | inl msg =>
              if json_error_is_request_exception env
              then built None [warning msg]
              else failed (ValueError msg)
          | inr (PyDict items) =>
              match assoc "webSocketDebuggerUrl" items with
              | None => built None []
              | Some v =>
                  if truthy v
                  then match v with
                       | PyStr s =>
                           match urlparse (check_bracketed_netloc env) s "" with
                           | Return p => built (Some (path p)) []
                           | Raise e => failed e
                           end
                       | _ => failed (no_attribute v "decode")
                       end
                  else built None []
              end
          | inr v => failed (no_attribute v "get")
          end
      end
  end.
Proof.
  intros Hbrowser Hjoin c built failed. subst built failed.
  unfold Session__init__. rewrite bind_run. unfold alloc at 1.
  fold (session session_id browser None).
  set (o := session session_id browser None).
  set (w0 := with_heap (heap w ++ [o]) w).
  rewrite bind_run.
  rewrite (_get_web_socket_debugger_url_run env w0 (length (heap w))
             {| Session.id := session_id; Session._browser := browser;
                Session.webSocketDebuggerUrl := None |} B u);
    [| apply nth_error_fresh | apply nth_error_old, Hbrowser | exact Hjoin].
  simpl Session.id. simpl Session._browser.
  change (calls w0) with (calls w). fold c.
  unfold w0.
  destruct (server env (calls w) c) as [msg | r].
  { rewrite stored_fresh. reflexivity. }
  destruct (http_error_msg r) as [msg |].
  { rewrite stored_fresh. reflexivity. }
  destruct (body r) as [msg | data].
  { destruct (json_error_is_request_exception env).
    - rewrite stored_fresh. reflexivity.
    - rewrite logged_fresh. reflexivity. }
  destruct data as [| b | n | f | s | l | items];
    try (rewrite logged_fresh; reflexivity).
  destruct (assoc "webSocketDebuggerUrl" items) as [v |].
  2: { rewrite stored_fresh. reflexivity. }
  destruct (truthy v).
  2: { rewrite stored_fresh. reflexivity. }
  destruct v as [| b | n | f | s | l | d];
    try (rewrite logged_fresh; reflexivity).
  destruct (urlparse (check_bracketed_netloc env) s "").
  - rewrite logged_fresh. reflexivity.
  - rewrite stored_fresh. reflexivity.
Qed.

Lemma Session__init___unjoined (env : Env) (w : World) (session_id : value)
    (browser : ref) (B : Browser.attrs) (e : exn) :
  nth_error (heap w) browser = Some (OBrowser B) ->
  urljoin (check_bracketed_netloc env) (Browser.base_url B) "/json/version" = Raise e ->
  Session__init__ session_id browser env w =
  (Raise e, with_heap (heap w ++ [session session_id browser None]) w).
Proof.
  intros Hbrowser Hjoin.
  unfold Session__init__. rewrite bind_run. unfold alloc at 1.
  fold (session session_id browser None).
  set (w0 := with_heap (heap w ++ [session session_id browser None]) w).
  rewrite bind_run. unfold _get_web_socket_debugger_url.
  rewrite try_except_run.
  rewrite bind_run, (load_Session_run (length (heap w))
    {| Session.id := session_id; Session._browser := browser;
       Session.webSocketDebuggerUrl := None |});
    [| apply nth_error_fresh].
  rewrite bind_run, (load_Browser_run browser B);
    [| apply nth_error_old, Hbrowser].
  rewrite bind_run, py_urljoin_run, Hjoin.
  destruct (urljoin_raises _ _ _ _ Hjoin) as [msg ->]. reflexivity.
Qed.

(** ** Sessions.create *)

(** Everything [create] can come to, once the URL is joined, up to the
    construction of the session. *)
Lemma create_run (env : Env) (w : World) (self browser : ref)
    (B : Browser.attrs) (project_id u : string) :
  nth_error (heap w) self = Some (OSessions {| Sessions._browser := browser |}) ->
  nth_error (heap w) browser = Some (OBrowser B) ->
  urljoin (check_bracketed_netloc env) (Browser.base_url B) "/instance" = Return u ->
  let c := create_call u project_id (Browser.api_key B) in
  let no_session_id : Result ref * World :=
    (Raise (ValueError "Invalid response from API: No session_id returned from API"),
     logged c w) in
  create self project_id env w =
  match server env (calls w) c with
  | Fails msg =>
      (Raise (RequestException ("Failed to create session: " ++ msg)), logged c w)
  | Responds r =>
      match http_error_msg r with
      | Some msg =>
          (Raise (RequestException ("Failed to create session: " ++ msg)), logged c w)
      | None =>
          match body r with
          | inl msg =>
              (Raise (if json_error_is_request_exception env
                      then RequestException ("Failed to create session: " ++ msg)
                      else ValueError ("Invalid response from API: " ++ msg)),
               logged c w)
          | inr (PyDict items) =>
              match assoc "session_id" items with
              | None => no_session_id
              | Some v =>
                  if truthy v
                  then
                    try_except (Session__init__ v browser)
                      [(is_RequestException,
                        fun e => raise (RequestException
                                          ("Failed to create session: " ++ str e)));
                       (is_KeyError_or_ValueError,
                        fun e => raise (ValueError
                                          ("Invalid response from API: " ++ str e)))]
                      env (logged c w)
                  else no_session_id
              end
          | inr v => (Raise (no_attribute v "get"), logged c w)
          end
      end
  end.
Proof.
  intros Hself Hbrowser Hjoin c no_session_id. subst no_session_id.
  unfold create.
  rewrite bind_run, (load_Sessions_run _ _ _ _ Hself). simpl Sessions._browser.
  rewrite bind_run, (load_Browser_run _ _ _ _ Hbrowser).
  rewrite bind_run, py_urljoin_run, Hjoin.
  unfold requests_post. fold (create_call u project_id (Browser.api_key B)). fold c.
  rewrite try_except_run, bind_run, request_run.
  destruct (server env (calls w) c) as [msg | r]; [reflexivity |].
  rewrite bind_run. unfold raise_for_status.
  destruct (http_error_msg r) as [msg |]; [reflexivity |].
  unfold ret at 1. rewrite bind_run. unfold json at 1. rewrite bind_run. unfold ask.
  destruct (body r) as [msg | data].
  { destruct (json_error_is_request_exception env); reflexivity. }
  unfold ret at 1. rewrite bind_run.
  destruct data as [| b | n | f | s | l | items]; try reflexivity.
  unfold get, ret at 1.
  destruct (assoc "session_id" items) as [v |]; [| reflexivity].
  destruct (truthy v); [| reflexivity].
  simpl negb. cbv iota. rewrite try_except_run. reflexivity.
Qed.

(** ** Strings and URLs *)

Lemma remove_chars_app (p : ascii -> bool) (a b : string) :
  remove_chars p (a ++ b) = remove_chars p a ++ remove_chars p b.
Proof.
  induction a as [| x a IH]; simpl; [reflexivity |].
  rewrite IH. destruct (p x); reflexivity.
Qed.

Lemma remove_chars_none (p : ascii -> bool) (s : string) :
  forallb_string (fun a => negb (p a)) s = true -> remove_chars p s = s.
Proof.
  induction s as [| x s IH]; simpl; [reflexivity |].
  intros H. apply andb_true_iff in H as [Hx Hs].
  apply negb_true_iff in Hx. rewrite Hx, (IH Hs). reflexivity.
Qed.

Lemma forallb_string_weaken (p q : ascii -> bool) (s : string) :
  (forall a, p a = true -> q a = true) ->
  forallb_string p s = true -> forallb_string q s = true.
Proof.
  intros Hpq. induction s as [| x s IH]; simpl; [reflexivity |].
  intros H. apply andb_true_iff in H as [Hx Hs].
  rewrite (Hpq x Hx), (IH Hs). reflexivity.
Qed.

(** A string is cut where its first delimiter stands. *)
Lemma break_app (p : ascii -> bool) (a b : string) :
  forallb_string (fun x => negb (p x)) a = true ->
  match b with
  | "" => True
  | String x _ => p x = true
  end ->
  break p (a ++ b) = (a, b).
Proof.
  intros Ha Hb. induction a as [| x a IH]; simpl in *.
  - destruct b as [| y b]; simpl; [reflexivity |]. rewrite Hb. reflexivity.
  - apply andb_true_iff in Ha as [Hx Ha]. apply negb_true_iff in Hx.
    rewrite Hx, (IH Ha). reflexivity.
Qed.

Lemma cut_break (c : ascii) (s : string) : cut c s = fst (break (is_char c) s).
Proof.
  unfold cut, split_once.
  destruct (break (is_char c) s) as [pre post] eqn:E.
  destruct post; simpl; [| reflexivity].
  revert pre E. induction s as [| x s IH]; simpl; intros pre E.
  - inversion E. reflexivity.
  - destruct (is_char c x); [discriminate |].
    destruct (break (is_char c) s) as [pre' post'].
    inversion E. subst. f_equal. apply IH. reflexivity.
Qed.

Lemma cut_cut (s : string) :
  cut "?" (cut "#" s) = fst (break query_or_fragment_delim s).
Proof.
  rewrite !cut_break.
  induction s as [| x s IH]; simpl; [reflexivity |].
  unfold query_or_fragment_delim at 1.
  destruct (is_char "#" x) eqn:Eh.
  - rewrite orb_true_r. reflexivity.
  - rewrite orb_false_r.
    destruct (break (is_char "#") s) as [pre post]. simpl in *.
    destruct (is_char "?" x); [reflexivity |].
    destruct (break (is_char "?") pre) as [pre1 post1].
    destruct (break query_or_fragment_delim s) as [pre2 post2].
    simpl in *. rewrite IH. reflexivity.
Qed.

Lemma cut_path (p suffix : string) :
  path_abempty p = true ->
  query_or_fragment suffix = true ->
  cut "?" (cut "#" (p ++ remove_chars unsafe_url_byte suffix)) = p.
Proof.
  intros Hpath Hsuf. rewrite cut_cut.
  unfold path_abempty in Hpath. apply andb_true_iff in Hpath as [_ Hchars].
  rewrite break_app; [reflexivity | |].
  - eapply forallb_string_weaken; [| exact Hchars].
    intros a Ha. unfold path_char in Ha. apply andb_true_iff in Ha as [Ha _]. exact Ha.
  - destruct suffix as [| x suffix]; simpl; [exact I |].
    unfold query_or_fragment in Hsuf. simpl in Hsuf.
    assert (Hx : query_or_fragment_delim x = true).
    { unfold query_or_fragment_delim, is_char.
      rewrite (Ascii.eqb_sym "?" x), (Ascii.eqb_sym "#" x). exact Hsuf. }
    assert (Hsafe : unsafe_url_byte x = false).
    { unfold query_or_fragment_delim, is_char in Hx.
      apply orb_true_iff in Hx as [Hx | Hx]; apply Ascii.eqb_eq in Hx; subst x;
        reflexivity. }
    rewrite Hsafe. exact Hx.
Qed.

Lemma netloc_cut (authority p suffix : string) :
  forallb_string authority_char authority = true ->
  path_abempty p = true ->
  query_or_fragment suffix = true ->
  break netloc_delim (remove_chars unsafe_url_byte (authority ++ p ++ suffix)) =
  (authority, p ++ remove_chars unsafe_url_byte suffix).
Proof.
  intros Hauth Hpath Hsuf.
  rewrite !remove_chars_app.
  rewrite (remove_chars_none _ authority), (remove_chars_none _ p).
  - apply break_app.
    + eapply forallb_string_weaken; [| exact Hauth].
      intros a Ha. unfold authority_char in Ha.
      apply andb_true_iff in Ha as [Ha _]. exact Ha.
    + unfold path_abempty in Hpath. apply andb_true_iff in Hpath as [Hstart _].
      destruct p as [| x p]; simpl.
      * destruct suffix as [| y suffix]; simpl; [exact I |].
        unfold query_or_fragment in Hsuf. simpl in Hsuf.
        apply orb_true_iff in Hsuf as [Hy | Hy]; apply Ascii.eqb_eq in Hy; subst y;
          reflexivity.
      * simpl in Hstart. apply Ascii.eqb_eq in Hstart. subst x. reflexivity.
  - unfold path_abempty in Hpath. apply andb_true_iff in Hpath as [_ Hchars].
    eapply forallb_string_weaken; [| exact Hchars].
    intros a Ha. unfold path_char in Ha. apply andb_true_iff in Ha as [_ Ha]. exact Ha.
  - eapply forallb_string_weaken; [| exact Hauth].
    intros a Ha. unfold authority_char in Ha.
    apply andb_true_iff in Ha as [_ Ha]. exact Ha.
Qed.

(** On a WebSocket URL, [urlparse] succeeds and its [path] is the path of
    the URL. *)
Lemma urlparse_ws_url (check : string -> option string) (secure : bool)
    (authority p suffix : string) :
  forallb_string authority_char authority = true ->
  brackets_accepted check authority = true ->
  path_abempty p = true ->
  query_or_fragment suffix = true ->
  exists r, urlparse check (ws_url secure authority p suffix) "" = Return r
            /\ path r = p.
Proof.
  intros Hauth Hbr Hpath Hsuf.
  pose proof (cut_path p suffix Hpath Hsuf) as Hcut.
  unfold cut in Hcut.
  unfold urlparse, urlsplit, ws_url.
  destruct secure; simpl;
    rewrite (netloc_cut authority p suffix Hauth Hpath Hsuf);
    unfold brackets_accepted in Hbr;
    destruct (contains "[" authority), (contains "]" authority);
    simpl in Hbr; try discriminate; simpl;
    try (destruct (check authority); [discriminate |]);
    destruct (split_once "#" (p ++ remove_chars unsafe_url_byte suffix))
      as [[u1 f1] |];
    match type of Hcut with
    | context [split_once "?" ?x] =>
        destruct (split_once "?" x) as [[u2 q2] |]
    end; (eexists; split; [reflexivity | simpl; exact Hcut]).
Qed.

(** The paths the client joins to the base URL never make [urljoin] raise:
    only the base URL can. *)
Lemma urlparse_rooted (check : string -> option string) (sch : string) :
  (exists r, urlparse check "/instance" sch = Return r)
  /\ (exists r, urlparse check "/json/version" sch = Return r).
Proof.
  unfold urlparse, urlsplit. simpl.
  split;
    match goal with
    | |- context [mem ?x uses_params] => destruct (mem x uses_params)
    end; simpl; eexists; reflexivity.
Qed.

Lemma urljoin_version_of_instance (check : string -> option string) (base u : string) :
  urljoin check base "/instance" = Return u ->
  exists u2, urljoin check base "/json/version" = Return u2.
Proof.
  unfold urljoin.
  destruct (is_empty base); [eauto |].
  simpl is_empty. cbv iota.
  destruct (urlparse check base "") as [e | b]; [discriminate |].
  intros _.
  destruct (urlparse_rooted check (scheme b)) as [_ [r ->]].
  repeat match goal with
         | |- context [if ?x then _ else _] => destruct x
         end; eauto.
Qed.

Lemma append_empty (s : string) : s ++ "" = s.
Proof. induction s as [| a s IH]; simpl; [reflexivity | rewrite IH; reflexivity]. Qed.

Lemma urlparse_origin (check : string -> option string) (secure : bool)
    (authority : string) :
  forallb_string authority_char authority = true ->
  brackets_accepted check authority = true ->
  urlparse check ((if secure then "https" else "http") ++ "://" ++ authority) "" =
  Return {| scheme := if secure then "https" else "http"; netloc := authority;
            path := ""; params := ""; query := ""; fragment := "" |}.
Proof.
  intros Hauth Hbr.
  pose proof (netloc_cut authority "" "" Hauth eq_refl eq_refl) as Hcut.
  simpl in Hcut. rewrite append_empty in Hcut.
  unfold urlparse, urlsplit.
  destruct secure; simpl;
    rewrite Hcut;
    unfold brackets_accepted in Hbr;
    destruct (contains "[" authority), (contains "]" authority);
    simpl in Hbr; try discriminate; simpl;
    try (destruct (check authority); [discriminate |]);
    reflexivity.
Qed.

(** For a base URL made of a scheme [http] or [https] and an authority,
    the URL of each call is the base URL followed by the path. *)
Lemma urljoin_origin (check : string -> option string) (secure : bool)
    (authority : string) :
  forallb_string authority_char authority = true ->
  brackets_accepted check authority = true ->
  let base := (if secure then "https" else "http") ++ "://" ++ authority in
  urljoin check base "/instance" = Return (base ++ "/instance")
  /\ urljoin check base "/health" = Return (base ++ "/health")
  /\ urljoin check base "/json/version" = Return (base ++ "/json/version").
Proof.
  intros Hauth Hbr base.
  pose proof (urlparse_origin check secure authority Hauth Hbr) as Hparse.
  fold base in Hparse.
  assert (Hbase : is_empty base = false) by (destruct secure; reflexivity).
  unfold urljoin. rewrite Hbase, Hparse.
  unfold base.
  destruct secure, authority; repeat split; reflexivity.
Qed.

Lemma Session__init___settles (env : Env) (w : World) (session_id : value)
    (browser : ref) (B : Browser.attrs) (u : string) :
  nth_error (heap w) browser = Some (OBrowser B) ->
  urljoin (check_bracketed_netloc env) (Browser.base_url B) "/json/version" = Return u ->
  let c := version_call u session_id in
  if lookup_settles env (server env (calls w) c)
  then exists ws out,
         Session__init__ session_id browser env w =
         (Return (length (heap w)),
          constructed (session session_id browser ws) c out w)
  else exists e,
         Session__init__ session_id browser env w =
         (Raise e, constructed (session session_id browser None) c [] w)
         /\ is_RequestException e = false.
Proof.
  intros Hbrowser Hjoin c.
  rewrite (Session__init___run env w session_id browser B u Hbrowser Hjoin).
  fold c. unfold lookup_settles.
  destruct (server env (calls w) c) as [msg | r]; [eauto |].
  destruct (http_error_msg r) as [msg |]; [eauto |].
  destruct (body r) as [msg | data].
  { destruct (json_error_is_request_exception env); eauto. }
  destruct data as [| b | n | f | s | l | items]; eauto.
  destruct (assoc "webSocketDebuggerUrl" items) as [v |]; [| eauto].
  destruct (truthy v); simpl; [| eauto].
  destruct v as [| b | n | f | s | l | d]; eauto.
  destruct (urlparse (check_bracketed_netloc env) s "") as [e | p] eqn:Hparse;
    [| eauto].
  destruct (urlparse_raises _ _ _ _ Hparse) as [msg ->]. eauto.
Qed.

Lemma Session__init___calls (env : Env) (w : World) (session_id : value)
    (browser : ref) (B : Browser.attrs) (u : string) :
  nth_error (heap w) browser = Some (OBrowser B) ->
  urljoin (check_bracketed_netloc env) (Browser.base_url B) "/json/version" = Return u ->
  calls (snd (Session__init__ session_id browser env w)) =
  (calls w ++ [version_call u session_id])%list.
Proof.
  intros Hbrowser Hjoin.
  pose proof (Session__init___settles env w session_id browser B u Hbrowser Hjoin) as H.
  simpl in H.
  destruct (lookup_settles env _).
  - destruct H as (ws & out & ->). reflexivity.
  - destruct H as (e & -> & _). reflexivity.
Qed.

(** The clauses of [create] only re-raise: the world is the one its body
    leaves, and a result is returned as it is. *)
Lemma create_handlers_world {A : Type} (m : M A) (env : Env) (w : World) :
  let handled :=
    try_except m
      [(is_RequestException,
        fun e => raise (RequestException ("Failed to create session: " ++ str e)));
       (is_KeyError_or_ValueError,
        fun e => raise (ValueError ("Invalid response from API: " ++ str e)))]
      env w in
  snd handled = snd (m env w)
  /\ (forall a, fst (m env w) = Return a -> fst handled = Return a)
  /\ (forall e, fst (m env w) = Raise e -> exists e', fst handled = Raise e').
Proof.
  simpl. rewrite try_except_run.
  destruct (m env w) as [[e | a] w']; simpl.
  - destruct (is_RequestException e); simpl.
    + repeat split; [discriminate | eauto].
    + destruct (is_KeyError_or_ValueError e); simpl;
        (repeat split; [discriminate | eauto]).
  - repeat split; [eauto | discriminate].
Qed.

Lemma create_constructs (env : Env) (w : World) (self browser : ref)
    (B : Browser.attrs) (project_id u : string) (r : Response)
    (items : list (string * value)) (v : value) (w' : World) :
  nth_error (heap w) self = Some (OSessions {| Sessions._browser := browser |}) ->
  nth_error (heap w) browser = Some (OBrowser B) ->
  urljoin (check_bracketed_netloc env) (Browser.base_url B) "/instance" = Return u ->
  server env (calls w) (create_call u project_id (Browser.api_key B)) = Responds r ->
  is_error_status r = false ->
  body r = inr (PyDict items) ->
  assoc "session_id" items = Some v ->
  truthy v = true ->
  Session__init__ v browser env
    (logged (create_call u project_id (Browser.api_key B)) w)
  = (Return (length (heap w)), w') ->
  create self project_id env w = (Return (length (heap w)), w').
Proof.
  intros Hself Hbrowser Hjoin Hserver Hstatus Hbody Hsid Htruthy Hinit.
  rewrite (create_run env w self browser B project_id u Hself Hbrowser Hjoin).
  cbv zeta.
  rewrite Hserver, (http_error_msg_none r Hstatus), Hbody, Hsid, Htruthy.
  rewrite try_except_run, Hinit. reflexivity.
Qed.

Lemma truthy_nonempty (s : string) : s <> "" -> truthy (PyStr s) = true.
Proof. destruct s; [congruence | reflexivity]. Qed.



(** When the POST to [/instance] is answered with a 2xx status by a JSON
    object that has no [session_id], or whose [session_id] is the empty
    string, [create] raises the [ValueError] "Invalid response from
    API: ..." and no [Session] is made: the heap is unchanged. *)
Lemma create_without_session_id (env : Env) (w : World) (self browser : ref)
    (B : Browser.attrs) (project_id u : string) (r : Response)
    (items : list (string * value)) :
  nth_error (heap w) self = Some (OSessions {| Sessions._browser := browser |}) ->
  nth_error (heap w) browser = Some (OBrowser B) ->
  urljoin (check_bracketed_netloc env) (Browser.base_url B) "/instance" = Return u ->
  server env (calls w) (create_call u project_id (Browser.api_key B)) = Responds r ->
  is_2xx r ->
  body r = inr (PyDict items) ->
  assoc "session_id" items = None \/ assoc "session_id" items = Some (PyStr "") ->
  create self project_id env w =
  (Raise (ValueError "Invalid response from API: No session_id returned from API"),
   logged (create_call u project_id (Browser.api_key B)) w)
  /\ heap (snd (create self project_id env w)) = heap w.
Proof.
  intros Hself Hbrowser Hjoin Hserver Hstatus Hbody Hsid.
  rewrite (create_run env w self browser B project_id u Hself Hbrowser Hjoin).
  cbv zeta.
  rewrite Hserver, (http_error_msg_none r (is_2xx_not_error r Hstatus)), Hbody.
  destruct Hsid as [-> | ->]; split; reflexivity.
Qed.

(** C2, where the code departs from it.  When the POST to [/instance] is
    answered with a 2xx status by a JSON value that is not an object
    ([null], a boolean, a number, a string or a list, none of which has a
    [session_id] field), [create] raises the [AttributeError] of
    [data.get], which neither of its clauses catches: not the [ValueError]
    "Invalid response from API: ..." that it raises for a JSON object
    without [session_id].  No [Session] is made. *)
Theorem create_body_not_an_object (env : Env) (w : World) (self browser : ref)
    (B : Browser.attrs) (project_id u : string) (r : Response) (data : value) :
  nth_error (heap w) self = Some (OSessions {| Sessions._browser := browser |}) ->
  nth_error (heap w) browser = Some (OBrowser B) ->
  urljoin (check_bracketed_netloc env) (Browser.base_url B) "/instance" = Return u ->
  server env (calls w) (create_call u project_id (Browser.api_key B)) = Responds r ->
  is_2xx r ->
  body r = inr data ->
  (forall items, data <> PyDict items) ->
  create self project_id env w =
  (Raise (AttributeError ("'" ++ type_name data ++ "' object has no attribute 'get'")),
   logged (create_call u project_id (Browser.api_key B)) w)
  /\ heap (snd (create self project_id env w)) = heap w.
Proof.
  intros Hself Hbrowser Hjoin Hserver Hstatus Hbody Hdata.
  rewrite (create_run env w self browser B project_id u Hself Hbrowser Hjoin).
  cbv zeta.
  rewrite Hserver, (http_error_msg_none r (is_2xx_not_error r Hstatus)), Hbody.
  destruct data as [| b | n | f | s | l | items]; try (split; reflexivity).
  destruct (Hdata items eq_refl).
Qed.

(** C3.  When the GET of [/json/version] is answered with a 2xx status by
    a JSON object whose [webSocketDebuggerUrl] is a WebSocket URL, scheme
    [ws] or [wss], authority, path and an optional query or fragment, the
    new [Session] stores the path and nothing else of the URL. *)
Theorem session_stores_path (env : Env) (w : World) (session_id : value)
    (browser : ref) (B : Browser.attrs) (u : string) (r : Response)
    (items : list (string * value)) (secure : bool) (authority p suffix : string) :
  nth_error (heap w) browser = Some (OBrowser B) ->
  urljoin (check_bracketed_netloc env) (Browser.base_url B) "/json/version" = Return u ->
  server env (calls w) (version_call u session_id) = Responds r ->
  is_2xx r ->
  body r = inr (PyDict items) ->
  assoc "webSocketDebuggerUrl" items = Some (PyStr (ws_url secure authority p suffix)) ->
  forallb_string authority_char authority = true ->
  brackets_accepted (check_bracketed_netloc env) authority = true ->
  path_abempty p = true ->
  query_or_fragment suffix = true ->
  Session__init__ session_id browser env w =
  (Return (length (heap w)),
   constructed (session session_id browser (Some p)) (version_call u session_id) [] w).
Proof.
  intros Hbrowser Hjoin Hserver Hstatus Hbody Hurl Hauth Hbr Hpath Hsuf.
  rewrite (Session__init___run env w session_id browser B u Hbrowser Hjoin).
  cbv zeta.
  rewrite Hserver, (http_error_msg_none r (is_2xx_not_error r Hstatus)), Hbody, Hurl.
  assert (Htruthy : truthy (PyStr (ws_url secure authority p suffix)) = true).
  { destruct secure; reflexivity. }
  rewrite Htruthy.
  destruct (urlparse_ws_url (check_bracketed_netloc env) secure authority p suffix
              Hauth Hbr Hpath Hsuf) as (parsed & -> & <-).
  reflexivity.
Qed.

Lemma Session__init___failed_lookup (env : Env) (w : World) (session_id : value)
    (browser : ref) (B : Browser.attrs) (u : string) :
  nth_error (heap w) browser = Some (OBrowser B) ->
  urljoin (check_bracketed_netloc env) (Browser.base_url B) "/json/version" = Return u ->
  lookup_fails (server env (calls w) (version_call u session_id)) ->
  exists out,
    Session__init__ session_id browser env w =
    (Return (length (heap w)),
     constructed (session session_id browser None) (version_call u session_id) out w).
Proof.
  intros Hbrowser Hjoin Hfails.
  rewrite (Session__init___run env w session_id browser B u Hbrowser Hjoin).
  cbv zeta. unfold lookup_fails in Hfails.
  destruct (server env (calls w) (version_call u session_id)) as [msg | r];
    [eauto |].
  destruct Hfails as [Herr | (Hok & items & Hbody & Habsent)].
  - destruct (http_error_msg_some r Herr) as [msg ->]. eauto.
  - rewrite (http_error_msg_none r Hok), Hbody, Habsent. eauto.
Qed.

(** C4, as amended.  When the GET of [/json/version] fails in the
    transport, or is answered with a status from 400 to 599, or is answered
    with any other status by a JSON object that has no
    [webSocketDebuggerUrl], the construction of the session returns and the
    [webSocketDebuggerUrl] of the new [Session] is [None]; a [create] whose
    POST was answered with a session id then returns that session, and no
    error reaches its caller. *)
Theorem failed_lookup_leaves_none (env : Env) (w : World) (session_id : value)
    (browser : ref) (B : Browser.attrs) (u : string) :
  nth_error (heap w) browser = Some (OBrowser B) ->
  urljoin (check_bracketed_netloc env) (Browser.base_url B) "/json/version" = Return u ->
  (lookup_fails (server env (calls w) (version_call u session_id)) ->
   exists out,
     Session__init__ session_id browser env w =
     (Return (length (heap w)),
      constructed (session session_id browser None) (version_call u session_id) out w))
  /\ (forall self project_id u1 r items,
        nth_error (heap w) self = Some (OSessions {| Sessions._browser := browser |}) ->
        urljoin (check_bracketed_netloc env) (Browser.base_url B) "/instance"
        = Return u1 ->
        let post := create_call u1 project_id (Browser.api_key B) in
        server env (calls w) post = Responds r ->
        is_error_status r = false ->
        body r = inr (PyDict items) ->
        assoc "session_id" items = Some session_id ->
        truthy session_id = true ->
        lookup_fails (server env (calls w ++ [post]) (version_call u session_id)) ->
        exists out,
          create self project_id env w =
          (Return (length (heap w)),
           constructed (session session_id browser None) (version_call u session_id)
             out (logged post w))).
Proof.
  intros Hbrowser Hjoin. split.
  - apply (Session__init___failed_lookup env w session_id browser B u Hbrowser Hjoin).
  - intros self project_id u1 r items Hself Hjoin1 post Hserver Hstatus Hbody Hsid
      Htruthy Hfails.
    destruct (Session__init___failed_lookup env (logged post w) session_id browser B u
                Hbrowser Hjoin Hfails) as [out Hinit].
    exists out.
    apply (create_constructs env w self browser B project_id u1 r items session_id);
      assumption.
Qed.

(** C5, as amended.  [delete_session] returns [True] exactly when the
    DELETE is answered with a status outside 400 to 599, every 2xx status
    among them; it raises a [RequestException] when the status is from 400
    to 599 and when the request fails in the transport. *)
Theorem delete_session_outcome (env : Env) (w : World) (self : ref)
    (B : Browser.attrs) (session_id u : string) :
  nth_error (heap w) self = Some (OBrowser B) ->
  urljoin (check_bracketed_netloc env) (Browser.base_url B) "/instance" = Return u ->
  let c := delete_call u session_id in
  match server env (calls w) c with
  | Fails msg =>
      delete_session self session_id env w =
      (Raise (RequestException ("Failed to delete session: " ++ msg)), logged c w)
  | Responds r =>
      if is_error_status r
      then exists msg,
             delete_session self session_id env w =
             (Raise (RequestException ("Failed to delete session: " ++ msg)),
              logged c w)
      else delete_session self session_id env w = (Return true, logged c w)
  end.
Proof.
  intros Hheap Hjoin c.
  rewrite (delete_session_run env w self B session_id u Hheap Hjoin). fold c.
  destruct (server env (calls w) c) as [msg | r]; [reflexivity |].
  destruct (is_error_status r) eqn:Hstatus.
  - destruct (http_error_msg_some r Hstatus) as [msg ->]. eauto.
  - rewrite (http_error_msg_none r Hstatus). reflexivity.
Qed.

(** C6.  When the GET of [/health] is answered with a 2xx status and a
    body that decodes, [health_check] returns the decoded body as it is,
    and so does [get_session_logs] for the GET of [/logs/{session_id}];
    [get_session_logs] raises a [RequestException] when the request fails
    in the transport or is answered with a status from 400 to 599. *)
Theorem bodies_returned_verbatim (env : Env) (w : World) (self : ref)
    (B : Browser.attrs) :
  nth_error (heap w) self = Some (OBrowser B) ->
  (forall u r v,
     urljoin (check_bracketed_netloc env) (Browser.base_url B) "/health" = Return u ->
     server env (calls w) (health_call u) = Responds r ->
     is_2xx r ->
     body r = inr v ->
     health_check self env w = (Return v, logged (health_call u) w))
  /\ (forall session_id u r v,
        urljoin (check_bracketed_netloc env) (Browser.base_url B)
          ("/logs/" ++ session_id) = Return u ->
        server env (calls w) (logs_call u) = Responds r ->
        is_2xx r ->
        body r = inr v ->
        get_session_logs self session_id env w = (Return v, logged (logs_call u) w))
  /\ (forall session_id u,
        urljoin (check_bracketed_netloc env) (Browser.base_url B)
          ("/logs/" ++ session_id) = Return u ->
        match server env (calls w) (logs_call u) with
        | Fails _ => True
        | Responds r => is_error_status r = true
        end ->
        exists msg,
          get_session_logs self session_id env w =
          (Raise (RequestException ("Failed to get session logs: " ++ msg)),
           logged (logs_call u) w)).
Proof.
  intros Hheap. repeat split.
  - intros u r v Hjoin Hserver Hstatus Hbody.
    rewrite (health_check_run env w self B u Hheap Hjoin), Hserver.
    rewrite (http_error_msg_none r (is_2xx_not_error r Hstatus)).
    unfold decoded. rewrite Hbody. reflexivity.
  - intros session_id u r v Hjoin Hserver Hstatus Hbody.
    rewrite (get_session_logs_run env w self B session_id u Hheap Hjoin), Hserver.
    rewrite (http_error_msg_none r (is_2xx_not_error r Hstatus)).
    unfold decoded. rewrite Hbody. reflexivity.
  - intros session_id u Hjoin Hfails.
    rewrite (get_session_logs_run env w self B session_id u Hheap Hjoin).
    destruct (server env (calls w) (logs_call u)) as [msg | r]; [eauto |].
    destruct (http_error_msg_some r Hfails) as [msg ->]. eauto.
Qed.

(** C7, as amended.  When the request is answered without an error status
    by a body that is not valid JSON, [health_check], [get_session_logs]
    and [create] fail with the error of the decoder: where that error is a
    [RequestException], it comes back as the [RequestException] of the
    method, the one raised for a failure of the transport; where it is a
    plain [ValueError], [health_check] and [get_session_logs] let it
    through and [create] raises its "Invalid response from API"
    [ValueError].  [delete_session] does not decode the body and returns
    [True]. *)
Theorem undecodable_body (env : Env) (w : World) (self : ref) (B : Browser.attrs) :
  nth_error (heap w) self = Some (OBrowser B) ->
  (forall u r msg,
     urljoin (check_bracketed_netloc env) (Browser.base_url B) "/health" = Return u ->
     server env (calls w) (health_call u) = Responds r ->
     is_error_status r = false ->
     body r = inl msg ->
     health_check self env w =
     (Raise (if json_error_is_request_exception env
             then RequestException ("Health check failed: " ++ msg)
             else ValueError msg),
      logged (health_call u) w))
  /\ (forall session_id u r msg,
        urljoin (check_bracketed_netloc env) (Browser.base_url B)
          ("/logs/" ++ session_id) = Return u ->
        server env (calls w) (logs_call u) = Responds r ->
        is_error_status r = false ->
        body r = inl msg ->
        get_session_logs self session_id env w =
        (Raise (if json_error_is_request_exception env
                then RequestException ("Failed to get session logs: " ++ msg)
                else ValueError msg),
         logged (logs_call u) w))
  /\ (forall sessions project_id u r msg,
        nth_error (heap w) sessions = Some (OSessions {| Sessions._browser := self |}) ->
        urljoin (check_bracketed_netloc env) (Browser.base_url B) "/instance"
        = Return u ->
        let post := create_call u project_id (Browser.api_key B) in
        server env (calls w) post = Responds r ->
        is_error_status r = false ->
        body r = inl msg ->
        create sessions project_id env w =
        (Raise (if json_error_is_request_exception env
                then RequestException ("Failed to create session: " ++ msg)
                else ValueError ("Invalid response from API: " ++ msg)),
         logged post w))
  /\ (forall session_id u r msg,
        urljoin (check_bracketed_netloc env) (Browser.base_url B) "/instance"
        = Return u ->
        server env (calls w) (delete_call u session_id) = Responds r ->
        is_error_status r = false ->
        body r = inl msg ->
        delete_session self session_id env w =
        (Return true, logged (delete_call u session_id) w)).
Proof.
  intros Hheap. repeat split.
  - intros u r msg Hjoin Hserver Hstatus Hbody.
    rewrite (health_check_run env w self B u Hheap Hjoin), Hserver.
    rewrite (http_error_msg_none r Hstatus). unfold decoded. rewrite Hbody. reflexivity.
  - intros session_id u r msg Hjoin Hserver Hstatus Hbody.
    rewrite (get_session_logs_run env w self B session_id u Hheap Hjoin), Hserver.
    rewrite (http_error_msg_none r Hstatus). unfold decoded. rewrite Hbody. reflexivity.
  - intros sessions project_id u r msg Hsessions Hjoin post Hserver Hstatus Hbody.
    rewrite (create_run env w sessions self B project_id u Hsessions Hheap Hjoin).
    cbv zeta. fold post.
    rewrite Hserver, (http_error_msg_none r Hstatus), Hbody. reflexivity.
  - intros session_id u r msg Hjoin Hserver Hstatus Hbody.
    rewrite (delete_session_run env w self B session_id u Hheap Hjoin), Hserver.
    rewrite (http_error_msg_none r Hstatus). reflexivity.
Qed.

(** C9.  When the GET of [/json/version] is answered with a 2xx status by
    a JSON object whose [webSocketDebuggerUrl] is the empty string, or any
    other falsy value, the [webSocketDebuggerUrl] of the new [Session] is
    [None], and the construction ends as it does when the field is absent. *)
Theorem falsy_url_stored_as_none (env : Env) (w : World) (session_id : value)
    (browser : ref) (B : Browser.attrs) (u : string) (r : Response)
    (items : list (string * value)) (v : value) :
  nth_error (heap w) browser = Some (OBrowser B) ->
  urljoin (check_bracketed_netloc env) (Browser.base_url B) "/json/version" = Return u ->
  server env (calls w) (version_call u session_id) = Responds r ->
  is_2xx r ->
  body r = inr (PyDict items) ->
  assoc "webSocketDebuggerUrl" items = Some v ->
  truthy v = false ->
  Session__init__ session_id browser env w =
  (Return (length (heap w)),
   constructed (session session_id browser None) (version_call u session_id) [] w)
  /\ (forall env' r' items',
        check_bracketed_netloc env' = check_bracketed_netloc env ->
        server env' (calls w) (version_call u session_id) = Responds r' ->
        is_2xx r' ->
        body r' = inr (PyDict items') ->
        assoc "webSocketDebuggerUrl" items' = None ->
        Session__init__ session_id browser env' w =
        Session__init__ session_id browser env w).
Proof.
  intros Hbrowser Hjoin Hserver Hstatus Hbody Hfield Hfalsy.
  assert (Hhere : Session__init__ session_id browser env w =
                  (Return (length (heap w)),
                   constructed (session session_id browser None)
                     (version_call u session_id) [] w)).
  { rewrite (Session__init___run env w session_id browser B u Hbrowser Hjoin).
    cbv zeta.
    rewrite Hserver, (http_error_msg_none r (is_2xx_not_error r Hstatus)), Hbody,
      Hfield, Hfalsy.
    reflexivity. }
  split; [exact Hhere |].
  intros env' r' items' Hcheck Hserver' Hstatus' Hbody' Habsent.
  rewrite Hhere.
  rewrite <- Hcheck in Hjoin.
  rewrite (Session__init___run env' w session_id browser B u Hbrowser Hjoin).
  cbv zeta.
  rewrite Hserver', (http_error_msg_none r' (is_2xx_not_error r' Hstatus')), Hbody',
    Habsent.
  reflexivity.
Qed.

(** ** The configuration of the client *)

Lemma rstrip_app (p : ascii -> bool) (s : string) (c : ascii) :
  p c = true -> rstrip p (s ++ String c "") = rstrip p s.
Proof.
  intros Hc. induction s as [| a s IH]; simpl.
  - rewrite Hc. reflexivity.
  - rewrite IH. reflexivity.
Qed.

Lemma rstrip_decompose (p : ascii -> bool) (s : string) :
  exists t, s = rstrip p s ++ t /\ forallb_string p t = true.
Proof.
  induction s as [| a s (t & Hs & Ht)]; simpl.
  - exists "". split; reflexivity.
  - destruct (is_empty (rstrip p s)) eqn:He; simpl.
    + destruct (p a) eqn:Ha.
      * exists (String a s). split; [reflexivity |].
        destruct (rstrip p s); [| discriminate].
        simpl in Hs. subst t. simpl. rewrite Ha. exact Ht.
      * exists t. simpl. split; [f_equal; exact Hs | exact Ht].
    + exists t. simpl. split; [f_equal; exact Hs | exact Ht].
Qed.

Lemma last_char_cons (a : ascii) (s : string) :
  last_char (String a s) = match last_char s with Some c => Some c | None => Some a end.
Proof.
  unfold last_char. simpl.
  destruct (rev (list_ascii_of_string s)); reflexivity.
Qed.

Lemma last_char_none (s : string) : last_char s = None -> s = "".
Proof.
  destruct s as [| a s]; [reflexivity |].
  rewrite last_char_cons. destruct (last_char s); discriminate.
Qed.

Lemma rstrip_last (p : ascii -> bool) (s : string) (c : ascii) :
  last_char (rstrip p s) = Some c -> p c = false.
Proof.
  induction s as [| a s IH]; simpl.
  - discriminate.
  - destruct (is_empty (rstrip p s)) eqn:He; simpl.
    + destruct (p a) eqn:Ha; [discriminate |].
      destruct (rstrip p s); [| discriminate].
      unfold last_char. simpl. intros H. inversion H. subst. exact Ha.
    + rewrite last_char_cons.
      destruct (last_char (rstrip p s)) eqn:El.
      * intros H. inversion H. subst. apply IH. reflexivity.
      * apply last_char_none in El. rewrite El in He. discriminate.
Qed.

Lemma update_middle {A : Type} (l t : list A) (x y : A) :
  update (length l) y (l ++ x :: t) = (l ++ y :: t)%list.
Proof. induction l as [| z l IH]; simpl; [reflexivity | rewrite IH; reflexivity]. Qed.

Lemma nth_error_update_other {A : Type} (l : list A) (i j : nat) (x : A) :
  i <> j -> nth_error (update j x l) i = nth_error l i.
Proof.
  revert i j. induction l as [| y l IH]; intros i j Hij; simpl.
  - reflexivity.
  - destruct j as [| j], i as [| i]; simpl; try reflexivity; try congruence.
    apply IH. congruence.
Qed.

Lemma nth_error_grown {A : Type} (l t : list A) (y : A) (i : nat) :
  nth_error l i = Some y -> nth_error (l ++ t) i = Some y.
Proof.
  intros H. rewrite nth_error_app1; [exact H |].
  apply nth_error_Some. congruence.
Qed.

Lemma Browser__init___run (api_key base_url : string) (env : Env) (w : World) :
  Browser__init__ api_key base_url env w =
  (Return (length (heap w)),
   with_heap
     (heap w ++ [OBrowser {| Browser.api_key := api_key;
                             Browser.base_url := rstrip (is_char "/") base_url;
                             Browser.sessions := Some (S (length (heap w))) |};
                 OSessions {| Sessions._browser := length (heap w) |}])%list
     w).
Proof.
  unfold Browser__init__. rewrite bind_run. unfold alloc at 1.
  rewrite bind_run. unfold Sessions__init__, alloc.
  rewrite bind_run. unfold set_sessions. rewrite bind_run.
  unfold load_Browser. cbn [heap with_heap].
  rewrite nth_error_old with (y := OBrowser {| Browser.api_key := api_key;
                             Browser.base_url := rstrip (is_char "/") base_url;
                             Browser.sessions := None |});
    [| apply nth_error_fresh].
  cbn [Browser.api_key Browser.base_url]. unfold ret, with_heap.
  cbn [heap calls stdout].
  rewrite <- app_assoc. cbn [app].
  rewrite update_middle, length_app, Nat.add_1_r. reflexivity.
Qed.

Lemma keeps_ret {A : Type} (a : A) : keeps_browsers (ret a).
Proof. intros env w i B H. exact H. Qed.

Lemma keeps_raise {A : Type} (e : exn) : keeps_browsers (@raise A e).
Proof. intros env w i B H. exact H. Qed.

Lemma keeps_lift {A : Type} (r : Result A) : keeps_browsers (lift r).
Proof. intros env w i B H. exact H. Qed.

Lemma keeps_ask : keeps_browsers ask.
Proof. intros env w i B H. exact H. Qed.

Lemma keeps_print (line : string) : keeps_browsers (print line).
Proof. intros env w i B H. exact H. Qed.

Lemma keeps_alloc (o : obj) : keeps_browsers (alloc o).
Proof. intros env w i B H. simpl. apply nth_error_grown, H. Qed.

Lemma keeps_load_Session (self : ref) : keeps_browsers (load_Session self).
Proof.
  intros env w i B H. unfold load_Session.
  destruct (nth_error (heap w) self) as [[| |] |]; exact H.
Qed.

Lemma keeps_load_Sessions (self : ref) : keeps_browsers (load_Sessions self).
Proof.
  intros env w i B H. unfold load_Sessions.
  destruct (nth_error (heap w) self) as [[| |] |]; exact H.
Qed.

Lemma keeps_load_Browser (self : ref) : keeps_browsers (load_Browser self).
Proof.
  intros env w i B H. unfold load_Browser.
  destruct (nth_error (heap w) self) as [[| |] |]; exact H.
Qed.

Lemma keeps_request (c : Call) : keeps_browsers (request c).
Proof.
  intros env w i B H. unfold request.
  destruct (server env (calls w) c); exact H.
Qed.

Lemma keeps_bind {A B : Type} (m : M A) (k : A -> M B) :
  keeps_browsers m -> (forall a, keeps_browsers (k a)) -> keeps_browsers (bind m k).
Proof.
  intros Hm Hk env w i b H. rewrite bind_run.
  specialize (Hm env w i b H).
  destruct (m env w) as [[e | a] w']; simpl in *; [exact Hm |].
  apply Hk, Hm.
Qed.

Lemma keeps_try_except {A : Type} (m : M A) handlers :
  keeps_browsers m ->
  Forall (fun h => forall e, keeps_browsers (snd h e)) handlers ->
  keeps_browsers (try_except m handlers).
Proof.
  intros Hm Hh env w i b H. rewrite try_except_run.
  specialize (Hm env w i b H).
  destruct (m env w) as [[e | a] w']; simpl in *; [| exact Hm].
  induction Hh as [| [matches h] rest Hhead _ IH]; simpl; [exact Hm |].
  destruct (matches e); [apply Hhead, Hm | exact IH].
Qed.

(** Assigning to a [Session] leaves every [Browser] as it is. *)
Lemma keeps_set_webSocketDebuggerUrl (self : ref) (v : option string) :
  keeps_browsers (set_webSocketDebuggerUrl self v).
Proof.
  intros env w i B H. unfold set_webSocketDebuggerUrl. rewrite bind_run.
  unfold load_Session.
  destruct (nth_error (heap w) self) as [[a | a | a] |] eqn:Hself; try exact H.
  simpl. rewrite nth_error_update_other; [exact H |].
  intros ->. congruence.
Qed.

Lemma keeps_Browser__init__ (api_key base_url : string) :
  keeps_browsers (Browser__init__ api_key base_url).
Proof.
  intros env w i B H. rewrite Browser__init___run. simpl.
  apply nth_error_grown, H.
Qed.

Create HintDb keeps.

#[local] Hint Resolve keeps_ret keeps_raise keeps_lift keeps_ask keeps_print
  keeps_alloc keeps_load_Session keeps_load_Sessions keeps_load_Browser
  keeps_request keeps_set_webSocketDebuggerUrl keeps_Browser__init__ : keeps.

Ltac keeps :=
  repeat first
    [ solve [auto with keeps]
    | apply keeps_bind; [| intros ?]
    | apply keeps_try_except; [| repeat constructor; intros ?; cbn [snd]]
    | match goal with
      | |- keeps_browsers (if ?b then _ else _) => destruct b
      | |- keeps_browsers (match ?x with _ => _ end) => destruct x
      end ].

Lemma keeps__get_web_socket_debugger_url (self : ref) :
  keeps_browsers (_get_web_socket_debugger_url self).
Proof.
  unfold _get_web_socket_debugger_url, py_urljoin, requests_get, raise_for_status,
    json, get, py_urlparse.
  keeps.
Qed.

#[local] Hint Resolve keeps__get_web_socket_debugger_url : keeps.

Lemma keeps_Session__init__ (session_id : value) (browser : ref) :
  keeps_browsers (Session__init__ session_id browser).
Proof. unfold Session__init__. keeps. Qed.

#[local] Hint Resolve keeps_Session__init__ : keeps.

Lemma keeps_create (self : ref) (project_id : string) :
  keeps_browsers (create self project_id).
Proof.
  unfold create, py_urljoin, requests_post, raise_for_status, json, get.
  keeps.
Qed.

Lemma keeps_health_check (self : ref) : keeps_browsers (health_check self).
Proof. unfold health_check, py_urljoin, requests_get, raise_for_status, json. keeps. Qed.

Lemma keeps_get_session_logs (self : ref) (session_id : string) :
  keeps_browsers (get_session_logs self session_id).
Proof.
  unfold get_session_logs, py_urljoin, requests_get, raise_for_status, json. keeps.
Qed.

Lemma keeps_delete_session (self : ref) (session_id : string) :
  keeps_browsers (delete_session self session_id).
Proof.
  unfold delete_session, py_urljoin, requests_delete, raise_for_status. keeps.
Qed.

Lemma after_keeps (env : Env) (op : operation) (w : World) (i : ref)
    (B : Browser.attrs) :
  nth_error (heap w) i = Some (OBrowser B) ->
  nth_error (heap (after env op w)) i = Some (OBrowser B).
Proof.
  intros H. destruct op; cbn [after].
  - exact (keeps_Browser__init__ _ _ env w i B H).
  - exact (keeps_alloc _ env w i B H).
  - exact (keeps_Session__init__ _ _ env w i B H).
  - exact (keeps__get_web_socket_debugger_url _ env w i B H).
  - exact (keeps_create _ _ env w i B H).
  - exact (keeps_health_check _ env w i B H).
  - exact (keeps_get_session_logs _ _ env w i B H).
  - exact (keeps_delete_session _ _ env w i B H).
Qed.

Lemma after_all_keeps (env : Env) (ops : list operation) (w : World) (i : ref)
    (B : Browser.attrs) :
  nth_error (heap w) i = Some (OBrowser B) ->
  nth_error (heap (after_all env ops w)) i = Some (OBrowser B).
Proof.
  revert w. induction ops as [| op ops IH]; intros w H; simpl; [exact H |].
  apply IH, after_keeps, H.
Qed.


(** C8.  [Browser(api_key, base_url)] stores the API key and the base URL
    without its trailing slashes: what is stored is the given URL up to
    trailing slashes and does not end with a slash, so that a URL and the
    same URL with one more slash give the same construction.  Whatever is
    done afterwards, in any number of operations, the stored configuration
    stays as it is. *)
Theorem configuration_normalized_and_kept (env : Env) (w : World)
    (api_key base_url : string) :
  let self := length (heap w) in
  let stored_url := rstrip (is_char "/") base_url in
  let config := OBrowser {| Browser.api_key := api_key;
                            Browser.base_url := stored_url;
                            Browser.sessions := Some (S self) |} in
  (exists w1,
     Browser__init__ api_key base_url env w = (Return self, w1)
     /\ nth_error (heap w1) self = Some config
     /\ forall env' ops, nth_error (heap (after_all env' ops w1)) self = Some config)
  /\ (exists slashes,
        base_url = stored_url ++ slashes
        /\ forallb_string (is_char "/") slashes = true)
  /\ last_char stored_url <> Some "/"%char
  /\ Browser__init__ api_key (base_url ++ "/") env w
     = Browser__init__ api_key base_url env w.
Proof.
  intros self stored_url config.
  assert (Hstored : nth_error
            (heap w ++ [config; OSessions {| Sessions._browser := self |}])%list self
          = Some config).
  { unfold self. rewrite nth_error_app2, Nat.sub_diag; [reflexivity | lia]. }
  repeat split.
  - eexists. split; [apply Browser__init___run |]. split; [exact Hstored |].
    intros env' ops. apply after_all_keeps. exact Hstored.
  - apply rstrip_decompose.
  - intros Hlast. apply rstrip_last in Hlast. discriminate.
  - rewrite !Browser__init___run, rstrip_app; reflexivity.
Qed.

(** C10.  [Browser(api_key, base_url)] returns for every pair of strings,
    empty and malformed ones included: it makes no call, prints nothing,
    stores the API key as given and the base URL without its trailing
    slashes, and neither the server nor the check of network locations has
    a say in it, so that whatever is wrong with a base URL can only show
    in a later operation. *)
Theorem construction_always_succeeds (env : Env) (w : World)
    (api_key base_url : string) :
  exists w1,
    Browser__init__ api_key base_url env w = (Return (length (heap w)), w1)
    /\ calls w1 = calls w
    /\ stdout w1 = stdout w
    /\ (exists sessions,
          nth_error (heap w1) (length (heap w))
          = Some (OBrowser {| Browser.api_key := api_key;
                              Browser.base_url := rstrip (is_char "/") base_url;
                              Browser.sessions := Some sessions |})
          /\ nth_error (heap w1) sessions
             = Some (OSessions {| Sessions._browser := length (heap w) |}))
    /\ (forall i o, nth_error (heap w) i = Some o -> nth_error (heap w1) i = Some o)
    /\ forall env', Browser__init__ api_key base_url env' w = (Return (length (heap w)), w1).
Proof.
  eexists. split; [apply Browser__init___run |].
  split; [reflexivity |]. split; [reflexivity |]. split; [| split].
  - exists (S (length (heap w))). split; cbn [heap with_heap].
    + rewrite nth_error_app2, Nat.sub_diag; [reflexivity | lia].
    + rewrite nth_error_app2; [| lia].
      replace (S (length (heap w)) - length (heap w)) with 1 by lia. reflexivity.
  - intros i o H. simpl. apply nth_error_grown, H.
  - intros env'. apply Browser__init___run.
Qed.

(** ** Examples *)

(** The values that [if v:] takes for false. *)
Example falsy_values :
  map truthy [PyNone; PyBool false; PyInt 0; PyFloat 0%float; PyFloat (-0)%float;
              PyStr ""; PyList []; PyDict []]
  = [false; false; false; false; false; false; false; false].
Proof. vm_compute. reflexivity. Qed.

Example rstrip_slashes :
  rstrip (is_char "/") "https://freelw.cc//" = "https://freelw.cc"
  /\ rstrip (is_char "/") "///" = ""
  /\ rstrip (is_char "/") "http://h/a/b" = "http://h/a/b".
Proof. repeat split. Qed.

(** A path of the base URL is replaced, not extended; a base URL without a
    scheme gives the path alone. *)
Example urljoin_replaces_path :
  urljoin accept_any_host default_base_url "/instance" = Return instance_url
  /\ urljoin accept_any_host "http://host:8080/api/v1" "/instance"
     = Return "http://host:8080/instance"
  /\ urljoin accept_any_host "example.com" "/health" = Return "/health"
  /\ urljoin accept_any_host "http://host" "/logs/a/../b?x=1"
     = Return "http://host/logs/b?x=1".
Proof. repeat split. Qed.

Example urlparse_debugger_url :
  urlparse accept_any_host "ws://host:1234/devtools/page/ABC?token=1#top" "" =
  Return {| scheme := "ws"; netloc := "host:1234"; path := "/devtools/page/ABC";
            params := ""; query := "token=1"; fragment := "top" |}.
Proof. reflexivity. Qed.

(** A base URL that [urlsplit] rejects is stored by the constructor, and
    shows in the first operation, before any call is made. *)
Example malformed_base_url_shows_later :
  Browser__init__ "secret-key" "http://[::1/" env_working empty_world
  = (Return 0, unbalanced_world)
  /\ health_check 0 env_working unbalanced_world
     = (Raise (ValueError "Invalid IPv6 URL"), unbalanced_world).
Proof. split; reflexivity. Qed.

(** ** The theorems at work *)



Lemma create_without_session_id_witness :
  create 1 "proj" env_no_session_id example_world =
  (Raise (ValueError "Invalid response from API: No session_id returned from API"),
   logged (create_call instance_url "proj" "secret-key") example_world)
  /\ heap (snd (create 1 "proj" env_no_session_id example_world)) = heap example_world.
Proof.
  apply (create_without_session_id env_no_session_id example_world 1 0
           example_browser "proj" instance_url (response 200 "OK" (inr (PyDict []))) []).
  - reflexivity.
  - reflexivity.
  - reflexivity.
  - reflexivity.
  - unfold is_2xx. simpl. lia.
  - reflexivity.
  - left. reflexivity.
Defined.

Lemma create_body_not_an_object_witness :
  create 1 "proj" env_post_list example_world =
  (Raise (AttributeError "'list' object has no attribute 'get'"),
   logged (create_call instance_url "proj" "secret-key") example_world)
  /\ heap (snd (create 1 "proj" env_post_list example_world)) = heap example_world.
Proof.
  apply (create_body_not_an_object env_post_list example_world 1 0
           example_browser "proj" instance_url (response 200 "OK" (inr (PyList [])))
           (PyList [])).
  - reflexivity.
  - reflexivity.
  - reflexivity.
  - reflexivity.
  - unfold is_2xx. simpl. lia.
  - reflexivity.
  - intros items. discriminate.
Defined.

Lemma session_stores_path_witness :
  Session__init__ (PyStr "abc") 0 env_working example_world =
  (Return 2,
   constructed (session (PyStr "abc") 0 (Some "/devtools/page/ABC"))
     (version_call version_url (PyStr "abc")) [] example_world).
Proof.
  apply (session_stores_path env_working example_world (PyStr "abc") 0
           example_browser version_url (response 200 "OK" (inr version_found))
           [("Browser", PyStr "Chrome");
            ("webSocketDebuggerUrl", PyStr "ws://host:1234/devtools/page/ABC")]
           false "host:1234" "/devtools/page/ABC" "").
  - reflexivity.
  - reflexivity.
  - reflexivity.
  - unfold is_2xx. simpl. lia.
  - reflexivity.
  - reflexivity.
  - reflexivity.
  - reflexivity.
  - reflexivity.
  - reflexivity.
Defined.

(** The lookup is answered 300, not a 2xx status, and the debugger URL of
    the body is stored all the same. *)
Lemma lookup_answered_300_stores_url :
  server env_300 (calls example_world) (version_call version_url (PyStr "abc"))
  = Responds multiple_choices
  /\ ~ is_2xx multiple_choices
  /\ Session__init__ (PyStr "abc") 0 env_300 example_world =
     (Return 2,
      constructed (session (PyStr "abc") 0 (Some "/devtools/page/ABC"))
        (version_call version_url (PyStr "abc")) [] example_world).
Proof.
  repeat split; try reflexivity. unfold is_2xx. simpl. lia.
Qed.

Lemma failed_lookup_leaves_none_witness :
  (exists out,
     Session__init__ (PyStr "abc") 0 env_no_lookup example_world =
     (Return 2,
      constructed (session (PyStr "abc") 0 None)
        (version_call version_url (PyStr "abc")) out example_world))
  /\ (exists out,
        create 1 "proj" env_no_lookup example_world =
        (Return 2,
         constructed (session (PyStr "abc") 0 None)
           (version_call version_url (PyStr "abc")) out
           (logged (create_call instance_url "proj" "secret-key") example_world))).
Proof.
  destruct (failed_lookup_leaves_none env_no_lookup example_world (PyStr "abc") 0
              example_browser version_url eq_refl eq_refl) as [Hinit Hcreate].
  split.
  - apply Hinit. exact I.
  - apply (Hcreate 1 "proj" instance_url (response 200 "OK" (inr session_created))
             [("session_id", PyStr "abc")]);
      first [reflexivity | exact I].
Defined.

Lemma delete_session_outcome_witness :
  delete_session 0 "abc" env_working example_world =
  (Return true, logged (delete_call instance_url "abc") example_world).
Proof.
  exact (delete_session_outcome env_working example_world 0 example_browser "abc"
           instance_url eq_refl eq_refl).
Defined.

(** The DELETE is answered 304, not a 2xx status, and [delete_session]
    returns [True] without raising. *)
Lemma delete_session_true_on_304 :
  server env_304 (calls example_world) (delete_call instance_url "abc")
  = Responds not_modified
  /\ ~ is_2xx not_modified
  /\ delete_session 0 "abc" env_304 example_world =
     (Return true, logged (delete_call instance_url "abc") example_world).
Proof.
  repeat split; try reflexivity. unfold is_2xx. simpl. lia.
Qed.

Lemma bodies_returned_verbatim_witness :
  health_check 0 env_healthy example_world =
  (Return (PyDict [("status", PyStr "ok")]), logged (health_call health_url) example_world)
  /\ get_session_logs 0 "abc" env_healthy example_world =
     (Return (PyDict [("status", PyStr "ok")]), logged (logs_call logs_url) example_world)
  /\ exists msg,
       get_session_logs 0 "abc" env_down example_world =
       (Raise (RequestException ("Failed to get session logs: " ++ msg)),
        logged (logs_call logs_url) example_world).
Proof.
  destruct (bodies_returned_verbatim env_healthy example_world 0 example_browser eq_refl)
    as (Hhealth & Hlogs & _).
  destruct (bodies_returned_verbatim env_down example_world 0 example_browser eq_refl)
    as (_ & _ & Hdown).
  split; [| split].
  - apply (Hhealth health_url (response 200 "OK" (inr (PyDict [("status", PyStr "ok")]))));
      try reflexivity.
    unfold is_2xx. simpl. lia.
  - apply (Hlogs "abc" logs_url (response 200 "OK" (inr (PyDict [("status", PyStr "ok")]))));
      try reflexivity.
    unfold is_2xx. simpl. lia.
  - apply (Hdown "abc" logs_url); [reflexivity | exact I].
Defined.

Lemma undecodable_body_witness :
  health_check 0 env_html example_world =
  (Raise (RequestException
            "Health check failed: Expecting value: line 1 column 1 (char 0)"),
   logged (health_call health_url) example_world)
  /\ health_check 0 env_html_old example_world =
     (Raise (ValueError "Expecting value: line 1 column 1 (char 0)"),
      logged (health_call health_url) example_world)
  /\ create 1 "proj" env_html_old example_world =
     (Raise (ValueError
               "Invalid response from API: Expecting value: line 1 column 1 (char 0)"),
      logged (create_call instance_url "proj" "secret-key") example_world).
Proof.
  destruct (undecodable_body env_html example_world 0 example_browser eq_refl)
    as (Hnew & _).
  destruct (undecodable_body env_html_old example_world 0 example_browser eq_refl)
    as (Hold & _ & Hcreate & _).
  split; [| split].
  - exact (Hnew health_url html_page _ eq_refl eq_refl eq_refl eq_refl).
  - exact (Hold health_url html_page _ eq_refl eq_refl eq_refl eq_refl).
  - exact (Hcreate 1 "proj" instance_url html_page _ eq_refl eq_refl eq_refl eq_refl
             eq_refl).
Defined.

(** The DELETE is answered 200 with a body that is not JSON, and
    [delete_session] returns [True]; the same body makes [health_check]
    raise the very [RequestException] it raises when the server cannot be
    reached. *)
Lemma undecodable_body_not_a_separate_error :
  (server env_html (calls example_world) (delete_call instance_url "abc")
   = Responds html_page
   /\ is_2xx html_page
   /\ body html_page = not_json
   /\ delete_session 0 "abc" env_html example_world =
      (Return true, logged (delete_call instance_url "abc") example_world))
  /\ (exists msg,
        health_check 0 env_html example_world =
        (Raise (RequestException ("Health check failed: " ++ msg)),
         logged (health_call health_url) example_world))
  /\ (exists msg,
        health_check 0 env_down example_world =
        (Raise (RequestException ("Health check failed: " ++ msg)),
         logged (health_call health_url) example_world)).
Proof.
  split; [| split].
  - repeat split; try reflexivity; unfold is_2xx; simpl; lia.
  - eexists. reflexivity.
  - eexists. reflexivity.
Qed.

Lemma falsy_url_stored_as_none_witness :
  Session__init__ (PyStr "abc") 0 env_empty_url example_world =
  (Return 2,
   constructed (session (PyStr "abc") 0 None)
     (version_call version_url (PyStr "abc")) [] example_world).
Proof.
  apply (falsy_url_stored_as_none env_empty_url example_world (PyStr "abc") 0
           example_browser version_url
           (response 200 "OK" (inr (PyDict [("webSocketDebuggerUrl", PyStr "")])))
           [("webSocketDebuggerUrl", PyStr "")] (PyStr "")).
  - reflexivity.
  - reflexivity.
  - reflexivity.
  - unfold is_2xx. simpl. lia.
  - reflexivity.
  - reflexivity.
  - reflexivity.
Defined.

(** * Further properties *)

(** ** Relations that every method maintains *)

Section Maintains.

Variable R : World -> World -> Prop.
Hypothesis R_refl : forall w, R w w.
Hypothesis R_trans : forall w1 w2 w3, R w1 w2 -> R w2 w3 -> R w1 w3.
Hypothesis R_print : forall msg w, R w (with_stdout (stdout w ++ [warning msg]) w).
Hypothesis R_alloc : forall o w, R w (with_heap (heap w ++ [o]) w).
Hypothesis R_request : forall c w, client_call c -> R w (logged c w).

Lemma maintains_ret {A : Type} (a : A) : maintains R (ret a).
Proof. intros env w. apply R_refl. Qed.

Lemma maintains_raise {A : Type} (e : exn) : maintains R (@raise A e).
Proof. intros env w. apply R_refl. Qed.

Lemma maintains_lift {A : Type} (r : Result A) : maintains R (lift r).
Proof. intros env w. apply R_refl. Qed.

Lemma maintains_ask : maintains R ask.
Proof. intros env w. apply R_refl. Qed.

Lemma maintains_load_Session (self : ref) : maintains R (load_Session self).
Proof.
  intros env w. unfold load_Session.
  destruct (nth_error (heap w) self) as [[| |] |]; apply R_refl.
Qed.

Lemma maintains_load_Sessions (self : ref) : maintains R (load_Sessions self).
Proof.
  intros env w. unfold load_Sessions.
  destruct (nth_error (heap w) self) as [[| |] |]; apply R_refl.
Qed.

Lemma maintains_load_Browser (self : ref) : maintains R (load_Browser self).
Proof.
  intros env w. unfold load_Browser.
  destruct (nth_error (heap w) self) as [[| |] |]; apply R_refl.
Qed.

Lemma maintains_print (msg : string) : maintains R (print (warning msg)).
Proof. intros env w. apply R_print. Qed.

Lemma maintains_alloc (o : obj) : maintains R (alloc o).
Proof. intros env w. apply R_alloc. Qed.

Lemma maintains_request (c : Call) : client_call c -> maintains R (request c).
Proof.
  intros Hc env w. unfold request.
  destruct (server env (calls w) c); apply R_request, Hc.
Qed.

Lemma maintains_bind {A B : Type} (m : M A) (k : A -> M B) :
  maintains R m -> (forall a, maintains R (k a)) -> maintains R (bind m k).
Proof.
  intros Hm Hk env w. rewrite bind_run.
  specialize (Hm env w).
  destruct (m env w) as [[e | a] w']; simpl in *; [exact Hm |].
  eapply R_trans; [exact Hm | apply Hk].
Qed.

Lemma maintains_try_except {A : Type} (m : M A) handlers :
  maintains R m ->
  Forall (fun h => forall e, maintains R (snd h e)) handlers ->
  maintains R (try_except m handlers).
Proof.
  intros Hm Hh env w. rewrite try_except_run.
  specialize (Hm env w).
  destruct (m env w) as [[e | a] w']; simpl in *; [| exact Hm].
  induction Hh as [| [matches h] rest Hhead _ IH]; simpl; [exact Hm |].
  destruct (matches e); [| exact IH].
  eapply R_trans; [exact Hm | apply Hhead].
Qed.

Ltac maintains_step :=
  first
    [ apply maintains_ret | apply maintains_raise | apply maintains_lift
    | apply maintains_ask | apply maintains_load_Session
    | apply maintains_load_Sessions | apply maintains_load_Browser
    | apply maintains_alloc
    | apply maintains_bind; [| intros ?]
    | apply maintains_try_except; [| repeat constructor; intros ?; cbn [snd]]
    | match goal with
      | |- maintains _ (if ?b then _ else _) => destruct b
      | |- maintains _ (match ?x with _ => _ end) => destruct x
      end ].

Lemma maintains_raise_for_status (r : Response) : maintains R (raise_for_status r).
Proof. unfold raise_for_status. repeat maintains_step. Qed.

Lemma maintains_json (r : Response) : maintains R (json r).
Proof. unfold json. repeat maintains_step. Qed.

Lemma maintains_get (data : value) (key : string) : maintains R (get data key).
Proof. unfold get. repeat maintains_step. Qed.

Lemma maintains_py_urljoin (base rel : string) : maintains R (py_urljoin base rel).
Proof. unfold py_urljoin. repeat maintains_step. Qed.

Lemma maintains_py_urlparse (v : value) : maintains R (py_urlparse v).
Proof. unfold py_urlparse. repeat maintains_step. Qed.

Lemma maintains_health_check (self : ref) : maintains R (health_check self).
Proof.
  unfold health_check.
  apply maintains_bind; [apply maintains_load_Browser | intros this].
  apply maintains_bind; [apply maintains_py_urljoin | intros u].
  apply maintains_try_except; [| repeat constructor; intros e; apply maintains_raise].
  apply maintains_bind; [| intros r].
  - apply maintains_request. left. exists u. reflexivity.
  - apply maintains_bind; [apply maintains_raise_for_status | intros _].
    apply maintains_json.
Qed.

Lemma maintains_get_session_logs (self : ref) (session_id : string) :
  maintains R (get_session_logs self session_id).
Proof.
  unfold get_session_logs.
  apply maintains_bind; [apply maintains_load_Browser | intros this].
  apply maintains_bind; [apply maintains_py_urljoin | intros u].
  apply maintains_try_except; [| repeat constructor; intros e; apply maintains_raise].
  apply maintains_bind; [| intros r].
  - apply maintains_request. left. exists u. reflexivity.
  - apply maintains_bind; [apply maintains_raise_for_status | intros _].
    apply maintains_json.
Qed.

Lemma maintains_delete_session (self : ref) (session_id : string) :
  maintains R (delete_session self session_id).
Proof.
  unfold delete_session.
  apply maintains_bind; [apply maintains_load_Browser | intros this].
  apply maintains_bind; [apply maintains_py_urljoin | intros u].
  apply maintains_try_except; [| repeat constructor; intros e; apply maintains_raise].
  apply maintains_bind; [| intros r].
  - apply maintains_request. right. right. left. exists u, session_id. reflexivity.
  - apply maintains_bind; [apply maintains_raise_for_status | intros _].
    apply maintains_ret.
Qed.

Lemma maintains_Sessions__init__ (browser : ref) : maintains R (Sessions__init__ browser).
Proof. apply maintains_alloc. Qed.

(** The lookup maintains what the assignment to its session maintains. *)
Lemma maintains__get_web_socket_debugger_url (self : ref) :
  (forall v, maintains R (set_webSocketDebuggerUrl self v)) ->
  maintains R (_get_web_socket_debugger_url self).
Proof.
  intros Hset. unfold _get_web_socket_debugger_url.
  apply maintains_try_except.
  - apply maintains_bind; [apply maintains_load_Session | intros this].
    apply maintains_bind; [apply maintains_load_Browser | intros browser].
    apply maintains_bind; [apply maintains_py_urljoin | intros u].
    apply maintains_bind; [| intros r].
    { apply maintains_request. right. left. exists u, (Session.id this). reflexivity. }
    apply maintains_bind; [apply maintains_raise_for_status | intros _].
    apply maintains_bind; [apply maintains_json | intros data].
    apply maintains_bind; [apply maintains_get | intros full_ws_url].
    destruct (truthy full_ws_url); [| apply Hset].
    apply maintains_bind; [apply maintains_py_urlparse | intros parsed].
    apply Hset.
  - repeat constructor. intros e. cbn [snd].
    apply maintains_bind; [| intros _; apply Hset].
    exact (maintains_print (str e)).
Qed.

(** [create] maintains what the construction of a session maintains. *)
Lemma maintains_create (self : ref) (project_id : string) :
  (forall v b, maintains R (Session__init__ v b)) ->
  maintains R (create self project_id).
Proof.
  intros Hinit. unfold create.
  apply maintains_bind; [apply maintains_load_Sessions | intros this].
  apply maintains_bind; [apply maintains_load_Browser | intros browser].
  apply maintains_bind; [apply maintains_py_urljoin | intros u].
  apply maintains_try_except;
    [| repeat constructor; intros e; apply maintains_raise].
  apply maintains_bind; [| intros r].
  { apply maintains_request. right. right. right.
    exists u, project_id, (Browser.api_key browser). reflexivity. }
  apply maintains_bind; [apply maintains_raise_for_status | intros _].
  apply maintains_bind; [apply maintains_json | intros data].
  apply maintains_bind; [apply maintains_get | intros session_id].
  destruct (negb (truthy session_id)); [apply maintains_raise | apply Hinit].
Qed.

Lemma maintains_Session__init__ (session_id : value) (browser : ref) :
  (forall self v, maintains R (set_webSocketDebuggerUrl self v)) ->
  maintains R (Session__init__ session_id browser).
Proof.
  intros Hset. unfold Session__init__.
  apply maintains_bind; [apply maintains_alloc | intros self].
  apply maintains_bind; [| intros _; apply maintains_ret].
  apply maintains__get_web_socket_debugger_url, Hset.
Qed.

End Maintains.

(** ** Calls and output *)

Lemma log_grows_refl (w : World) : log_grows w w.
Proof.
  exists [], []. rewrite !app_nil_r. repeat split; constructor.
Qed.

Lemma log_grows_trans (w1 w2 w3 : World) :
  log_grows w1 w2 -> log_grows w2 w3 -> log_grows w1 w3.
Proof.
  intros (cs & out & Hc & Hcs & Ho & Hout) (cs' & out' & Hc' & Hcs' & Ho' & Hout').
  exists (cs ++ cs')%list, (out ++ out')%list.
  rewrite Hc', Hc, Ho', Ho, !app_assoc.
  repeat split; apply Forall_app; split; assumption.
Qed.

Lemma log_grows_print (msg : string) (w : World) :
  log_grows w (with_stdout (stdout w ++ [warning msg]) w).
Proof.
  exists [], [warning msg]. simpl. rewrite app_nil_r.
  split; [reflexivity |]. split; [constructor |].
  split; [reflexivity |]. constructor; [exists msg; reflexivity | constructor].
Qed.

Lemma log_grows_heap (h : list obj) (w : World) : log_grows w (with_heap h w).
Proof. exists [], []. simpl. rewrite !app_nil_r. repeat split; constructor. Qed.

Lemma log_grows_request (c : Call) (w : World) : client_call c -> log_grows w (logged c w).
Proof.
  intros Hc. exists [c], []. simpl. rewrite app_nil_r.
  split; [reflexivity |]. split; [constructor; [exact Hc | constructor] |].
  split; [reflexivity | constructor].
Qed.

Lemma log_grows_set (self : ref) (v : option string) :
  maintains log_grows (set_webSocketDebuggerUrl self v).
Proof.
  intros env w. unfold set_webSocketDebuggerUrl. rewrite bind_run.
  unfold load_Session.
  destruct (nth_error (heap w) self) as [[a | a | a] |];
    first [apply log_grows_refl | apply log_grows_heap].
Qed.

Lemma log_grows_after (env : Env) (op : operation) (w : World) :
  log_grows w (after env op w).
Proof.
  pose proof log_grows_refl as Hrefl.
  pose proof log_grows_trans as Htrans.
  pose proof log_grows_print as Hprint.
  pose proof (fun o w => log_grows_heap (heap w ++ [o]) w) as Halloc.
  pose proof log_grows_request as Hrequest.
  pose proof log_grows_set as Hset.
  assert (Hinit : forall v b, maintains log_grows (Session__init__ v b)).
  { intros v b. apply maintains_Session__init__; assumption. }
  destruct op; cbn [after].
  - rewrite Browser__init___run. apply log_grows_heap.
  - apply maintains_Sessions__init__; assumption.
  - apply Hinit.
  - apply maintains__get_web_socket_debugger_url; auto.
  - apply maintains_create; assumption.
  - apply maintains_health_check; assumption.
  - apply maintains_get_session_logs; assumption.
  - apply maintains_delete_session; assumption.
Qed.

(** *** What does not depend on the API key *)

Lemma same_but_key_refl (o : obj) : same_but_key o o.
Proof. destruct o; simpl; auto. Qed.

Lemma Forall2_nth_error_rel {A : Type} (R : A -> A -> Prop) (l l' : list A) :
  Forall2 R l l' ->
  forall i,
    match nth_error l i, nth_error l' i with
    | Some x, Some x' => R x x'
    | None, None => True
    | _, _ => False
    end.
Proof.
  induction 1 as [| x x' l l' Hx _ IH]; intros [| i]; simpl; auto.
  apply IH.
Qed.

Lemma Forall2_update {A : Type} (R : A -> A -> Prop) (l l' : list A) (x x' : A)
    (i : nat) :
  Forall2 R l l' -> R x x' -> Forall2 R (update i x l) (update i x' l').
Proof.
  intros Hl Hx. revert i.
  induction Hl as [| y y' l l' Hy Hl IH]; intros [| i]; simpl;
    constructor; auto.
Qed.

Lemma agree_ret {A : Type} (RA : A -> A -> Prop) (a a' : A) :
  RA a a' -> agree RA (ret a) (ret a').
Proof. intros Ha env w w' Hw. split; [exact Hw | exact Ha]. Qed.

Lemma agree_raise {A : Type} (RA : A -> A -> Prop) (e : exn) :
  agree RA (raise e) (raise e).
Proof. intros env w w' Hw. split; [exact Hw | reflexivity]. Qed.

Lemma agree_lift {A : Type} (r : Result A) : agree eq (lift r) (lift r).
Proof. intros env w w' Hw. split; [exact Hw | destruct r; reflexivity]. Qed.

Lemma agree_ask : agree eq ask ask.
Proof. intros env w w' Hw. split; [exact Hw | reflexivity]. Qed.

Lemma agree_bind {A B : Type} (RA : A -> A -> Prop) (RB : B -> B -> Prop)
    (m m' : M A) (k k' : A -> M B) :
  agree RA m m' ->
  (forall a a', RA a a' -> agree RB (k a) (k' a')) ->
  agree RB (bind m k) (bind m' k').
Proof.
  intros Hm Hk env w w' Hw. rewrite !bind_run.
  destruct (Hm env w w' Hw) as [Hw1 Hr].
  destruct (m env w) as [[e | a] w1], (m' env w') as [[e' | a'] w1'];
    simpl in *; try contradiction.
  - split; assumption.
  - apply Hk; assumption.
Qed.

Lemma agree_try_except {A : Type} (RA : A -> A -> Prop) (m m' : M A) handlers :
  agree RA m m' ->
  Forall (fun h => forall e, agree RA (snd h e) (snd h e)) handlers ->
  agree RA (try_except m handlers) (try_except m' handlers).
Proof.
  intros Hm Hh env w w' Hw. rewrite !try_except_run.
  destruct (Hm env w w' Hw) as [Hw1 Hr].
  destruct (m env w) as [[e | a] w1], (m' env w') as [[e' | a'] w1'];
    simpl in *; try contradiction.
  - subst e'.
    induction Hh as [| [matches h] rest Hhead _ IH]; simpl.
    + split; [assumption | reflexivity].
    + destruct (matches e); [apply Hhead; assumption | exact IH].
  - split; assumption.
Qed.

Lemma agree_print (line : string) : agree eq (print line) (print line).
Proof.
  intros env w w' (Hheap & Hcalls & Hout). simpl.
  repeat split; try assumption. rewrite Hout. reflexivity.
Qed.

Lemma agree_alloc (o o' : obj) : same_but_key o o' -> agree eq (alloc o) (alloc o').
Proof.
  intros Ho env w w' (Hheap & Hcalls & Hout). simpl.
  repeat split; try assumption.
  - apply Forall2_app; [assumption | constructor; [assumption | constructor]].
  - apply (Forall2_length Hheap).
Qed.

Lemma agree_request (c : Call) : agree eq (request c) (request c).
Proof.
  intros env w w' (Hheap & Hcalls & Hout). unfold request. rewrite <- Hcalls.
  destruct (server env (calls w) c); simpl; repeat split; assumption.
Qed.

Lemma agree_load_Session (self : ref) : agree eq (load_Session self) (load_Session self).
Proof.
  intros env w w' Hw. unfold load_Session.
  pose proof (Forall2_nth_error_rel _ _ _ (proj1 Hw) self) as H.
  destruct (nth_error (heap w) self) as [[a | a | a] |],
           (nth_error (heap w') self) as [[a' | a' | a'] |];
    simpl in *; try contradiction; split; auto.
Qed.

Lemma agree_load_Sessions (self : ref) :
  agree eq (load_Sessions self) (load_Sessions self).
Proof.
  intros env w w' Hw. unfold load_Sessions.
  pose proof (Forall2_nth_error_rel _ _ _ (proj1 Hw) self) as H.
  destruct (nth_error (heap w) self) as [[a | a | a] |],
           (nth_error (heap w') self) as [[a' | a' | a'] |];
    simpl in *; try contradiction; split; auto.
Qed.

Lemma agree_load_Browser (self : ref) :
  agree same_but_api_key (load_Browser self) (load_Browser self).
Proof.
  intros env w w' Hw. unfold load_Browser.
  pose proof (Forall2_nth_error_rel _ _ _ (proj1 Hw) self) as H.
  destruct (nth_error (heap w) self) as [[a | a | a] |],
           (nth_error (heap w') self) as [[a' | a' | a'] |];
    simpl in *; try contradiction; split; auto.
Qed.

Lemma agree_set_webSocketDebuggerUrl (self : ref) (v : option string) :
  agree eq (set_webSocketDebuggerUrl self v) (set_webSocketDebuggerUrl self v).
Proof.
  unfold set_webSocketDebuggerUrl.
  eapply agree_bind; [apply agree_load_Session |].
  intros a a' <- env w w' (Hheap & Hcalls & Hout). simpl.
  repeat split; try assumption.
  apply Forall2_update; [assumption | reflexivity].
Qed.

Lemma agree_set_sessions (self : ref) (s : ref) :
  agree eq (set_sessions self s) (set_sessions self s).
Proof.
  unfold set_sessions.
  eapply agree_bind; [apply agree_load_Browser |].
  intros a a' [Hbase _] env w w' (Hheap & Hcalls & Hout). simpl.
  repeat split; try assumption.
  apply Forall2_update; [assumption | split; [exact Hbase | reflexivity]].
Qed.

Lemma agree_raise_for_status (r : Response) :
  agree eq (raise_for_status r) (raise_for_status r).
Proof.
  unfold raise_for_status.
  destruct (http_error_msg r); [apply agree_raise | apply agree_ret; reflexivity].
Qed.

Lemma agree_json (r : Response) : agree eq (json r) (json r).
Proof.
  unfold json. eapply agree_bind; [apply agree_ask |]. intros env env' <-.
  destruct (body r); [apply agree_raise | apply agree_ret; reflexivity].
Qed.

Lemma agree_get (data : value) (key : string) : agree eq (get data key) (get data key).
Proof.
  unfold get. destruct data; first [apply agree_raise | apply agree_ret; reflexivity].
Qed.

Lemma agree_py_urljoin (base rel : string) :
  agree eq (py_urljoin base rel) (py_urljoin base rel).
Proof.
  unfold py_urljoin. eapply agree_bind; [apply agree_ask |]. intros env env' <-.
  apply agree_lift.
Qed.

Lemma agree_py_urlparse (v : value) : agree eq (py_urlparse v) (py_urlparse v).
Proof.
  unfold py_urlparse. eapply agree_bind; [apply agree_ask |]. intros env env' <-.
  destruct v; first [apply agree_raise | apply agree_lift].
Qed.

(** One call, the check of its status and what is made of the answer, under
    a clause that only re-raises. *)
Lemma agree_guarded_call {A : Type} (c : Call) (k : Response -> M A) (prefix : string) :
  (forall r, agree eq (k r) (k r)) ->
  let m := try_except
             (response <- request c ;; raise_for_status response ;; k response)
             [(is_RequestException,
               fun e => raise (RequestException (prefix ++ str e)))] in
  agree eq m m.
Proof.
  intros Hk m. apply agree_try_except.
  - eapply agree_bind; [apply agree_request |]. intros r r' <-.
    eapply agree_bind; [apply agree_raise_for_status |]. intros _ _ _.
    apply Hk.
  - constructor; [| constructor]. intros e. apply agree_raise.
Qed.

Lemma agree_health_check (self : ref) :
  agree eq (health_check self) (health_check self).
Proof.
  unfold health_check.
  eapply agree_bind; [apply agree_load_Browser |]. intros a a' [<- _].
  eapply agree_bind; [apply agree_py_urljoin |]. intros u u' <-.
  apply (agree_guarded_call (health_call u) json "Health check failed: ").
  apply agree_json.
Qed.

Lemma agree_get_session_logs (self : ref) (session_id : string) :
  agree eq (get_session_logs self session_id) (get_session_logs self session_id).
Proof.
  unfold get_session_logs.
  eapply agree_bind; [apply agree_load_Browser |]. intros a a' [<- _].
  eapply agree_bind; [apply agree_py_urljoin |]. intros u u' <-.
  apply (agree_guarded_call (logs_call u) json "Failed to get session logs: ").
  apply agree_json.
Qed.

Lemma agree_delete_session (self : ref) (session_id : string) :
  agree eq (delete_session self session_id) (delete_session self session_id).
Proof.
  unfold delete_session.
  eapply agree_bind; [apply agree_load_Browser |]. intros a a' [<- _].
  eapply agree_bind; [apply agree_py_urljoin |]. intros u u' <-.
  apply (agree_guarded_call (delete_call u session_id) (fun _ => ret true)
           "Failed to delete session: ").
  intros r. apply agree_ret. reflexivity.
Qed.

Lemma agree__get_web_socket_debugger_url (self : ref) :
  agree eq (_get_web_socket_debugger_url self) (_get_web_socket_debugger_url self).
Proof.
  unfold _get_web_socket_debugger_url. apply agree_try_except.
  - eapply agree_bind; [apply agree_load_Session |]. intros this this' <-.
    eapply agree_bind; [apply agree_load_Browser |]. intros a a' [<- _].
    eapply agree_bind; [apply agree_py_urljoin |]. intros u u' <-.
    eapply agree_bind; [apply agree_request |]. intros r r' <-.
    eapply agree_bind; [apply agree_raise_for_status |]. intros _ _ _.
    eapply agree_bind; [apply agree_json |]. intros data data' <-.
    eapply agree_bind; [apply agree_get |]. intros full_ws_url full_ws_url' <-.
    destruct (truthy full_ws_url); [| apply agree_set_webSocketDebuggerUrl].
    eapply agree_bind; [apply agree_py_urlparse |]. intros parsed parsed' <-.
    apply agree_set_webSocketDebuggerUrl.
  - constructor; [| constructor]. intros e. cbn [snd].
    eapply agree_bind; [apply agree_print |]. intros _ _ _.
    apply agree_set_webSocketDebuggerUrl.
Qed.

Lemma agree_Session__init__ (session_id : value) (browser : ref) :
  agree eq (Session__init__ session_id browser) (Session__init__ session_id browser).
Proof.
  unfold Session__init__.
  eapply agree_bind; [apply agree_alloc, same_but_key_refl |]. intros self self' <-.
  eapply agree_bind; [apply agree__get_web_socket_debugger_url |]. intros _ _ _.
  apply agree_ret. reflexivity.
Qed.

Lemma agree_Browser__init__ (api_key base_url : string) :
  agree eq (Browser__init__ api_key base_url) (Browser__init__ api_key base_url).
Proof.
  unfold Browser__init__.
  eapply agree_bind; [apply agree_alloc, same_but_key_refl |]. intros self self' <-.
  eapply agree_bind; [apply agree_alloc, same_but_key_refl |].
  intros sessions sessions' <-.
  eapply agree_bind; [apply agree_set_sessions |]. intros _ _ _.
  apply agree_ret. reflexivity.
Qed.

Lemma same_but_keys_after (env : Env) (op : operation) (w w' : World) :
  sends_no_key op = true ->
  same_but_keys w w' ->
  same_but_keys (after env op w) (after env op w').
Proof.
  intros Hop Hw. destruct op; try discriminate; cbn [after].
  - apply (agree_Browser__init__ api_key base_url env w w' Hw).
  - apply (agree_alloc _ _ (same_but_key_refl _) env w w' Hw).
  - apply (agree_Session__init__ session_id browser env w w' Hw).
  - apply (agree__get_web_socket_debugger_url self env w w' Hw).
  - apply (agree_health_check self env w w' Hw).
  - apply (agree_get_session_logs self session_id env w w' Hw).
  - apply (agree_delete_session self session_id env w w' Hw).
Qed.

(** X1.  Whatever is done with the module, in any number of operations, the
    calls made are added to the log in order and each is one of the five
    calls of the client, so that a GET or a DELETE has no body and no
    header and at most the one parameter [session_id]; the only lines
    printed are the warnings of the lookup.  And no operation but [create]
    depends on the API key: from two worlds that are the same but for the
    API keys of their browsers, a sequence of operations without [create]
    makes the same calls, prints the same lines and leaves the same
    objects, but for those keys. *)
Theorem operations_log_client_calls (env : Env) (ops : list operation) (w : World) :
  (exists cs out,
     calls (after_all env ops w) = (calls w ++ cs)%list
     /\ Forall client_call cs
     /\ Forall (fun c => call_method c <> POST ->
                         call_json c = None /\ call_headers c = []
                         /\ (call_params c = []
                             \/ exists v, call_params c = [("session_id", v)])) cs
     /\ stdout (after_all env ops w) = (stdout w ++ out)%list
     /\ Forall is_warning out)
  /\ (forallb sends_no_key ops = true ->
      forall w',
        same_but_keys w w' ->
        same_but_keys (after_all env ops w) (after_all env ops w')).
Proof.
  split.
  - assert (H : log_grows w (after_all env ops w)).
    { revert w. induction ops as [| op ops IH]; intros w; simpl.
      - apply log_grows_refl.
      - eapply log_grows_trans; [apply log_grows_after | apply IH]. }
    destruct H as (cs & out & Hc & Hcs & Ho & Hout).
    exists cs, out. repeat split; try assumption.
    eapply Forall_impl; [| exact Hcs].
    intros c [(u & ->) | [(u & v & ->) | [(u & s & ->) | (u & p & k & ->)]]] Hpost;
      simpl in *; try congruence; repeat split; eauto.
  - revert w. induction ops as [| op ops IH]; intros w Hops w' Hw; simpl.
    + exact Hw.
    + simpl in Hops. apply andb_true_iff in Hops as [Hop Hops].
      apply IH; [exact Hops |].
      apply same_but_keys_after; assumption.
Qed.

(** A check of the health, the construction of a session and the end of a
    session make the same calls whichever API key the browser has. *)
Lemma operations_log_client_calls_witness :
  calls (after_all env_working
           [HealthCheck 0; NewSession (PyStr "abc") 0; DeleteSession 0 "abc"]
           example_world)
  = calls (after_all env_working
             [HealthCheck 0; NewSession (PyStr "abc") 0; DeleteSession 0 "abc"]
             other_key_world).
Proof.
  destruct (operations_log_client_calls env_working
              [HealthCheck 0; NewSession (PyStr "abc") 0; DeleteSession 0 "abc"]
              example_world) as [_ H].
  refine (proj1 (proj2 (H eq_refl other_key_world _))).
  split; [| split; reflexivity].
  constructor; [split; reflexivity |].
  constructor; [reflexivity | constructor].
Defined.

(** ** Objects *)

Lemma same_identity_refl (o : obj) : same_identity o o.
Proof. destruct o; simpl; auto. Qed.

Lemma same_identity_trans (o1 o2 o3 : obj) :
  same_identity o1 o2 -> same_identity o2 o3 -> same_identity o1 o3.
Proof.
  destruct o1, o2, o3; simpl; try tauto; try congruence.
  - intros [H1 H2] [H3 H4]. split; congruence.
  - intros [H1 H2] [H3 H4]. split; congruence.
Qed.

Lemma objects_persist_refl (w : World) : objects_persist w w.
Proof. intros i o H. exists o. split; [exact H | apply same_identity_refl]. Qed.

Lemma objects_persist_trans (w1 w2 w3 : World) :
  objects_persist w1 w2 -> objects_persist w2 w3 -> objects_persist w1 w3.
Proof.
  intros H12 H23 i o H.
  destruct (H12 i o H) as (o2 & H2 & Hid2).
  destruct (H23 i o2 H2) as (o3 & H3 & Hid3).
  exists o3. split; [exact H3 | eapply same_identity_trans; eassumption].
Qed.

Lemma objects_persist_grown (t : list obj) (w : World) :
  objects_persist w (with_heap (heap w ++ t) w).
Proof.
  intros i o H. exists o. split; [apply nth_error_grown, H | apply same_identity_refl].
Qed.

Lemma nth_error_update_same {A : Type} (l : list A) (i : nat) (x y : A) :
  nth_error l i = Some y -> nth_error (update i x l) i = Some x.
Proof.
  revert i. induction l as [| z l IH]; intros [| i] H; simpl in *;
    try discriminate; [reflexivity | apply IH, H].
Qed.

Lemma objects_persist_set (self : ref) (v : option string) :
  maintains objects_persist (set_webSocketDebuggerUrl self v).
Proof.
  intros env w. unfold set_webSocketDebuggerUrl. rewrite bind_run.
  unfold load_Session.
  destruct (nth_error (heap w) self) as [[a | a | a] |] eqn:Hself;
    try apply objects_persist_refl.
  intros i o H. simpl.
  destruct (Nat.eq_dec i self) as [-> | Hne].
  - rewrite (nth_error_update_same _ _ _ _ Hself).
    eexists. split; [reflexivity |].
    rewrite Hself in H. inversion H. subst o. simpl. auto.
  - rewrite nth_error_update_other; [| exact Hne].
    exists o. split; [exact H | apply same_identity_refl].
Qed.

Lemma objects_persist_after (env : Env) (op : operation) (w : World) :
  objects_persist w (after env op w).
Proof.
  pose proof objects_persist_refl as Hrefl.
  pose proof objects_persist_trans as Htrans.
  pose proof (fun (msg : string) w => objects_persist_refl w) as Hprint.
  pose proof (fun o w => objects_persist_grown [o] w) as Halloc.
  pose proof (fun (c : Call) w (_ : client_call c) => objects_persist_refl w) as Hrequest.
  pose proof objects_persist_set as Hset.
  assert (Hinit : forall v b, maintains objects_persist (Session__init__ v b)).
  { intros v b. apply maintains_Session__init__; assumption. }
  destruct op; cbn [after].
  - rewrite Browser__init___run. apply objects_persist_grown.
  - apply maintains_Sessions__init__; assumption.
  - apply Hinit.
  - apply maintains__get_web_socket_debugger_url; auto.
  - apply maintains_create; assumption.
  - apply maintains_health_check; assumption.
  - apply maintains_get_session_logs; assumption.
  - apply maintains_delete_session; assumption.
Qed.

(** X2.  Whatever is done with the module, the lookup run again on the
    session included, a [Session] that is on the heap stays there and keeps
    its [id] and its browser; only its [webSocketDebuggerUrl] can change. *)
Theorem session_keeps_id (env : Env) (ops : list operation) (w : World)
    (self : ref) (S : Session.attrs) :
  nth_error (heap w) self = Some (OSession S) ->
  exists ws,
    nth_error (heap (after_all env ops w)) self
    = Some (session (Session.id S) (Session._browser S) ws).
Proof.
  intros H.
  assert (Hall : objects_persist w (after_all env ops w)).
  { clear H. revert w. induction ops as [| op ops IH]; intros w; simpl.
    - apply objects_persist_refl.
    - eapply objects_persist_trans; [apply objects_persist_after | apply IH]. }
  destruct (Hall self _ H) as (o' & Ho' & Hid).
  destruct o' as [[id' b' ws'] | |]; simpl in Hid; try contradiction.
  destruct Hid as [<- <-]. exists ws'. exact Ho'.
Qed.

Lemma others_kept_refl (self : ref) (w : World) : others_kept self w w.
Proof. intros i o _ H. exact H. Qed.

Lemma others_kept_trans (self : ref) (w1 w2 w3 : World) :
  others_kept self w1 w2 -> others_kept self w2 w3 -> others_kept self w1 w3.
Proof. intros H12 H23 i o Hne H. apply H23, H12; assumption. Qed.

Lemma others_kept_set (self : ref) (v : option string) :
  maintains (others_kept self) (set_webSocketDebuggerUrl self v).
Proof.
  intros env w. unfold set_webSocketDebuggerUrl. rewrite bind_run.
  unfold load_Session.
  destruct (nth_error (heap w) self) as [[a | a | a] |];
    try apply others_kept_refl.
  intros i o Hne H. simpl. rewrite nth_error_update_other; assumption.
Qed.

Lemma others_kept_lookup (self : ref) :
  maintains (others_kept self) (_get_web_socket_debugger_url self).
Proof.
  apply maintains__get_web_socket_debugger_url.
  - apply others_kept_refl.
  - apply others_kept_trans.
  - intros msg w. exact (others_kept_refl self w).
  - intros c w _. exact (others_kept_refl self w).
  - apply others_kept_set.
Qed.

Lemma existing_kept_refl (w : World) : existing_kept w w.
Proof. intros i o H. exact H. Qed.

Lemma existing_kept_trans (w1 w2 w3 : World) :
  existing_kept w1 w2 -> existing_kept w2 w3 -> existing_kept w1 w3.
Proof. intros H12 H23 i o H. apply H23, H12, H. Qed.

Lemma existing_kept_grown (t : list obj) (w : World) :
  existing_kept w (with_heap (heap w ++ t) w).
Proof. intros i o H. apply nth_error_grown, H. Qed.

(** The lookup that [Session(session_id, browser)] runs is on the object
    it has just made. *)
Lemma existing_kept_Session__init__ (session_id : value) (browser : ref) :
  maintains existing_kept (Session__init__ session_id browser).
Proof.
  intros env w i o H.
  assert (Hfresh : i <> length (heap w)).
  { intros ->.
    assert (Hnone : nth_error (heap w) (length (heap w)) = None)
      by (apply nth_error_None; lia).
    congruence. }
  unfold Session__init__. rewrite bind_run. unfold alloc at 1.
  set (w1 := with_heap _ w). rewrite bind_run.
  pose proof (others_kept_lookup (length (heap w)) env w1 i o Hfresh) as Hlookup.
  destruct (_get_web_socket_debugger_url (length (heap w)) env w1) as [[e | []] w2];
    simpl in *; apply Hlookup, nth_error_grown, H.
Qed.

Lemma existing_kept_after (env : Env) (op : operation) (w : World) :
  is_public op = true -> existing_kept w (after env op w).
Proof.
  pose proof existing_kept_refl as Hrefl.
  pose proof existing_kept_trans as Htrans.
  pose proof (fun o w => existing_kept_grown [o] w) as Halloc.
  pose proof (fun (c : Call) w (_ : client_call c) => existing_kept_refl w) as Hrequest.
  pose proof existing_kept_Session__init__ as Hinit.
  destruct op; cbn [after is_public]; intros Hpublic; try discriminate.
  - rewrite Browser__init___run. apply existing_kept_grown.
  - apply maintains_Sessions__init__; assumption.
  - apply Hinit.
  - apply maintains_create; assumption.
  - apply maintains_health_check; assumption.
  - apply maintains_get_session_logs; assumption.
  - apply maintains_delete_session; assumption.
Qed.

(** X3.  The constructors and the public methods never touch an object
    that exists: after any number of them every object of the heap is as it
    was.  A [Session] in particular is as it was constructed, also after
    [delete_session] was called with its id. *)
Theorem public_operations_keep_objects (env : Env) (ops : list operation)
    (w : World) (i : ref) (o : obj) :
  forallb is_public ops = true ->
  nth_error (heap w) i = Some o ->
  nth_error (heap (after_all env ops w)) i = Some o.
Proof.
  revert w. induction ops as [| op ops IH]; intros w Hpublic H; simpl in *.
  - exact H.
  - apply andb_true_iff in Hpublic as [Hop Hops].
    apply IH; [exact Hops |]. apply existing_kept_after; assumption.
Qed.

(** ** The methods of Browser in any world *)

Ltac enter_method w self :=
  rewrite bind_run; unfold load_Browser;
  destruct (nth_error (heap w) self) as [[? | ? | ?] |];
  [| | rewrite bind_run, py_urljoin_run;
       match goal with
       | |- context [urljoin ?c ?b ?r] =>
           let e := fresh "e" in
           let u := fresh "u" in
           let Hjoin := fresh "Hjoin" in
           destruct (urljoin c b r) as [e | u] eqn:Hjoin
       end |].

(** X4.  [health_check], [get_session_logs] and [delete_session] make at
    most one call and never try again: the world they leave is the one
    they found, or the one they found with one call more in the log, a GET
    without parameters or the DELETE with the session id.  They create and
    change no object and print nothing. *)
Theorem browser_methods_call_at_most_once (env : Env) (w : World) (self : ref)
    (session_id : string) :
  (snd (health_check self env w) = w
   \/ exists u, snd (health_check self env w) = logged (health_call u) w)
  /\ (snd (get_session_logs self session_id env w) = w
      \/ exists u, snd (get_session_logs self session_id env w) = logged (logs_call u) w)
  /\ (snd (delete_session self session_id env w) = w
      \/ exists u, snd (delete_session self session_id env w)
                   = logged (delete_call u session_id) w).
Proof.
  split; [| split].
  - unfold health_check. enter_method w self; try (left; reflexivity).
    right. exists u. unfold requests_get. fold (health_call u).
    rewrite (guarded_call_run (health_call u) json).
    destruct (server env (calls w) (health_call u)) as [msg | r]; [reflexivity |].
    destruct (http_error_msg r); [reflexivity |].
    rewrite json_guarded_run. destruct (body r); reflexivity.
  - unfold get_session_logs. enter_method w self; try (left; reflexivity).
    right. exists u. unfold requests_get. fold (health_call u). fold (logs_call u).
    rewrite (guarded_call_run (logs_call u) json).
    destruct (server env (calls w) (logs_call u)) as [msg | r]; [reflexivity |].
    destruct (http_error_msg r); [reflexivity |].
    rewrite json_guarded_run. destruct (body r); reflexivity.
  - unfold delete_session. enter_method w self; try (left; reflexivity).
    right. exists u. unfold requests_delete. fold (delete_call u session_id).
    rewrite (guarded_call_run (delete_call u session_id) (fun _ => ret true)).
    destruct (server env (calls w) (delete_call u session_id)) as [msg | r];
      [reflexivity |].
    destruct (http_error_msg r); reflexivity.
Qed.

(** X5.  [delete_session] never returns [False]: when it returns, it
    returns [True], and exactly one DELETE was made; every failure is an
    exception. *)
Theorem delete_session_never_false (env : Env) (w w' : World) (self : ref)
    (session_id : string) (b : bool) :
  delete_session self session_id env w = (Return b, w') ->
  b = true /\ exists u, w' = logged (delete_call u session_id) w.
Proof.
  unfold delete_session. enter_method w self; try discriminate.
  unfold requests_delete. fold (delete_call u session_id).
  rewrite (guarded_call_run (delete_call u session_id) (fun _ => ret true)).
  destruct (server env (calls w) (delete_call u session_id)) as [msg | r];
    [discriminate |].
  destruct (http_error_msg r); [discriminate |].
  rewrite try_except_run. unfold ret. intros H. inversion H. eauto.
Qed.

Lemma delete_session_never_false_witness :
  true = true
  /\ exists u, logged (delete_call instance_url "abc") example_world
               = logged (delete_call u "abc") example_world.
Proof.
  apply (delete_session_never_false env_working example_world _ 0 "abc" true).
  reflexivity.
Defined.

Lemma wrapped_outcome {A : Type} (m : M A) (prefix : string) (env : Env)
    (w w' : World) (e : exn) :
  try_except m
    [(is_RequestException, fun e => raise (RequestException (prefix ++ str e)))]
    env w = (Raise e, w') ->
  is_RequestException e = true ->
  exists msg, e = RequestException (prefix ++ msg).
Proof.
  rewrite try_except_run.
  destruct (m env w) as [[e0 | a] w0]; [| discriminate].
  simpl. destruct (is_RequestException e0) eqn:He0.
  - unfold raise. intros H _. inversion H. eauto.
  - intros H He. inversion H. congruence.
Qed.

Lemma create_wrapped_outcome {A : Type} (m : M A) (env : Env) (w w' : World) (e : exn) :
  try_except m
    [(is_RequestException,
      fun e => raise (RequestException ("Failed to create session: " ++ str e)));
     (is_KeyError_or_ValueError,
      fun e => raise (ValueError ("Invalid response from API: " ++ str e)))]
    env w = (Raise e, w') ->
  is_RequestException e = true ->
  exists msg, e = RequestException ("Failed to create session: " ++ msg).
Proof.
  rewrite try_except_run.
  destruct (m env w) as [[e0 | a] w0]; [| discriminate].
  simpl. destruct (is_RequestException e0) eqn:He0.
  - unfold raise. intros H _. inversion H. eauto.
  - destruct (is_KeyError_or_ValueError e0); unfold raise; intros H He;
      inversion H; subst; simpl in He; congruence.
Qed.

(** X6.  No exception of [requests] leaves a method as the library raised
    it: a [RequestException] that [health_check], [get_session_logs],
    [delete_session] or [create] raises is the one the method builds, a
    plain [RequestException] whose message starts with the method's
    prefix. *)
Theorem request_exceptions_carry_prefix (env : Env) (w w' : World) (self : ref)
    (arg : string) (e : exn) :
  is_RequestException e = true ->
  (health_check self env w = (Raise e, w') ->
   exists msg, e = RequestException ("Health check failed: " ++ msg))
  /\ (get_session_logs self arg env w = (Raise e, w') ->
      exists msg, e = RequestException ("Failed to get session logs: " ++ msg))
  /\ (delete_session self arg env w = (Raise e, w') ->
      exists msg, e = RequestException ("Failed to delete session: " ++ msg))
  /\ (create self arg env w = (Raise e, w') ->
      exists msg, e = RequestException ("Failed to create session: " ++ msg)).
Proof.
  intros He. split; [| split; [| split]].
  - unfold health_check. enter_method w self;
      try (intros H; inversion H; subst; discriminate).
    + intros H. inversion H. subst.
      destruct (urljoin_raises _ _ _ _ Hjoin) as [msg ->]. discriminate.
    + intros H. eapply wrapped_outcome; eassumption.
  - unfold get_session_logs. enter_method w self;
      try (intros H; inversion H; subst; discriminate).
    + intros H. inversion H. subst.
      destruct (urljoin_raises _ _ _ _ Hjoin) as [msg ->]. discriminate.
    + intros H. eapply wrapped_outcome; eassumption.
  - unfold delete_session. enter_method w self;
      try (intros H; inversion H; subst; discriminate).
    + intros H. inversion H. subst.
      destruct (urljoin_raises _ _ _ _ Hjoin) as [msg ->]. discriminate.
    + intros H. eapply wrapped_outcome; eassumption.
  - unfold create. rewrite bind_run. unfold load_Sessions.
    destruct (nth_error (heap w) self) as [[a | this | a] |];
      try (intros H; inversion H; subst; discriminate).
    enter_method w (Sessions._browser this);
      try (intros H; inversion H; subst; discriminate).
    + intros H. inversion H. subst.
      destruct (urljoin_raises _ _ _ _ Hjoin) as [msg ->]. discriminate.
    + intros H. eapply create_wrapped_outcome; eassumption.
Qed.

Lemma request_exceptions_carry_prefix_witness :
  exists msg,
    RequestException "Health check failed: Connection refused"
    = RequestException ("Health check failed: " ++ msg).
Proof.
  destruct (request_exceptions_carry_prefix env_down example_world
              (logged (health_call health_url) example_world) 0 ""
              (RequestException "Health check failed: Connection refused") eq_refl)
    as [H _].
  apply H. reflexivity.
Defined.

(** ** The session id and the errors of the lookup *)

(** X7.  [create] tests the [session_id] of the answer for truth and does
    not look at its type.  A falsy one, [None], [False], [0], [0.0], [""],
    [[]] or [{}], is refused as missing and no object is made.  A truthy
    one of any type is taken as it is: it is the query parameter of the
    lookup and, when the lookup settles, the [id] of the [Session]
    returned. *)
Theorem session_id_tested_for_truth (env : Env) (w : World) (self browser : ref)
    (B : Browser.attrs) (project_id u : string) (r : Response)
    (items : list (string * value)) (v : value) :
  nth_error (heap w) self = Some (OSessions {| Sessions._browser := browser |}) ->
  nth_error (heap w) browser = Some (OBrowser B) ->
  urljoin (check_bracketed_netloc env) (Browser.base_url B) "/instance" = Return u ->
  let post := create_call u project_id (Browser.api_key B) in
  server env (calls w) post = Responds r ->
  is_error_status r = false ->
  body r = inr (PyDict items) ->
  assoc "session_id" items = Some v ->
  if truthy v
  then exists u2,
         urljoin (check_bracketed_netloc env) (Browser.base_url B) "/json/version"
         = Return u2
         /\ (lookup_settles env (server env (calls w ++ [post]) (version_call u2 v))
             = true ->
             exists ws out,
               create self project_id env w =
               (Return (length (heap w)),
                constructed (session v browser ws) (version_call u2 v) out
                  (logged post w)))
  else create self project_id env w =
       (Raise (ValueError "Invalid response from API: No session_id returned from API"),
        logged post w).
Proof.
  intros Hself Hbrowser Hjoin post Hserver Hstatus Hbody Hsid.
  destruct (truthy v) eqn:Htruthy.
  - destruct (urljoin_version_of_instance _ _ _ Hjoin) as [u2 Hjoin2].
    exists u2. split; [exact Hjoin2 |]. intros Hsettles.
    pose proof (Session__init___settles env (logged post w) v browser B u2
                  Hbrowser Hjoin2) as H.
    cbv zeta in H.
    change (calls (logged post w)) with (calls w ++ [post])%list in H.
    change (heap (logged post w)) with (heap w) in H.
    rewrite Hsettles in H. destruct H as (ws & out & H). exists ws, out.
    apply (create_constructs env w self browser B project_id u r items v); assumption.
  - rewrite (create_run env w self browser B project_id u Hself Hbrowser Hjoin).
    cbv zeta. fold post.
    rewrite Hserver, (http_error_msg_none r Hstatus), Hbody, Hsid, Htruthy.
    reflexivity.
Qed.

(** A server that gives the number 42 for a session id, and one that gives 0. *)
Lemma session_id_tested_for_truth_witness :
  (exists ws out,
     create 1 "proj"
       (example_env unreachable (ok (PyDict [("session_id", PyInt 42)])) unreachable true)
       example_world =
     (Return 2,
      constructed (session (PyInt 42) 0 ws) (version_call version_url (PyInt 42)) out
        (logged (create_call instance_url "proj" "secret-key") example_world)))
  /\ create 1 "proj"
       (example_env unreachable (ok (PyDict [("session_id", PyInt 0)])) unreachable true)
       example_world =
     (Raise (ValueError "Invalid response from API: No session_id returned from API"),
      logged (create_call instance_url "proj" "secret-key") example_world).
Proof.
  split.
  - destruct (session_id_tested_for_truth
                (example_env unreachable (ok (PyDict [("session_id", PyInt 42)]))
                   unreachable true)
                example_world 1 0 example_browser "proj" instance_url
                (response 200 "OK" (inr (PyDict [("session_id", PyInt 42)])))
                [("session_id", PyInt 42)] (PyInt 42)
                eq_refl eq_refl eq_refl eq_refl eq_refl eq_refl eq_refl)
      as (u2 & Hu2 & H).
    vm_compute in Hu2. injection Hu2 as <-.
    apply H. reflexivity.
  - exact (session_id_tested_for_truth
             (example_env unreachable (ok (PyDict [("session_id", PyInt 0)]))
                unreachable true)
             example_world 1 0 example_browser "proj" instance_url
             (response 200 "OK" (inr (PyDict [("session_id", PyInt 0)])))
             [("session_id", PyInt 0)] (PyInt 0)
             eq_refl eq_refl eq_refl eq_refl eq_refl eq_refl eq_refl).
Defined.

(** X8.  An error of the lookup that is not a [RequestException] is not
    swallowed: it comes out of [create], although the POST has created the
    session.  A body that is not JSON, under a [requests] whose decoder
    raises a plain [ValueError], and a debugger URL that [urlparse]
    rejects come out as the "Invalid response from API" [ValueError]; an
    answer that is not a JSON object, and a truthy debugger URL that is
    not a string, come out as the [AttributeError] they raise.  The
    [Session] object is on the heap, with no debugger URL, and is not
    returned. *)
Theorem lookup_error_reaches_caller (env : Env) (w : World) (self browser : ref)
    (B : Browser.attrs) (project_id u u2 : string) (r r2 : Response)
    (items : list (string * value)) (v : value) :
  nth_error (heap w) self = Some (OSessions {| Sessions._browser := browser |}) ->
  nth_error (heap w) browser = Some (OBrowser B) ->
  urljoin (check_bracketed_netloc env) (Browser.base_url B) "/instance" = Return u ->
  urljoin (check_bracketed_netloc env) (Browser.base_url B) "/json/version" = Return u2 ->
  let post := create_call u project_id (Browser.api_key B) in
  let lookup := version_call u2 v in
  let left_behind := constructed (session v browser None) lookup [] (logged post w) in
  server env (calls w) post = Responds r ->
  is_error_status r = false ->
  body r = inr (PyDict items) ->
  assoc "session_id" items = Some v ->
  truthy v = true ->
  server env (calls w ++ [post]) lookup = Responds r2 ->
  is_error_status r2 = false ->
  match body r2 with
  | inl msg =>
      json_error_is_request_exception env = false ->
      create self project_id env w =
      (Raise (ValueError ("Invalid response from API: " ++ msg)), left_behind)
  | inr (PyDict items2) =>
      match assoc "webSocketDebuggerUrl" items2 with
      | Some (PyStr s) =>
          forall e,
            s <> "" ->
            urlparse (check_bracketed_netloc env) s "" = Raise e ->
            create self project_id env w =
            (Raise (ValueError ("Invalid response from API: " ++ str e)), left_behind)
      | Some x =>
          truthy x = true ->
          create self project_id env w = (Raise (no_attribute x "decode"), left_behind)
      | None => True
      end
  | inr data =>
      create self project_id env w = (Raise (no_attribute data "get"), left_behind)
  end.
Proof.
  intros Hself Hbrowser Hjoin Hjoin2 post lookup left_behind Hserver Hstatus Hbody Hsid
    Htruthy Hserver2 Hstatus2.
  rewrite (create_run env w self browser B project_id u Hself Hbrowser Hjoin).
  cbv zeta. fold post.
  rewrite Hserver, (http_error_msg_none r Hstatus), Hbody, Hsid, Htruthy.
  rewrite try_except_run.
  rewrite (Session__init___run env (logged post w) v browser B u2 Hbrowser Hjoin2).
  cbv zeta.
  change (calls (logged post w)) with (calls w ++ [post])%list.
  fold lookup. rewrite Hserver2, (http_error_msg_none r2 Hstatus2).
  destruct (body r2) as [msg | data].
  { intros ->. reflexivity. }
  destruct data as [| b | n | f | s | l | items2]; try reflexivity.
  destruct (assoc "webSocketDebuggerUrl" items2) as [x |]; [| exact I].
  destruct x as [| b | n | f | s | l | d];
    try (intros ->; reflexivity).
  intros e Hs Hparse. rewrite (truthy_nonempty s Hs), Hparse.
  destruct (urlparse_raises _ _ _ _ Hparse) as [m ->]. reflexivity.
Qed.

Lemma lookup_error_reaches_caller_witness :
  create 1 "proj" env_list example_world =
  (Raise (no_attribute (PyList []) "get"),
   constructed (session (PyStr "abc") 0 None) (version_call version_url (PyStr "abc")) []
     (logged (create_call instance_url "proj" "secret-key") example_world)).
Proof.
  exact (lookup_error_reaches_caller env_list example_world 1 0 example_browser "proj"
           instance_url version_url (response 200 "OK" (inr session_created))
           (response 200 "OK" (inr (PyList []))) [("session_id", PyStr "abc")]
           (PyStr "abc")
           eq_refl eq_refl eq_refl eq_refl eq_refl eq_refl eq_refl eq_refl eq_refl
           eq_refl eq_refl).
Defined.

(** X9.  The lookup run again on a session replaces what the session had:
    when it fails in the transport, is answered with a status from 400 to
    599, or finds no [webSocketDebuggerUrl], the debugger URL that was
    stored is lost and the session is left with [None]. *)
Theorem failed_lookup_erases_url (env : Env) (w : World) (self : ref)
    (S : Session.attrs) (B : Browser.attrs) (u : string) :
  nth_error (heap w) self = Some (OSession S) ->
  nth_error (heap w) (Session._browser S) = Some (OBrowser B) ->
  urljoin (check_bracketed_netloc env) (Browser.base_url B) "/json/version" = Return u ->
  lookup_fails (server env (calls w) (version_call u (Session.id S))) ->
  exists w',
    _get_web_socket_debugger_url self env w = (Return tt, w')
    /\ nth_error (heap w') self
       = Some (session (Session.id S) (Session._browser S) None)
    /\ calls w' = (calls w ++ [version_call u (Session.id S)])%list.
Proof.
  intros Hself Hbrowser Hjoin Hfails.
  rewrite (_get_web_socket_debugger_url_run env w self S B u Hself Hbrowser Hjoin).
  cbv zeta. unfold lookup_fails in Hfails.
  assert (Hstored : forall out,
    nth_error (heap (stored self (session (Session.id S) (Session._browser S) None)
                       (version_call u (Session.id S)) out w)) self
    = Some (session (Session.id S) (Session._browser S) None)).
  { intros out. simpl. eapply nth_error_update_same, Hself. }
  destruct (server env (calls w) (version_call u (Session.id S))) as [msg | r].
  { eexists. split; [reflexivity |]. split; [apply Hstored | reflexivity]. }
  destruct Hfails as [Herr | (Hok & items & Hbody & Habsent)].
  - destruct (http_error_msg_some r Herr) as [msg ->].
    eexists. split; [reflexivity |]. split; [apply Hstored | reflexivity].
  - rewrite (http_error_msg_none r Hok), Hbody, Habsent.
    eexists. split; [reflexivity |]. split; [apply Hstored | reflexivity].
Qed.

Lemma failed_lookup_erases_url_witness :
  exists w',
    _get_web_socket_debugger_url 2 env_down world_with_session = (Return tt, w')
    /\ nth_error (heap w') 2 = Some (session (PyStr "abc") 0 None)
    /\ calls w' = [version_call version_url (PyStr "abc")].
Proof.
  apply (failed_lookup_erases_url env_down world_with_session 2
           {| Session.id := PyStr "abc"; Session._browser := 0;
              Session.webSocketDebuggerUrl := Some "/devtools/page/ABC" |}
           example_browser version_url eq_refl eq_refl eq_refl).
  exact I.
Defined.

(** ** The URLs of the calls *)

Lemma urlparse_http_url (check : string -> option string) (secure : bool)
    (authority p suffix : string) :
  forallb_string authority_char authority = true ->
  brackets_accepted check authority = true ->
  path_abempty p = true ->
  query_or_fragment suffix = true ->
  exists r, urlparse check (http_url secure authority p suffix) "" = Return r
            /\ scheme r = (if secure then "https" else "http")
            /\ netloc r = authority.
Proof.
  intros Hauth Hbr Hpath Hsuf.
  unfold urlparse, urlsplit, http_url.
  destruct secure; simpl;
    rewrite (netloc_cut authority p suffix Hauth Hpath Hsuf);
    unfold brackets_accepted in Hbr;
    destruct (contains "[" authority), (contains "]" authority);
    simpl in Hbr; try discriminate; simpl;
    try (destruct (check authority); [discriminate |]);
    destruct (split_once "#" (p ++ remove_chars unsafe_url_byte suffix))
      as [[u1 f1] |];
    match goal with
    | |- context [split_once "?" ?x] => destruct (split_once "?" x) as [[u2 q2] |]
    end;
    match goal with
    | |- context [if ?c then _ else _] => destruct c
    end;
    try match goal with
        | |- context [_splitparams ?x] => destruct (_splitparams x)
        end;
    (eexists; split; [reflexivity | split; reflexivity]).
Qed.

Lemma urljoin_http_root (check : string -> option string) (secure : bool)
    (authority p suffix : string) :
  forallb_string authority_char authority = true ->
  brackets_accepted check authority = true ->
  path_abempty p = true ->
  query_or_fragment suffix = true ->
  let base := http_url secure authority p suffix in
  urljoin check base "/instance" = Return (origin secure authority ++ "/instance")
  /\ urljoin check base "/health" = Return (origin secure authority ++ "/health")
  /\ urljoin check base "/json/version"
     = Return (origin secure authority ++ "/json/version").
Proof.
  intros Hauth Hbr Hpath Hsuf base.
  destruct (urlparse_http_url check secure authority p suffix Hauth Hbr Hpath Hsuf)
    as ([sch net pth prm qry frg] & Hparse & Hsch & Hnet).
  simpl in Hsch, Hnet. subst sch net.
  fold base in Hparse.
  assert (Hbase : is_empty base = false) by (destruct secure; reflexivity).
  unfold urljoin. rewrite Hbase, Hparse. unfold origin.
  destruct secure, authority; repeat split; reflexivity.
Qed.

Lemma break_none (p : ascii -> bool) (s : string) :
  forallb_string (fun x => negb (p x)) s = true -> break p s = (s, "").
Proof.
  induction s as [| x s IH]; simpl; [reflexivity |].
  intros H. apply andb_true_iff in H as [Hx Hs]. apply negb_true_iff in Hx.
  rewrite Hx, (IH Hs). reflexivity.
Qed.

Lemma split_once_none (c : ascii) (s : string) :
  forallb_string (fun x => negb (is_char c x)) s = true -> split_once c s = None.
Proof. intros H. unfold split_once. rewrite (break_none _ _ H). reflexivity. Qed.

Lemma contains_none (c : ascii) (s : string) :
  forallb_string (fun x => negb (is_char c x)) s = true -> contains c s = false.
Proof. intros H. unfold contains, existsb_string. rewrite H. reflexivity. Qed.

Lemma split_on_none (c : ascii) (s : string) :
  forallb_string (fun x => negb (is_char c x)) s = true -> split_on c s = [s].
Proof.
  induction s as [| x s IH]; simpl; [reflexivity |].
  intros H. apply andb_true_iff in H as [Hx Hs]. apply negb_true_iff in Hx.
  rewrite (IH Hs). unfold is_char in Hx. rewrite Ascii.eqb_sym in Hx. rewrite Hx.
  reflexivity.
Qed.

Lemma plain_char_not (c : ascii) (a : ascii) :
  plain_char c = false -> plain_char a = true -> negb (is_char c a) = true.
Proof.
  intros Hc Ha. apply negb_true_iff. unfold is_char.
  destruct (Ascii.eqb c a) eqn:E; [| reflexivity].
  apply Ascii.eqb_eq in E. subst. congruence.
Qed.

Lemma plain_without (c : ascii) (s : string) :
  plain_char c = false ->
  forallb_string plain_char s = true ->
  forallb_string (fun x => negb (is_char c x)) s = true.
Proof.
  intros Hc. apply forallb_string_weaken. intros a. apply plain_char_not, Hc.
Qed.

Lemma plain_safe (s : string) :
  forallb_string plain_char s = true ->
  forallb_string (fun x => negb (unsafe_url_byte x)) s = true.
Proof.
  apply forallb_string_weaken. intros a Ha.
  apply negb_true_iff. destruct (unsafe_url_byte a) eqn:E; [| reflexivity].
  unfold unsafe_url_byte in E.
  repeat (apply orb_true_iff in E as [E | E]);
    apply Nat.eqb_eq in E;
    unfold plain_char, is_lower, is_upper, is_digit, between, is_char in Ha;
    rewrite E in Ha; simpl in Ha;
    (assert (Hcode : a = ascii_of_nat (code a)) by (unfold code; rewrite ascii_nat_embedding; reflexivity));
    rewrite E in Hcode; subst a; discriminate.
Qed.

Lemma plain_not_dots (s : string) :
  forallb_string plain_char s = true ->
  String.eqb s "." = false /\ String.eqb s ".." = false.
Proof.
  destruct s as [| a s]; [split; reflexivity |].
  simpl. intros H. apply andb_true_iff in H as [Ha _].
  assert (Hdot : Ascii.eqb a "." = false).
  { destruct (Ascii.eqb a ".") eqn:E; [| reflexivity].
    apply Ascii.eqb_eq in E. subst. discriminate. }
  rewrite Hdot. split; reflexivity.
Qed.

(** The URL of the logs of a session whose id is a plain identifier. *)
Lemma urljoin_logs (check : string -> option string) (secure : bool)
    (authority p suffix session_id : string) :
  forallb_string authority_char authority = true ->
  brackets_accepted check authority = true ->
  path_abempty p = true ->
  query_or_fragment suffix = true ->
  forallb_string plain_char session_id = true ->
  urljoin check (http_url secure authority p suffix) ("/logs/" ++ session_id)
  = Return (origin secure authority ++ "/logs/" ++ session_id).
Proof.
  intros Hauth Hbr Hpath Hsuf Hplain.
  destruct (urlparse_http_url check secure authority p suffix Hauth Hbr Hpath Hsuf)
    as ([sch net pth prm qry frg] & Hparse & Hsch & Hnet).
  simpl in Hsch, Hnet. subst sch net.
  assert (Hbase : is_empty (http_url secure authority p suffix) = false)
    by (destruct secure; reflexivity).
  pose proof (plain_without ":" session_id eq_refl Hplain) as Hcolon.
  pose proof (plain_without "#" session_id eq_refl Hplain) as Hhash.
  pose proof (plain_without "?" session_id eq_refl Hplain) as Hquery.
  pose proof (plain_without ";" session_id eq_refl Hplain) as Hsemi.
  pose proof (plain_without "/" session_id eq_refl Hplain) as Hslash.
  pose proof (plain_safe session_id Hplain) as Hsafe.
  destruct (plain_not_dots session_id Hplain) as [Hdot Hdots].
  assert (Hrel : forall sch,
    (sch = "http" \/ sch = "https") ->
    urlparse check ("/logs/" ++ session_id) sch =
    Return {| scheme := sch; netloc := ""; path := "/logs/" ++ session_id;
              params := ""; query := ""; fragment := "" |}).
  { intros sch Hsch. unfold urlparse, urlsplit.
    destruct Hsch as [-> | ->]; simpl;
      rewrite (remove_chars_none _ _ Hsafe);
      unfold split_once; simpl;
      rewrite (break_none _ _ Hcolon); simpl;
      rewrite (break_none _ _ Hhash); simpl;
      rewrite (break_none _ _ Hquery); simpl;
      unfold contains, existsb_string; simpl; rewrite Hsemi; reflexivity. }
  unfold urljoin. rewrite Hbase, Hparse. cbn [is_empty append].
  simpl scheme.
  rewrite Hrel by (destruct secure; auto).
  cbn [scheme netloc path params query fragment].
  unfold origin.
  destruct secure; simpl;
    rewrite (split_on_none "/" session_id Hslash); simpl;
    unfold resolve_segments; simpl;
    rewrite ?Hdot, ?Hdots; simpl;
    destruct authority; reflexivity.
Qed.

Lemma health_check_world (env : Env) (w : World) (self : ref) (B : Browser.attrs)
    (u : string) :
  nth_error (heap w) self = Some (OBrowser B) ->
  urljoin (check_bracketed_netloc env) (Browser.base_url B) "/health" = Return u ->
  snd (health_check self env w) = logged (health_call u) w.
Proof.
  intros Hheap Hjoin. rewrite (health_check_run env w self B u Hheap Hjoin).
  destruct (server env (calls w) (health_call u)) as [msg | r]; [reflexivity |].
  destruct (http_error_msg r); [reflexivity |].
  unfold decoded. destruct (body r); reflexivity.
Qed.

Lemma get_session_logs_world (env : Env) (w : World) (self : ref) (B : Browser.attrs)
    (session_id u : string) :
  nth_error (heap w) self = Some (OBrowser B) ->
  urljoin (check_bracketed_netloc env) (Browser.base_url B) ("/logs/" ++ session_id)
  = Return u ->
  snd (get_session_logs self session_id env w) = logged (logs_call u) w.
Proof.
  intros Hheap Hjoin.
  rewrite (get_session_logs_run env w self B session_id u Hheap Hjoin).
  destruct (server env (calls w) (logs_call u)) as [msg | r]; [reflexivity |].
  destruct (http_error_msg r); [reflexivity |].
  unfold decoded. destruct (body r); reflexivity.
Qed.

Lemma delete_session_world (env : Env) (w : World) (self : ref) (B : Browser.attrs)
    (session_id u : string) :
  nth_error (heap w) self = Some (OBrowser B) ->
  urljoin (check_bracketed_netloc env) (Browser.base_url B) "/instance" = Return u ->
  snd (delete_session self session_id env w) = logged (delete_call u session_id) w.
Proof.
  intros Hheap Hjoin.
  rewrite (delete_session_run env w self B session_id u Hheap Hjoin).
  destruct (server env (calls w) (delete_call u session_id)) as [msg | r];
    [reflexivity |].
  destruct (http_error_msg r); reflexivity.
Qed.

(** The calls of the methods, given the URLs that [urljoin] makes. *)
Lemma calls_with_joined_urls (env : Env) (w : World) (self : ref) (B : Browser.attrs)
    (instance health version : string) :
  nth_error (heap w) self = Some (OBrowser B) ->
  urljoin (check_bracketed_netloc env) (Browser.base_url B) "/instance"
  = Return instance ->
  urljoin (check_bracketed_netloc env) (Browser.base_url B) "/health" = Return health ->
  urljoin (check_bracketed_netloc env) (Browser.base_url B) "/json/version"
  = Return version ->
  snd (health_check self env w) = logged (health_call health) w
  /\ (forall session_id,
        snd (delete_session self session_id env w)
        = logged (delete_call instance session_id) w)
  /\ (forall sessions project_id,
        nth_error (heap w) sessions = Some (OSessions {| Sessions._browser := self |}) ->
        exists rest,
          calls (snd (create sessions project_id env w))
          = (calls w ++ create_call instance project_id (Browser.api_key B) :: rest)%list
          /\ (rest = [] \/ exists v, rest = [version_call version v])).
Proof.
  intros Hheap Hinstance Hhealth Hversion.
  split; [| split].
  - apply (health_check_world env w self B); assumption.
  - intros session_id. apply (delete_session_world env w self B); assumption.
  - intros sessions project_id Hsessions.
    rewrite (create_run env w sessions self B project_id _ Hsessions Hheap Hinstance).
    cbv zeta.
    set (post := create_call instance project_id (Browser.api_key B)).
    destruct (server env (calls w) post) as [msg | r];
      [exists (@nil Call); split; [reflexivity | left; reflexivity] |].
    destruct (http_error_msg r) as [msg |];
      [exists (@nil Call); split; [reflexivity | left; reflexivity] |].
    destruct (body r) as [msg | data];
      [exists (@nil Call); split; [reflexivity | left; reflexivity] |].
    destruct data as [| b | n | f | s | l | items];
      try (exists (@nil Call); split; [reflexivity | left; reflexivity]).
    destruct (assoc "session_id" items) as [v |];
      [| exists (@nil Call); split; [reflexivity | left; reflexivity]].
    destruct (truthy v);
      [| exists (@nil Call); split; [reflexivity | left; reflexivity]].
    destruct (create_handlers_world (Session__init__ v self) env (logged post w))
      as [Hworld _].
    cbv zeta in Hworld. rewrite Hworld.
    rewrite (Session__init___calls env (logged post w) v self B _ Hheap Hversion).
    exists [version_call version v].
    split; [| eauto]. simpl. rewrite <- app_assoc. reflexivity.
Qed.

(** X10.  A path, a query or a fragment in the base URL plays no part:
    with a base URL [http(s)://authority/some/path], the health check, the
    DELETE of a session and the POST that creates one go to
    [http(s)://authority/health] and [http(s)://authority/instance]. *)
Theorem calls_go_to_the_root (env : Env) (w : World) (self : ref) (B : Browser.attrs)
    (secure : bool) (authority p suffix : string) :
  nth_error (heap w) self = Some (OBrowser B) ->
  Browser.base_url B = http_url secure authority p suffix ->
  forallb_string authority_char authority = true ->
  brackets_accepted (check_bracketed_netloc env) authority = true ->
  path_abempty p = true ->
  query_or_fragment suffix = true ->
  snd (health_check self env w)
  = logged (health_call (origin secure authority ++ "/health")) w
  /\ (forall session_id,
        snd (delete_session self session_id env w)
        = logged (delete_call (origin secure authority ++ "/instance") session_id) w)
  /\ (forall sessions project_id,
        nth_error (heap w) sessions = Some (OSessions {| Sessions._browser := self |}) ->
        exists rest,
          calls (snd (create sessions project_id env w))
          = (calls w
             ++ create_call (origin secure authority ++ "/instance") project_id
                  (Browser.api_key B) :: rest)%list
          /\ (rest = []
              \/ exists v,
                   rest = [version_call (origin secure authority ++ "/json/version") v])).
Proof.
  intros Hheap Hbase Hauth Hbr Hpath Hsuf.
  destruct (urljoin_http_root (check_bracketed_netloc env) secure authority p suffix
              Hauth Hbr Hpath Hsuf) as (Hinstance & Hhealth & Hversion).
  rewrite <- Hbase in Hinstance, Hhealth, Hversion.
  apply (calls_with_joined_urls env w self B); assumption.
Qed.

Lemma calls_go_to_the_root_witness :
  snd (health_check 0 env_working
         {| heap := [OBrowser {| Browser.api_key := "secret-key";
                                 Browser.base_url := "http://host:8080/api/v1";
                                 Browser.sessions := None |}];
            calls := []; stdout := [] |})
  = {| heap := [OBrowser {| Browser.api_key := "secret-key";
                            Browser.base_url := "http://host:8080/api/v1";
                            Browser.sessions := None |}];
       calls := [health_call "http://host:8080/health"]; stdout := [] |}.
Proof.
  exact (proj1 (calls_go_to_the_root env_working
                  {| heap := [OBrowser {| Browser.api_key := "secret-key";
                                          Browser.base_url := "http://host:8080/api/v1";
                                          Browser.sessions := None |}];
                     calls := []; stdout := [] |}
                  0 _ false "host:8080" "/api/v1" ""
                  eq_refl eq_refl eq_refl eq_refl eq_refl eq_refl)).
Defined.

(** X11.  The id of a session goes into the URL of its logs as it is: for a
    plain identifier, letters, digits, [-] and [_], the GET of
    [get_session_logs] goes to [http(s)://authority/logs/{session_id}],
    whatever path the base URL has. *)
Theorem logs_url_of_plain_id (env : Env) (w : World) (self : ref) (B : Browser.attrs)
    (secure : bool) (authority p suffix session_id : string) :
  nth_error (heap w) self = Some (OBrowser B) ->
  Browser.base_url B = http_url secure authority p suffix ->
  forallb_string authority_char authority = true ->
  brackets_accepted (check_bracketed_netloc env) authority = true ->
  path_abempty p = true ->
  query_or_fragment suffix = true ->
  forallb_string plain_char session_id = true ->
  snd (get_session_logs self session_id env w)
  = logged (logs_call (origin secure authority ++ "/logs/" ++ session_id)) w.
Proof.
  intros Hheap Hbase Hauth Hbr Hpath Hsuf Hplain.
  apply (get_session_logs_world env w self B); [exact Hheap |].
  rewrite Hbase. apply urljoin_logs; assumption.
Qed.

Lemma logs_url_of_plain_id_witness :
  snd (get_session_logs 0 "abc" env_working example_world)
  = logged (logs_call logs_url) example_world.
Proof.
  exact (logs_url_of_plain_id env_working example_world 0 example_browser true
           "freelw.cc" "" "" "abc"
           eq_refl eq_refl eq_refl eq_refl eq_refl eq_refl eq_refl).
Defined.

(** ** From the constructor to the calls *)

Lemma string_app_assoc (a b c : string) : (a ++ b) ++ c = a ++ b ++ c.
Proof. induction a as [| x a IH]; simpl; [reflexivity | rewrite IH; reflexivity]. Qed.

Lemma rstrip_app_all (p : ascii -> bool) (s t : string) :
  forallb_string p t = true -> rstrip p (s ++ t) = rstrip p s.
Proof.
  revert s. induction t as [| c t IH]; intros s H; simpl in H.
  - rewrite append_empty. reflexivity.
  - apply andb_true_iff in H as [Hc Ht].
    change (String c t) with (String c "" ++ t).
    rewrite <- string_app_assoc, (IH _ Ht). apply rstrip_app, Hc.
Qed.

Lemma rstrip_none (p : ascii -> bool) (t : string) :
  forallb_string (fun a => negb (p a)) t = true -> rstrip p t = t.
Proof.
  induction t as [| c t IH]; simpl; [reflexivity |].
  intros H. apply andb_true_iff in H as [Hc Ht]. apply negb_true_iff in Hc.
  rewrite (IH Ht), Hc, andb_false_r. reflexivity.
Qed.

Lemma rstrip_keeps (p : ascii -> bool) (s t : string) :
  forallb_string (fun a => negb (p a)) t = true -> t <> "" ->
  rstrip p (s ++ t) = s ++ t.
Proof.
  intros Ht Hne. induction s as [| a s IH]; simpl.
  - apply rstrip_none, Ht.
  - rewrite IH. destruct (s ++ t) eqn:E; [| reflexivity].
    destruct s; simpl in E; [congruence | discriminate].
Qed.

Lemma stored_origin (secure : bool) (authority slashes : string) :
  forallb_string authority_char authority = true ->
  authority <> "" ->
  forallb_string (is_char "/") slashes = true ->
  rstrip (is_char "/") (origin secure authority ++ slashes) = origin secure authority.
Proof.
  intros Hauth Hne Hslashes. rewrite (rstrip_app_all _ _ _ Hslashes).
  unfold origin. rewrite <- string_app_assoc.
  apply rstrip_keeps; [| exact Hne].
  eapply forallb_string_weaken; [| exact Hauth].
  intros a Ha. unfold authority_char, netloc_delim in Ha.
  apply andb_true_iff in Ha as [Ha _]. apply negb_true_iff in Ha.
  apply orb_false_iff in Ha as [Ha _]. apply orb_false_iff in Ha as [Ha _].
  rewrite Ha. reflexivity.
Qed.

(** X12.  From the constructor to the calls: with a base URL
    [http(s)://authority] followed by any number of slashes, the browser
    that [Browser(api_key, base_url)] returns sends its health check to
    [http(s)://authority/health], and its [sessions.create(project_id)]
    first sends the POST to [http(s)://authority/instance] with the project
    id and the API key as they were given. *)
Theorem constructed_browser_calls (env : Env) (w : World) (api_key : string)
    (secure : bool) (authority slashes : string) :
  forallb_string authority_char authority = true ->
  brackets_accepted (check_bracketed_netloc env) authority = true ->
  authority <> "" ->
  forallb_string (is_char "/") slashes = true ->
  let self := length (heap w) in
  let w1 := snd (Browser__init__ api_key (origin secure authority ++ slashes) env w) in
  fst (Browser__init__ api_key (origin secure authority ++ slashes) env w) = Return self
  /\ calls w1 = calls w
  /\ snd (health_check self env w1)
     = logged (health_call (origin secure authority ++ "/health")) w1
  /\ (forall project_id,
        exists rest,
          calls (snd (create (S self) project_id env w1))
          = (calls w
             ++ create_call (origin secure authority ++ "/instance") project_id api_key
                :: rest)%list
          /\ (rest = []
              \/ exists v,
                   rest = [version_call (origin secure authority ++ "/json/version") v])).
Proof.
  intros Hauth Hbr Hne Hslashes self w1.
  unfold w1. rewrite Browser__init___run. cbn [fst snd].
  rewrite (stored_origin secure authority slashes Hauth Hne Hslashes).
  set (B := {| Browser.api_key := api_key;
               Browser.base_url := origin secure authority;
               Browser.sessions := Some (S (length (heap w))) |}).
  set (w2 := with_heap _ w).
  assert (Hself : nth_error (heap w2) self = Some (OBrowser B)).
  { unfold w2, self. cbn [heap with_heap].
    rewrite nth_error_app2, Nat.sub_diag; [reflexivity | lia]. }
  assert (Hsessions : nth_error (heap w2) (S self)
                      = Some (OSessions {| Sessions._browser := self |})).
  { unfold w2, self. cbn [heap with_heap].
    rewrite nth_error_app2; [| lia].
    replace (S (length (heap w)) - length (heap w)) with 1 by lia. reflexivity. }
  assert (Hbase : Browser.base_url B = http_url secure authority "" "").
  { unfold B, http_url, origin. cbn [Browser.base_url]. rewrite !append_empty.
    reflexivity. }
  destruct (urljoin_http_root (check_bracketed_netloc env) secure authority "" ""
              Hauth Hbr eq_refl eq_refl) as (Hinstance & Hhealth & Hversion).
  rewrite <- Hbase in Hinstance, Hhealth, Hversion.
  destruct (calls_with_joined_urls env w2 self B _ _ _ Hself Hinstance Hhealth Hversion)
    as (Hcall & _ & Hcreate).
  split; [reflexivity |]. split; [reflexivity |]. split; [exact Hcall |].
  intros project_id. exact (Hcreate (S self) project_id Hsessions).
Qed.

Lemma constructed_browser_calls_witness :
  snd (health_check 0 env_working
         (snd (Browser__init__ "secret-key" "https://freelw.cc//" env_working empty_world)))
  = logged (health_call health_url)
      (snd (Browser__init__ "secret-key" "https://freelw.cc//" env_working empty_world)).
Proof.
  destruct (constructed_browser_calls env_working empty_world "secret-key" true
              "freelw.cc" "//" eq_refl eq_refl ltac:(discriminate) eq_refl)
    as (_ & _ & H & _).
  exact H.
Defined.

(** X13.  An empty base URL, or one made of slashes only, is accepted and
    stored as the empty string; [urljoin] then gives the path as it is, so
    that the calls are made with [/health], [/instance] and
    [/logs/{session_id}] for a URL, whatever the session id is made of. *)
Theorem base_url_of_slashes (env : Env) (w : World) (api_key base_url : string) :
  forallb_string (is_char "/") base_url = true ->
  let self := length (heap w) in
  let w1 := snd (Browser__init__ api_key base_url env w) in
  nth_error (heap w1) self
  = Some (OBrowser {| Browser.api_key := api_key; Browser.base_url := "";
                      Browser.sessions := Some (S self) |})
  /\ snd (health_check self env w1) = logged (health_call "/health") w1
  /\ (forall session_id,
        snd (delete_session self session_id env w1)
        = logged (delete_call "/instance" session_id) w1
        /\ snd (get_session_logs self session_id env w1)
           = logged (logs_call ("/logs/" ++ session_id)) w1).
Proof.
  intros Hslashes self w1.
  unfold w1. rewrite Browser__init___run. cbn [snd].
  assert (Hstored : rstrip (is_char "/") base_url = "").
  { exact (rstrip_app_all (is_char "/") "" base_url Hslashes). }
  rewrite Hstored.
  set (B := {| Browser.api_key := api_key; Browser.base_url := "";
               Browser.sessions := Some (S (length (heap w))) |}).
  set (w2 := with_heap _ w).
  assert (Hself : nth_error (heap w2) self = Some (OBrowser B)).
  { unfold w2, self. cbn [heap with_heap].
    rewrite nth_error_app2, Nat.sub_diag; [reflexivity | lia]. }
  split; [exact Hself |]. split; [| intros session_id; split].
  - apply (health_check_world env w2 self B); [exact Hself | reflexivity].
  - apply (delete_session_world env w2 self B); [exact Hself | reflexivity].
  - apply (get_session_logs_world env w2 self B); [exact Hself | reflexivity].
Qed.

Lemma base_url_of_slashes_witness :
  snd (health_check 0 env_working
         (snd (Browser__init__ "secret-key" "//" env_working empty_world)))
  = logged (health_call "/health")
      (snd (Browser__init__ "secret-key" "//" env_working empty_world)).
Proof.
  destruct (base_url_of_slashes env_working empty_world "secret-key" "//" eq_refl)
    as (_ & H & _).
  exact H.
Defined.

(** ** The normal form of the base URL *)

Lemma rstrip_idempotent (p : ascii -> bool) (s : string) :
  rstrip p (rstrip p s) = rstrip p s.
Proof.
  induction s as [| a s IH]; simpl; [reflexivity |].
  destruct (is_empty (rstrip p s) && p a) eqn:E; [reflexivity |].
  simpl. rewrite IH, E. reflexivity.
Qed.

Lemma rstrip_fixed (p : ascii -> bool) (s : string) :
  (forall c, last_char s = Some c -> p c = false) -> rstrip p s = s.
Proof.
  induction s as [| a s IH]; simpl; [reflexivity |].
  intros Hlast. rewrite last_char_cons in Hlast.
  destruct (last_char s) as [c |] eqn:El.
  - rewrite IH; [| intros c' Hc'; apply Hlast; congruence].
    destruct s; [discriminate | reflexivity].
  - apply last_char_none in El. subst s. simpl.
    rewrite (Hlast a eq_refl). reflexivity.
Qed.

(** X14.  The constructor stores a base URL that does not end with a slash
    as it is given, and what it stores is in normal form: a browser made
    from the stored base URL of another stores the same base URL. *)
Theorem base_url_normal_form (env : Env) (w : World) (api_key base_url : string) :
  (last_char base_url <> Some "/"%char ->
   Browser__init__ api_key base_url env w =
   (Return (length (heap w)),
    with_heap
      (heap w ++ [OBrowser {| Browser.api_key := api_key;
                              Browser.base_url := base_url;
                              Browser.sessions := Some (S (length (heap w))) |};
                  OSessions {| Sessions._browser := length (heap w) |}])%list
      w))
  /\ Browser__init__ api_key (rstrip (is_char "/") base_url) env w
     = Browser__init__ api_key base_url env w.
Proof.
  split.
  - intros Hlast. rewrite Browser__init___run, rstrip_fixed; [reflexivity |].
    intros c Hc. unfold is_char.
    destruct (Ascii.eqb "/" c) eqn:E; [| reflexivity].
    apply Ascii.eqb_eq in E. subst c. contradiction.
  - rewrite !Browser__init___run, rstrip_idempotent. reflexivity.
Qed.

(** ** The string form of a browser *)

Lemma take_all (n : nat) (s : string) : String.length s <= n -> take n s = s.
Proof.
  revert n. induction s as [| a s IH]; intros [| n] H; simpl in *;
    try reflexivity; try lia.
  rewrite IH; [reflexivity | lia].
Qed.

Lemma take_app (s t : string) : take (String.length s) (s ++ t) = s.
Proof. induction s as [| a s IH]; simpl; [destruct t |]; congruence. Qed.

(** X15.  The string form of a browser shows the first eight characters of
    the API key and no more: what follows the eighth character has no
    part in it, and a key of eight characters or fewer is shown whole.
    [repr] is the same string, and neither makes a call or changes
    anything. *)
Theorem str_shows_eight_characters (env : Env) (w : World) (self : ref)
    (B : Browser.attrs) (shown hidden : string) :
  nth_error (heap w) self = Some (OBrowser B) ->
  Browser.api_key B = shown ++ hidden ->
  String.length shown = 8 \/ (String.length shown <= 8 /\ hidden = "") ->
  Browser__str__ self env w =
  (Return ("Browser(api_key='" ++ shown ++ "...', base_url='"
           ++ Browser.base_url B ++ "')"), w)
  /\ Browser__repr__ self env w = Browser__str__ self env w.
Proof.
  intros Hheap Hkey Hshown. split; [| reflexivity].
  unfold Browser__str__. rewrite bind_run, (load_Browser_run _ _ _ _ Hheap).
  rewrite Hkey.
  assert (Htake : take 8 (shown ++ hidden) = shown).
  { destruct Hshown as [H8 | [Hle ->]].
    - rewrite <- H8. apply take_app.
    - rewrite append_empty. apply take_all, Hle. }
  rewrite Htake. reflexivity.
Qed.

Lemma str_shows_eight_characters_witness :
  Browser__str__ 0 env_working example_world =
  (Return "Browser(api_key='secret-k...', base_url='https://freelw.cc')", example_world)
  /\ Browser__repr__ 0 env_working example_world
     = Browser__str__ 0 env_working example_world.
Proof.
  apply (str_shows_eight_characters env_working example_world 0 example_browser
           "secret-k" "ey" eq_refl eq_refl).
  left. reflexivity.
Defined.

(** ** A base URL without a scheme *)

Lemma host_path_without (c : ascii) (s : string) :
  host_path_char c = false ->
  forallb_string host_path_char s = true ->
  forallb_string (fun x => negb (is_char c x)) s = true.
Proof.
  intros Hc. apply forallb_string_weaken. intros a Ha.
  apply negb_true_iff. unfold is_char.
  destruct (Ascii.eqb c a) eqn:E; [| reflexivity].
  apply Ascii.eqb_eq in E. subst. congruence.
Qed.

Lemma host_path_safe (s : string) :
  forallb_string host_path_char s = true ->
  forallb_string (fun x => negb (unsafe_url_byte x)) s = true.
Proof.
  apply forallb_string_weaken. intros a Ha.
  apply negb_true_iff. destruct (unsafe_url_byte a) eqn:E; [| reflexivity].
  unfold unsafe_url_byte in E.
  repeat (apply orb_true_iff in E as [E | E]);
    apply Nat.eqb_eq in E;
    (assert (Hcode : a = ascii_of_nat (code a))
       by (unfold code; rewrite ascii_nat_embedding; reflexivity));
    rewrite E in Hcode; subst a; discriminate.
Qed.

Lemma urlparse_schemeless (check : string -> option string) (a : ascii) (rest : string) :
  is_ascii_alpha a = true ->
  forallb_string host_path_char rest = true ->
  urlparse check (String a rest) "" =
  Return {| scheme := ""; netloc := ""; path := String a rest;
            params := ""; query := ""; fragment := "" |}.
Proof.
  intros Halpha Hrest.
  pose proof (host_path_without ":" rest eq_refl Hrest) as Hcolon.
  pose proof (host_path_without "#" rest eq_refl Hrest) as Hhash.
  pose proof (host_path_without "?" rest eq_refl Hrest) as Hquery.
  pose proof (host_path_without ";" rest eq_refl Hrest) as Hsemi.
  pose proof (host_path_safe rest Hrest) as Hsafe.
  unfold urlparse, urlsplit.
  destruct a as [[] [] [] [] [] [] [] []]; try discriminate Halpha;
    simpl;
    rewrite (remove_chars_none _ _ Hsafe);
    unfold split_once; simpl;
    rewrite (break_none _ _ Hcolon); simpl;
    rewrite (break_none _ _ Hhash); simpl;
    rewrite (break_none _ _ Hquery); simpl;
    unfold contains, existsb_string; simpl; rewrite Hsemi; reflexivity.
Qed.

Lemma urljoin_schemeless (check : string -> option string) (a : ascii) (rest : string) :
  is_ascii_alpha a = true ->
  forallb_string host_path_char rest = true ->
  urljoin check (String a rest) "/instance" = Return "/instance"
  /\ urljoin check (String a rest) "/health" = Return "/health"
  /\ urljoin check (String a rest) "/json/version" = Return "/json/version".
Proof.
  intros Halpha Hrest. unfold urljoin. cbn [is_empty].
  rewrite (urlparse_schemeless check a rest Halpha Hrest).
  repeat split; reflexivity.
Qed.

(** X16.  A base URL without a scheme loses its host: when it starts with
    a letter and is made of letters, digits, [.], [-] and [/] (as
    [example.com] or [localhost/api]), the health check, the DELETE of a
    session and the POST that creates one are made with the bare paths
    [/health] and [/instance] for a URL. *)
Theorem schemeless_base_url_loses_host (env : Env) (w : World) (self : ref)
    (B : Browser.attrs) (a : ascii) (rest : string) :
  nth_error (heap w) self = Some (OBrowser B) ->
  Browser.base_url B = String a rest ->
  is_ascii_alpha a = true ->
  forallb_string host_path_char rest = true ->
  snd (health_check self env w) = logged (health_call "/health") w
  /\ (forall session_id,
        snd (delete_session self session_id env w)
        = logged (delete_call "/instance" session_id) w)
  /\ (forall sessions project_id,
        nth_error (heap w) sessions = Some (OSessions {| Sessions._browser := self |}) ->
        exists rest',
          calls (snd (create sessions project_id env w))
          = (calls w ++ create_call "/instance" project_id (Browser.api_key B) :: rest')%list
          /\ (rest' = [] \/ exists v, rest' = [version_call "/json/version" v])).
Proof.
  intros Hheap Hbase Halpha Hrest.
  destruct (urljoin_schemeless (check_bracketed_netloc env) a rest Halpha Hrest)
    as (Hinstance & Hhealth & Hversion).
  rewrite <- Hbase in Hinstance, Hhealth, Hversion.
  apply (calls_with_joined_urls env w self B); assumption.
Qed.

Lemma schemeless_base_url_loses_host_witness :
  snd (health_check 0 env_working
         {| heap := [OBrowser {| Browser.api_key := "secret-key";
                                 Browser.base_url := "example.com/api";
                                 Browser.sessions := None |}];
            calls := []; stdout := [] |})
  = {| heap := [OBrowser {| Browser.api_key := "secret-key";
                            Browser.base_url := "example.com/api";
                            Browser.sessions := None |}];
       calls := [health_call "/health"]; stdout := [] |}.
Proof.
  exact (proj1 (schemeless_base_url_loses_host env_working
                  {| heap := [OBrowser {| Browser.api_key := "secret-key";
                                          Browser.base_url := "example.com/api";
                                          Browser.sessions := None |}];
                     calls := []; stdout := [] |}
                  0 _ "e" "xample.com/api" eq_refl eq_refl eq_refl eq_refl)).
Defined.

Lemma session_keeps_id_witness :
  exists ws,
    nth_error
      (heap (after_all env_down [Lookup 2; DeleteSession 0 "abc"; Create 1 "proj"]
               world_with_session)) 2
    = Some (session (PyStr "abc") 0 ws).
Proof.
  exact (session_keeps_id env_down [Lookup 2; DeleteSession 0 "abc"; Create 1 "proj"]
           world_with_session 2
           {| Session.id := PyStr "abc"; Session._browser := 0;
              Session.webSocketDebuggerUrl := Some "/devtools/page/ABC" |}
           eq_refl).
Defined.

Lemma public_operations_keep_objects_witness :
  nth_error
    (heap (after_all env_working
             [DeleteSession 0 "abc"; HealthCheck 0; Create 1 "proj";
              NewBrowser "other-key" "http://localhost:9000/"]
             world_with_session)) 2
  = Some (session (PyStr "abc") 0 (Some "/devtools/page/ABC")).
Proof.
  exact (public_operations_keep_objects env_working
           [DeleteSession 0 "abc"; HealthCheck 0; Create 1 "proj";
            NewBrowser "other-key" "http://localhost:9000/"]
           world_with_session 2 _ eq_refl eq_refl).
Defined.

Lemma base_url_normal_form_witness :
  Browser__init__ "secret-key" "https://freelw.cc" env_working empty_world =
  (Return 0, example_world).
Proof.
  destruct (base_url_normal_form env_working empty_world "secret-key" "https://freelw.cc")
    as [H _].
  apply H. discriminate.
Defined.
